(** * NEXUS GROUP backend: role-based access control and workflows

    A shallow embedding of the authorization core of [nexus-backend]
    ([app/core/security.py], [app/core/permissions.py]) and of the
    workflow endpoints built on it ([app/api/v1/endpoints/depenses.py],
    [materiels.py], [documents.py], [auth.py], [chantiers.py]), followed
    by the properties proved about them.

    Modelling conventions.
    - Roles and permissions are Python strings, hence [string] here.
    - The request principal is the dict built by [get_current_user]; it
      is a record whose optional keys are [option]s, so that the
      defaults of the various [user.get(key, default)] calls stay visible.
    - A database table is a finite map from primary key to row ([gmap Z]);
      the stock ledger, which is only ever appended to, is a list.
    - [Float] columns (amounts, quantities) are integers [Z].  The
      endpoints only add, subtract and compare them, and the
      properties below read [+] and [-] as the code's own operations:
      what they use of them is how they behave with the order (adding
      a quantity that is not negative does not lower a value, taking
      [q] from a value that is at least [q] leaves one that is not
      negative), and none rests on an algebraic law that rounding
      breaks.
    - A request handler runs in a session monad holding the last
      committed database and the working copy; [HTTPException] and
      uncaught Python exceptions are the error results, and [get_db]
      commits on success and rolls back on error.
    - Persistence is a store of rows.  A row carries columns that the
      ORM classes of [app/models] declare, and each class comes with
      the list of the attributes it declares.  Where an endpoint
      passes the constructor of a class a keyword outside that list,
      or reads an attribute outside it, the exception raised there
      (TypeError, AttributeError) ends the handler like any uncaught
      exception; assigning to such a name sets a plain attribute of the
      Python object and writes nothing.  Columns that no modelled
      decision depends on (timestamps, free text, audit fields) are
      left out of the rows, and so are the constraints that the
      database checks at commit (uniqueness, foreign keys, lengths):
      properties of the writers are stated for what a request can
      store, not for what the database then accepts.
    - Cryptography, files and the clock stay outside: a download is
      the row it serves, given whether its file is on disk. *)

From stdpp Require Import gmap strings list fin_maps.
From Stdlib Require Import ZArith Lia.

Set Warnings "-clear-no-such-hyp".

Open Scope Z_scope.

(** ** Python helpers *)

(** [x in l] on a Python list. *)
Definition py_in `{EqDecision A} (x : A) (l : list A) : bool :=
  bool_decide (x ∈ l).

(** [d.get(k)] on a dict literal, kept in insertion order. *)
Fixpoint dict_get {V} (d : list (string * V)) (k : string) : option V :=
  match d with
  | [] => None
  | (k', v) :: d' => if bool_decide (k' = k) then Some v else dict_get d' k
  end.

(** [d.values()] *)
Definition dict_values {V} (d : list (string * V)) : list V := d.*2.

(** [x or 0] for a nullable numeric column: [None] and [0] are falsy. *)
Definition or_zero (x : option Z) : Z :=
  match x with
  | Some v => if bool_decide (v = 0) then 0 else v
  | None => 0
  end.

(** ** app/core/security.py *)

Module RoleEnum.
Definition ADMIN_GENERAL := "admin_general".
Definition ADMIN_CHANTIER := "admin_chantier".
Definition COMPTABLE := "comptable".
Definition CHEF_CHANTIER := "chef_chantier".
Definition MAGASINIER := "magasinier".
Definition OUVRIER := "ouvrier".
Definition CLIENT := "client".
Definition DIRECTION := "direction".

Definition all_roles : list string :=
  [ ADMIN_GENERAL; ADMIN_CHANTIER; COMPTABLE;
    CHEF_CHANTIER; MAGASINIER; OUVRIER;
    CLIENT; DIRECTION ].

Definition is_valid (role : string) : bool := py_in role all_roles.
End RoleEnum.

(** [ROLE_INFO]: only the ["level"] entry of each role's metadata is
    modelled; name, description, colour and icon are display strings. *)
Record role_info := { level : Z }.

Definition ROLE_INFO : list (string * role_info) :=
  [ (RoleEnum.ADMIN_GENERAL, {| level := 10 |});
    (RoleEnum.ADMIN_CHANTIER, {| level := 8 |});
    (RoleEnum.COMPTABLE, {| level := 6 |});
    (RoleEnum.CHEF_CHANTIER, {| level := 5 |});
    (RoleEnum.MAGASINIER, {| level := 4 |});
    (RoleEnum.OUVRIER, {| level := 2 |});
    (RoleEnum.CLIENT, {| level := 1 |});
    (RoleEnum.DIRECTION, {| level := 9 |}) ].

Definition get_role_info (role : string) : role_info :=
  default {| level := 0 |} (dict_get ROLE_INFO role).

Definition get_role_level (role : string) : Z :=
  level (get_role_info role).

Definition can_manage_role (manager_role target_role : string) : bool :=
  bool_decide (get_role_level target_role < get_role_level manager_role).

Definition is_admin_general (role : string) : bool :=
  bool_decide (role = RoleEnum.ADMIN_GENERAL).

Definition is_read_only (role : string) : bool :=
  bool_decide (role = RoleEnum.DIRECTION).

(** The dict returned by [get_current_user].  [role] is [None] when the
    key is absent; [chantier_id] is a key the endpoints probe with
    [user.get("chantier_id")] and [get_current_user] never sets. *)
Record user_dict := {
  user_id : Z;
  role : option string;
  chantiers_assignes : list Z;
  chantier_id : option Z
}.

(** The roles that see every site. *)
Definition global_access_roles : list string :=
  [ RoleEnum.ADMIN_GENERAL; RoleEnum.DIRECTION;
    RoleEnum.COMPTABLE; RoleEnum.MAGASINIER ].

Definition has_chantier_access (user : user_dict) (chantier : Z) : bool :=
  let role := default "" (role user) in
  if py_in role global_access_roles then true
  else py_in chantier (chantiers_assignes user).

(** [user.get("user_id") or int(user.get("sub", 0))]: the dict has no
    ["sub"] key, so a falsy id falls back to [int(0)]. *)
Definition caller_id (user : user_dict) : Z :=
  if bool_decide (user_id user = 0) then 0 else user_id user.

(** ** app/core/permissions.py *)

Definition ROLE_PERMISSIONS : list (string * list string) :=
  [ (RoleEnum.ADMIN_GENERAL,
      [ "all" ]);
    (RoleEnum.ADMIN_CHANTIER,
      [ "view_chantiers"; "view_chantiers_assignes"; "edit_chantier";
        "view_taches"; "create_tache"; "edit_tache"; "delete_tache"; "assign_tache";
        "view_journal"; "create_journal"; "edit_journal";
        "view_documents"; "upload_document"; "delete_document"; "download_document";
        "validate_document_client";
        "view_employes";
        "view_presences"; "manage_presences";
        "view_budget_chantier";
        "view_depenses";
        "view_commandes"; "validate_commande_chantier";
        "view_stock"; "view_stock_chantier";
        "view_equipements"; "view_equipements_chantier";
        "validate_modification";
        "view_rapports"; "view_rapports_chantier"; "view_rapports_techniques";
        "view_notifications" ]);
    (RoleEnum.COMPTABLE,
      [ "view_chantiers"; "view_all_chantiers";
        "view_documents"; "view_documents_techniques"; "download_document";
        "view_budget"; "view_budget_global"; "view_budget_chantier";
        "view_previsions";
        "export_budget";
        "view_depenses"; "view_all_depenses"; "create_depense";
        "view_paiements"; "create_paiement"; "manage_paiements";
        "view_factures"; "create_facture"; "manage_factures";
        "view_avances"; "manage_avances";
        "view_employes"; "view_all_employes"; "view_salaires";
        "export_rapports"; "export_finances";
        "view_rapports"; "view_rapports_financiers";
        "view_notifications" ]);
    (RoleEnum.CHEF_CHANTIER,
      [ "view_chantiers"; "view_chantiers_assignes";
        "view_taches"; "create_tache"; "edit_tache"; "assign_tache";
        "update_avancement";
        "view_journal"; "create_journal"; "edit_journal";
        "view_documents"; "upload_document"; "download_document";
        "view_employes";
        "view_presences"; "create_presence"; "manage_presences";
        "view_stock"; "view_stock_chantier";
        "view_equipements"; "view_equipements_chantier"; "manage_equipements";
        "view_commandes"; "create_commande"; "create_demande_equipement";
        "propose_modification";
        "view_rapports"; "view_rapports_chantier";
        "view_notifications" ]);
    (RoleEnum.MAGASINIER,
      [ "view_chantiers"; "view_all_chantiers";
        "view_stock"; "view_all_stock";
        "create_stock"; "edit_stock"; "delete_stock";
        "mouvement_stock";
        "receive_materiel";
        "transfer_stock";
        "view_historique_stock";
        "view_equipements"; "manage_equipements";
        "view_commandes";
        "view_documents"; "upload_document"; "download_document";
        "view_notifications" ]);
    (RoleEnum.OUVRIER,
      [ "view_taches_assignees";
        "update_avancement";
        "view_presence_personnelle";
        "pointer";
        "view_notifications" ]);
    (RoleEnum.CLIENT,
      [ "view_chantier_propre";
        "view_avancement";
        "view_photos_validees";
        "view_videos_validees";
        "add_commentaire";
        "view_historique_etapes";
        "view_documents_valides";
        "download_document";
        "view_notifications" ]);
    (RoleEnum.DIRECTION,
      [ "view_chantiers"; "view_all_chantiers";
        "view_taches";
        "view_journal";
        "view_documents"; "download_document";
        "view_employes"; "view_all_employes"; "view_salaires";
        "view_presences"; "view_all_presences";
        "view_budget"; "view_budget_global"; "view_budget_chantier";
        "view_previsions";
        "view_depenses"; "view_all_depenses";
        "view_paiements";
        "view_factures";
        "view_stock"; "view_all_stock"; "view_historique_stock";
        "view_commandes";
        "view_rapports"; "view_rapports_financiers";
        "view_rapports_techniques"; "view_rapports_rh";
        "view_dashboard_global";
        "view_audit";
        "view_notifications" ]) ].

(** [ROLE_PERMISSIONS.get(role, [])] *)
Definition role_permissions_get (role : string) : list string :=
  default [] (dict_get ROLE_PERMISSIONS role).

Definition has_permission (role permission : string) : bool :=
  if bool_decide (role = RoleEnum.ADMIN_GENERAL) then true
  else
    let permissions := role_permissions_get role in
    py_in permission permissions || py_in "all" permissions.

(** [any(...)] and [all(...)] over a generator. *)
Definition has_any_permission (role : string) (permissions : list string) : bool :=
  existsb (has_permission role) permissions.

Definition has_all_permissions (role : string) (permissions : list string) : bool :=
  forallb (has_permission role) permissions.

(** The [for perms in ROLE_PERMISSIONS.values(): all_perms.update(perms)]
    loop of [get_role_permissions]. *)
Definition all_perms_loop (tables : list (list string)) : gset string :=
  foldl (λ all_perms perms, all_perms ∪ list_to_set perms) ∅ tables.

(** The admin branch returns [list(all_perms)] after
    [all_perms.discard("all")]; the order of a Python set is unspecified,
    as is that of [elements]. *)
Definition get_role_permissions (role : string) : list string :=
  if bool_decide (role = RoleEnum.ADMIN_GENERAL) then
    let all_perms := all_perms_loop (dict_values ROLE_PERMISSIONS) in
    elements (all_perms ∖ {[ "all" ]})
  else role_permissions_get role.

Definition is_read_only_role (role : string) : bool :=
  bool_decide (role = RoleEnum.DIRECTION).

Definition can_create_user (creator_role new_user_role : string) : bool :=
  if negb (bool_decide (creator_role = RoleEnum.ADMIN_GENERAL)) then false
  else true.

Definition can_change_role (changer_role new_role : string) : bool :=
  bool_decide (changer_role = RoleEnum.ADMIN_GENERAL).

(** ** DataFilter (app/core/permissions.py) *)

(** The values found in the row dicts handed to [DataFilter]. *)
Inductive pyval :=
  | PNone
  | PBool (b : bool)
  | PInt (n : Z)
  | PStr (s : string).

#[global] Instance pyval_eq_dec : EqDecision pyval.
Proof. solve_decision. Defined.

(** Python truthiness, as used by a comprehension's [if]. *)
Definition truthy (v : pyval) : bool :=
  match v with
  | PNone => false
  | PBool b => b
  | PInt n => negb (bool_decide (n = 0))
  | PStr s => negb (bool_decide (s = ""))
  end.

(** [v in types] for a list of string literals; [None], booleans and
    numbers never equal a string. *)
Definition py_in_strs (v : option pyval) (types : list string) : bool :=
  match v with
  | Some (PStr s) => py_in s types
  | _ => false
  end.

(** [v == n] and [v in l] for integers: a missing key gives [None], which
    equals no integer, and [True] and [False] equal 1 and 0. *)
Definition py_eq_int (v : option pyval) (n : Z) : bool :=
  match v with
  | Some (PInt m) => bool_decide (m = n)
  | Some (PBool b) => bool_decide ((if b then 1 else 0) = n)
  | _ => false
  end.

Definition py_in_ints (v : option pyval) (l : list Z) : bool :=
  existsb (py_eq_int v) l.

Module DataFilter.

(** [emp_copy.pop(key, None)] three times on a copy of the record. *)
Definition mask_salaires {V} (emp : gmap string V) : gmap string V :=
  let emp_copy := emp in
  let emp_copy := delete "salaire" emp_copy in
  let emp_copy := delete "salaire_journalier" emp_copy in
  let emp_copy := delete "info_bancaire" emp_copy in
  emp_copy.

Definition filter_employes {V} (user : user_dict) (employes : list (gmap string V))
  : list (gmap string V) :=
  let role := default RoleEnum.OUVRIER (role user) in
  if has_permission role "view_salaires" then employes
  else foldl (λ filtered emp, filtered ++ [mask_salaires emp]) [] employes.

Definition filter_documents (user : user_dict) (documents : list (gmap string pyval))
  : list (gmap string pyval) :=
  let role := default RoleEnum.OUVRIER (role user) in
  if bool_decide (role = RoleEnum.CLIENT) then
    List.filter (λ d, truthy (default (PBool false) (d !! "valide_client"))) documents
  else if bool_decide (role = RoleEnum.COMPTABLE) then
    let types_autorises := [ "facture"; "bon_livraison"; "devis"; "contrat" ] in
    List.filter (λ d, py_in_strs (d !! "type") types_autorises) documents
  else documents.

Definition filter_depenses {V} (user : user_dict) (depenses : list (gmap string V))
  : list (gmap string V) :=
  let role := default RoleEnum.OUVRIER (role user) in
  if negb (has_permission role "view_depenses") then [] else depenses.

Definition filter_chantiers (user : user_dict) (chantiers : list (gmap string pyval))
  : list (gmap string pyval) :=
  let role := default RoleEnum.OUVRIER (role user) in
  let user_id := user_id user in
  if py_in role [ RoleEnum.ADMIN_GENERAL; RoleEnum.DIRECTION;
                  RoleEnum.COMPTABLE; RoleEnum.MAGASINIER ] then chantiers
  else if bool_decide (role = RoleEnum.CLIENT) then
    List.filter (λ c, py_eq_int (c !! "client_id") user_id) chantiers
  else
    let chantiers_assignes := chantiers_assignes user in
    List.filter (λ c, py_in_ints (c !! "id") chantiers_assignes) chantiers.

Definition filter_taches (user : user_dict) (taches : list (gmap string pyval))
  : list (gmap string pyval) :=
  let role := default RoleEnum.OUVRIER (role user) in
  let user_id := user_id user in
  if bool_decide (role = RoleEnum.OUVRIER) then
    List.filter (λ t, py_eq_int (t !! "assigne_a") user_id) taches
  else taches.

Definition filter_presences (user : user_dict) (presences : list (gmap string pyval))
  : list (gmap string pyval) :=
  let role := default RoleEnum.OUVRIER (role user) in
  let user_id := user_id user in
  if bool_decide (role = RoleEnum.OUVRIER) then
    List.filter (λ p, py_eq_int (p !! "employe_id") user_id) presences
  else presences.

End DataFilter.

(** ** Tables (app/models) *)

Module Chantier.
Record t := { budget_prevu : option Z; budget_consomme : option Z }.
End Chantier.

Module Depense.
Record t := {
  reference : string;
  montant : Z;
  status : string;
  chantier_id : Z;
  created_by : Z;
  approved_by : option Z
}.
End Depense.

Module Materiel.
Record t := {
  nom : string;
  categorie : string;
  unite : string;
  quantite : option Z;
  seuil_alerte : option Z;
  prix_unitaire : option Z;
  chantier_id : Z
}.

(** The attributes that [class Materiel] declares. *)
Definition columns : list string :=
  [ "id"; "nom"; "categorie"; "unite"; "quantite"; "seuil_alerte";
    "prix_unitaire"; "chantier_id"; "created_at"; "updated_at" ].
End Materiel.

Module MouvementStock.
Record t := {
  materiel_id : Z;
  type_mouvement : string;
  quantite : Z;
  created_by : Z
}.
End MouvementStock.

Module User.
Record t := {
  email : string;
  phone : option string;
  role : string;
  is_active : bool;
  chantier_id : option Z
}.
End User.

Module Document.
Record t := {
  nom : string;
  type_document : string;
  taille : Z;
  chantier_id : Z;
  uploaded_by : Z
}.

(** The attributes that [class Document] declares. *)
Definition columns : list string :=
  [ "id"; "nom"; "type_document"; "fichier_path"; "taille"; "description";
    "chantier_id"; "uploaded_by"; "created_at" ].
End Document.

Record db := {
  chantiers : gmap Z Chantier.t;
  depenses : gmap Z Depense.t;
  materiels : gmap Z Materiel.t;
  mouvements : list MouvementStock.t;
  users : gmap Z User.t;
  documents : gmap Z Document.t
}.

(** ** The request session (app/core/database.py) *)

Module status.
Definition HTTP_400_BAD_REQUEST := 400.
Definition HTTP_403_FORBIDDEN := 403.
Definition HTTP_404_NOT_FOUND := 404.
End status.

(** What a handler can end with instead of a response. *)
Inductive failure :=
  | HTTPException (status_code : Z)
      (* raise HTTPException(status_code=...) *)
  | Uncaught
      (* any other Python exception, e.g. MultipleResultsFound, TypeError *)
  | OutOfDraws.
      (* the supplied random draws ran out; the code would draw again *)

Record session := { committed : db; working : db }.

Definition M (A : Type) : Type := session → (failure + A) * session.

Definition ret {A} (a : A) : M A := λ s, (inr a, s).

Definition raise {A} (e : failure) : M A := λ s, (inl e, s).

Definition bind {A B} (m : M A) (k : A → M B) : M B :=
  λ s, match m s with
       | (inl e, s') => (inl e, s')
       | (inr a, s') => k a s'
       end.

Notation "'let*' x ':=' m 'in' k" := (bind m (λ x, k))
  (at level 10, x pattern, m at level 100, k at level 200).

(** Reads and writes go to the working copy. *)
Definition query {A} (f : db → A) : M A := λ s, (inr (f (working s)), s).

Definition update (f : db → db) : M unit :=
  λ s, (inr tt, {| committed := committed s; working := f (working s) |}).

(** [await db.commit()] *)
Definition commit : M unit :=
  λ s, (inr tt, {| committed := working s; working := working s |}).

(** [get_db]: the handler runs inside [async with AsyncSessionLocal()];
    a normal return is followed by a commit, an exception by a rollback
    to the last commit. *)
Definition get_db {A} (handler : M A) (d : db) : (failure + A) * db :=
  match handler {| committed := d; working := d |} with
  | (inr a, s) => (inr a, working s)
  | (inl e, s) => (inl e, committed s)
  end.

(** [select(T).where(T.id == id)] and [select(T).where(cond)]. *)
Definition select_by_id {A} (tbl : gmap Z A) (id : Z) : list (Z * A) :=
  match tbl !! id with
  | Some row => [(id, row)]
  | None => []
  end.

Definition select_where {A} (cond : Z * A → Prop) `{!∀ r, Decision (cond r)}
    (tbl : gmap Z A) : list (Z * A) :=
  map_to_list (filter cond tbl).

(** [result.scalar_one_or_none()] raises MultipleResultsFound on two rows
    or more. *)
Definition scalar_one_or_none {A} (rows : list A) : M (option A) :=
  match rows with
  | [] => ret None
  | [row] => ret (Some row)
  | _ => raise Uncaught
  end.

(** [cls(name=value, ...)] on a mapped class: the declarative constructor
    raises TypeError on a keyword that names no attribute of the class. *)
Definition orm_init {A} (columns kwargs : list string) (row : A) : M A :=
  if forallb (λ k, py_in k columns) kwargs then ret row
  else raise Uncaught.

(** [row.name] or [cls.name] for a [name] that the mapped class does
    not declare: an AttributeError.  The third argument checks that the
    name is indeed outside the declared ones. *)
Definition getattr_undeclared {A} (columns : list string) (name : string)
    (undeclared : py_in name columns = false) : M A :=
  raise Uncaught.

(** The primary key given to a row added to a table. *)
Definition new_id {A} (tbl : gmap Z A) : Z := fresh (dom tbl).

(** Setters for one table of the database. *)
Definition set_chantiers (f : gmap Z Chantier.t → gmap Z Chantier.t) (d : db) : db :=
  {| chantiers := f (chantiers d); depenses := depenses d; materiels := materiels d;
     mouvements := mouvements d; users := users d; documents := documents d |}.

Definition set_depenses (f : gmap Z Depense.t → gmap Z Depense.t) (d : db) : db :=
  {| chantiers := chantiers d; depenses := f (depenses d); materiels := materiels d;
     mouvements := mouvements d; users := users d; documents := documents d |}.

Definition set_materiels (f : gmap Z Materiel.t → gmap Z Materiel.t) (d : db) : db :=
  {| chantiers := chantiers d; depenses := depenses d; materiels := f (materiels d);
     mouvements := mouvements d; users := users d; documents := documents d |}.

Definition set_mouvements (f : list MouvementStock.t → list MouvementStock.t) (d : db) : db :=
  {| chantiers := chantiers d; depenses := depenses d; materiels := materiels d;
     mouvements := f (mouvements d); users := users d; documents := documents d |}.

Definition set_users (f : gmap Z User.t → gmap Z User.t) (d : db) : db :=
  {| chantiers := chantiers d; depenses := depenses d; materiels := materiels d;
     mouvements := mouvements d; users := f (users d); documents := documents d |}.

Definition set_documents (f : gmap Z Document.t → gmap Z Document.t) (d : db) : db :=
  {| chantiers := chantiers d; depenses := depenses d; materiels := materiels d;
     mouvements := mouvements d; users := users d; documents := f (documents d) |}.

(** ** The dependency guards (app/core/permissions.py) *)

Definition require_permission (permission : string) (user : user_dict) : M user_dict :=
  let role := default RoleEnum.OUVRIER (role user) in
  if negb (has_permission role permission) then
    raise (HTTPException status.HTTP_403_FORBIDDEN)
  else ret user.

Definition require_roles (roles : list string) (user : user_dict) : M user_dict :=
  let user_role := default RoleEnum.OUVRIER (role user) in
  if bool_decide (user_role = RoleEnum.ADMIN_GENERAL) then ret user
  else if negb (py_in user_role roles) then
    raise (HTTPException status.HTTP_403_FORBIDDEN)
  else ret user.

Definition require_admin : user_dict → M user_dict :=
  require_roles [ RoleEnum.ADMIN_GENERAL ].

(** ** app/api/v1/endpoints/depenses.py *)

Module DepenseStatus.
Definition EN_ATTENTE := "en_attente".
Definition VALIDEE_CHANTIER := "validee_chantier".
Definition APPROUVEE := "approuvee".
Definition REJETEE := "rejetee".
Definition ANNULEE := "annulee".
End DepenseStatus.

(** The request bodies, reduced to the fields kept in [Depense.t]. *)
Module DepenseCreate.
Record t := { montant : Z; chantier_id : Z }.
End DepenseCreate.

Module DepenseUpdate.
Record t := { montant : option Z }.
End DepenseUpdate.

(** The [while result.scalar_one_or_none()] loop that redraws the
    reference until no expense carries it.  [draws] are the successive
    values of the f-string built from [random.randint(1000,9999)]. *)
Fixpoint draw_reference (draws : list string) : M string :=
  match draws with
  | [] => raise OutOfDraws
  | reference :: draws' =>
      let* rows := query (λ d, select_where
        (λ r, Depense.reference r.2 = reference) (depenses d)) in
      let* taken := scalar_one_or_none rows in
      match taken with
      | Some _ => draw_reference draws'
      | None => ret reference
      end
  end.

Definition create_depense (data : DepenseCreate.t) (draws : list string)
    (user : user_dict) : M (Z * Depense.t) :=
  let* user := require_permission "create_depense" user in
  let role := default RoleEnum.OUVRIER (role user) in
  let user_id := caller_id user in
  let user_chantier_id := chantier_id user in
  let chantiers_assignes := chantiers_assignes user in
  let* rows := query (λ d, select_by_id (chantiers d) (DepenseCreate.chantier_id data)) in
  let* chantier := scalar_one_or_none rows in
  if negb (bool_decide (is_Some chantier)) then
    raise (HTTPException status.HTTP_404_NOT_FOUND)
  else
  let* _ :=
    if bool_decide (role = RoleEnum.CHEF_CHANTIER) then
      let can_access :=
        bool_decide (Some (DepenseCreate.chantier_id data) = user_chantier_id)
        || py_in (DepenseCreate.chantier_id data) chantiers_assignes in
      if negb can_access then raise (HTTPException status.HTTP_403_FORBIDDEN)
      else ret tt
    else ret tt in
  let* reference := draw_reference draws in
  let depense :=
    {| Depense.reference := reference;
       Depense.montant := DepenseCreate.montant data;
       Depense.status := DepenseStatus.EN_ATTENTE;
       Depense.chantier_id := DepenseCreate.chantier_id data;
       Depense.created_by := user_id;
       Depense.approved_by := None |} in
  let* id := query (λ d, new_id (depenses d)) in
  let* _ := update (set_depenses <[id := depense]>) in
  let* _ := commit in
  ret (id, depense).

Definition with_status (depense : Depense.t) (s : string) : Depense.t :=
  {| Depense.reference := Depense.reference depense;
     Depense.montant := Depense.montant depense;
     Depense.status := s;
     Depense.chantier_id := Depense.chantier_id depense;
     Depense.created_by := Depense.created_by depense;
     Depense.approved_by := Depense.approved_by depense |}.

Definition with_approved_by (depense : Depense.t) (by_ : Z) : Depense.t :=
  {| Depense.reference := Depense.reference depense;
     Depense.montant := Depense.montant depense;
     Depense.status := Depense.status depense;
     Depense.chantier_id := Depense.chantier_id depense;
     Depense.created_by := Depense.created_by depense;
     Depense.approved_by := Some by_ |}.

Definition with_montant (depense : Depense.t) (m : Z) : Depense.t :=
  {| Depense.reference := Depense.reference depense;
     Depense.montant := m;
     Depense.status := Depense.status depense;
     Depense.chantier_id := Depense.chantier_id depense;
     Depense.created_by := Depense.created_by depense;
     Depense.approved_by := Depense.approved_by depense |}.

Definition with_budget_consomme (chantier : Chantier.t) (b : option Z) : Chantier.t :=
  {| Chantier.budget_prevu := Chantier.budget_prevu chantier;
     Chantier.budget_consomme := b |}.

Definition update_depense (id : Z) (data : DepenseUpdate.t) (user : user_dict)
    : M Depense.t :=
  let* user := require_permission "create_depense" user in
  let role := default RoleEnum.OUVRIER (role user) in
  let user_id := caller_id user in
  let* rows := query (λ d, select_by_id (depenses d) id) in
  let* found := scalar_one_or_none rows in
  match found with
  | None => raise (HTTPException status.HTTP_404_NOT_FOUND)
  | Some (_, depense) =>
      if negb (bool_decide (Depense.status depense = DepenseStatus.EN_ATTENTE)) then
        raise (HTTPException status.HTTP_400_BAD_REQUEST)
      else if negb (bool_decide (role = RoleEnum.ADMIN_GENERAL))
              && negb (bool_decide (Depense.created_by depense = user_id)) then
        raise (HTTPException status.HTTP_403_FORBIDDEN)
      else
        let depense :=
          match DepenseUpdate.montant data with
          | Some value => with_montant depense value
          | None => depense
          end in
        let* _ := update (set_depenses <[id := depense]>) in
        let* _ := commit in
        ret depense
  end.

Definition validate_depense_chantier (id : Z) (user : user_dict) : M string :=
  let* user := require_permission "validate_commande_chantier" user in
  let role := default RoleEnum.OUVRIER (role user) in
  let* rows := query (λ d, select_by_id (depenses d) id) in
  let* found := scalar_one_or_none rows in
  match found with
  | None => raise (HTTPException status.HTTP_404_NOT_FOUND)
  | Some (_, depense) =>
      if negb (bool_decide (Depense.status depense = DepenseStatus.EN_ATTENTE)) then
        raise (HTTPException status.HTTP_400_BAD_REQUEST)
      else if bool_decide (role = RoleEnum.ADMIN_CHANTIER)
              && negb (has_chantier_access user (Depense.chantier_id depense)) then
        raise (HTTPException status.HTTP_403_FORBIDDEN)
      else
        let depense := with_status depense DepenseStatus.VALIDEE_CHANTIER in
        let* _ := update (set_depenses <[id := depense]>) in
        let* _ := commit in
        ret (Depense.status depense)
  end.

(** The response of [approve_depense] is its ["montant"] and ["status"]. *)
Definition approve_depense (id : Z) (user : user_dict) : M (Z * string) :=
  let* user := require_admin user in
  let user_id := caller_id user in
  let* rows := query (λ d, select_by_id (depenses d) id) in
  let* found := scalar_one_or_none rows in
  match found with
  | None => raise (HTTPException status.HTTP_404_NOT_FOUND)
  | Some (_, depense) =>
      if bool_decide (Depense.status depense = DepenseStatus.APPROUVEE) then
        raise (HTTPException status.HTTP_400_BAD_REQUEST)
      else if bool_decide (Depense.status depense = DepenseStatus.REJETEE) then
        raise (HTTPException status.HTTP_400_BAD_REQUEST)
      else
        let depense := with_status depense DepenseStatus.APPROUVEE in
        let depense := with_approved_by depense user_id in
        let* _ := update (set_depenses <[id := depense]>) in
        let* rows := query (λ d, select_by_id (chantiers d) (Depense.chantier_id depense)) in
        let* chantier := scalar_one_or_none rows in
        let* _ :=
          match chantier with
          | Some (cid, chantier) =>
              let chantier :=
                match Chantier.budget_consomme chantier with
                | None => with_budget_consomme chantier (Some 0)
                | Some _ => chantier
                end in
              let chantier :=
                with_budget_consomme chantier
                  (Some (default 0 (Chantier.budget_consomme chantier)
                         + Depense.montant depense)) in
              update (set_chantiers <[cid := chantier]>)
          | None => ret tt
          end in
        let* _ := commit in
        ret (Depense.montant depense, Depense.status depense)
  end.

Definition reject_depense (id : Z) (user : user_dict) : M unit :=
  let* user := require_admin user in
  let* rows := query (λ d, select_by_id (depenses d) id) in
  let* found := scalar_one_or_none rows in
  match found with
  | None => raise (HTTPException status.HTTP_404_NOT_FOUND)
  | Some (_, depense) =>
      if bool_decide (Depense.status depense = DepenseStatus.APPROUVEE) then
        raise (HTTPException status.HTTP_400_BAD_REQUEST)
      else
        let depense := with_status depense DepenseStatus.REJETEE in
        let* _ := update (set_depenses <[id := depense]>) in
        let* _ := commit in
        ret tt
  end.

Definition delete_depense (id : Z) (user : user_dict) : M unit :=
  let* user := require_admin user in
  let* rows := query (λ d, select_by_id (depenses d) id) in
  let* found := scalar_one_or_none rows in
  match found with
  | None => raise (HTTPException status.HTTP_404_NOT_FOUND)
  | Some (_, depense) =>
      if bool_decide (Depense.status depense = DepenseStatus.APPROUVEE) then
        raise (HTTPException status.HTTP_400_BAD_REQUEST)
      else
        let* _ := update (set_depenses (delete id)) in
        let* _ := commit in
        ret tt
  end.

(** One request to the expense endpoints, and its effect on the
    database once [get_db] has committed or rolled back. *)
Inductive depense_request :=
  | Create (data : DepenseCreate.t) (draws : list string)
  | Update (id : Z) (data : DepenseUpdate.t)
  | ValidateChantier (id : Z)
  | Approve (id : Z)
  | Reject (id : Z)
  | Delete (id : Z).

Definition void {A} (r : (failure + A) * db) : (failure + unit) * db :=
  (match r.1 with inl e => inl e | inr _ => inr tt end, r.2).

Definition serve_depense (user : user_dict) (req : depense_request) (d : db)
    : (failure + unit) * db :=
  match req with
  | Create data draws => void (get_db (create_depense data draws user) d)
  | Update id data => void (get_db (update_depense id data user) d)
  | ValidateChantier id => void (get_db (validate_depense_chantier id user) d)
  | Approve id => void (get_db (approve_depense id user) d)
  | Reject id => void (get_db (reject_depense id user) d)
  | Delete id => void (get_db (delete_depense id user) d)
  end.

(** A sequence of requests, each by its own caller, served in order;
    the answers are returned alongside the final database. *)
Fixpoint serve_depenses (reqs : list (user_dict * depense_request)) (d : db)
    : list (failure + unit) * db :=
  match reqs with
  | [] => ([], d)
  | (user, req) :: reqs' =>
      let '(r, d') := serve_depense user req d in
      let '(rs, d'') := serve_depenses reqs' d' in
      (r :: rs, d'')
  end.

(** ** app/api/v1/endpoints/materiels.py *)

Module TypeMouvement.
Definition ENTREE := "entree".
Definition SORTIE := "sortie".
Definition TRANSFERT_ENTRANT := "transfert_entrant".
Definition TRANSFERT_SORTANT := "transfert_sortant".
Definition AJUSTEMENT := "ajustement".
Definition RECEPTION := "reception".
End TypeMouvement.

Module TransfertRequest.
Record t := {
  materiel_id : Z;
  quantite : Z;
  chantier_source_id : Z;
  chantier_destination_id : Z
}.
End TransfertRequest.

Definition with_quantite (materiel : Materiel.t) (q : option Z) : Materiel.t :=
  {| Materiel.nom := Materiel.nom materiel;
     Materiel.categorie := Materiel.categorie materiel;
     Materiel.unite := Materiel.unite materiel;
     Materiel.quantite := q;
     Materiel.seuil_alerte := Materiel.seuil_alerte materiel;
     Materiel.prix_unitaire := Materiel.prix_unitaire materiel;
     Materiel.chantier_id := Materiel.chantier_id materiel |}.

(** The response of [transferer_materiel] is the ["nouveau_stock"] of
    the source and of the destination.  An ORM row is one Python object
    per primary key, so every read of [materiel_source] or
    [materiel_dest] goes to the working copy under its key. *)
Definition transferer_materiel (data : TransfertRequest.t) (user : user_dict)
    : M (option Z * option Z) :=
  let* user := require_permission "transfer_stock" user in
  let user_id := caller_id user in
  let q := TransfertRequest.quantite data in
  let* rows := query (λ d,
    select_by_id (chantiers d) (TransfertRequest.chantier_source_id data)) in
  let* chantier_source := scalar_one_or_none rows in
  if negb (bool_decide (is_Some chantier_source)) then
    raise (HTTPException 404)
  else
  let* rows := query (λ d,
    select_by_id (chantiers d) (TransfertRequest.chantier_destination_id data)) in
  let* chantier_dest := scalar_one_or_none rows in
  if negb (bool_decide (is_Some chantier_dest)) then
    raise (HTTPException 404)
  else
  let* rows := query (λ d, select_where
    (λ r, r.1 = TransfertRequest.materiel_id data
          ∧ Materiel.chantier_id r.2 = TransfertRequest.chantier_source_id data)
    (materiels d)) in
  let* found := scalar_one_or_none rows in
  match found with
  | None => raise (HTTPException status.HTTP_404_NOT_FOUND)
  | Some (source_id, materiel_source) =>
      if bool_decide (or_zero (Materiel.quantite materiel_source) < q) then
        raise (HTTPException status.HTTP_400_BAD_REQUEST)
      else
      (* materiel_source.quantite -= data.quantite *)
      match Materiel.quantite materiel_source with
      | None => raise Uncaught
      | Some bA =>
          let materiel_source := with_quantite materiel_source (Some (bA - q)) in
          let* _ := update (set_materiels <[source_id := materiel_source]>) in
          let* rows := query (λ d, select_where
            (λ r, Materiel.nom r.2 = Materiel.nom materiel_source
                  ∧ Materiel.chantier_id r.2
                    = TransfertRequest.chantier_destination_id data)
            (materiels d)) in
          let* found_dest := scalar_one_or_none rows in
          let* dest_id :=
            match found_dest with
            | Some (dest_id, materiel_dest) =>
                let materiel_dest :=
                  with_quantite materiel_dest
                    (Some (or_zero (Materiel.quantite materiel_dest) + q)) in
                let* _ := update (set_materiels <[dest_id := materiel_dest]>) in
                ret dest_id
            | None =>
                (* Materiel(nom=..., description=materiel_source.description,
                            ..., created_by=user_id) *)
                let* description :=
                  getattr_undeclared (A := string) Materiel.columns
                    "description" eq_refl in
                let* materiel_dest :=
                  orm_init Materiel.columns
                    [ "nom"; "description"; "unite"; "quantite"; "seuil_alerte";
                      "prix_unitaire"; "categorie"; "chantier_id"; "created_by" ]
                    {| Materiel.nom := Materiel.nom materiel_source;
                       Materiel.categorie := Materiel.categorie materiel_source;
                       Materiel.unite := Materiel.unite materiel_source;
                       Materiel.quantite := Some q;
                       Materiel.seuil_alerte :=
                         Materiel.seuil_alerte materiel_source;
                       Materiel.prix_unitaire :=
                         Materiel.prix_unitaire materiel_source;
                       Materiel.chantier_id :=
                         TransfertRequest.chantier_destination_id data |} in
                let* dest_id := query (λ d, new_id (materiels d)) in
                let* _ := update (set_materiels <[dest_id := materiel_dest]>) in
                ret dest_id
            end in
          let mouvement_sortie :=
            {| MouvementStock.materiel_id := source_id;
               MouvementStock.type_mouvement := TypeMouvement.TRANSFERT_SORTANT;
               MouvementStock.quantite := q;
               MouvementStock.created_by := user_id |} in
          let* _ := update (set_mouvements (λ l, l ++ [mouvement_sortie])) in
          let* _ := commit in
          let mouvement_entree :=
            {| MouvementStock.materiel_id := dest_id;
               MouvementStock.type_mouvement := TypeMouvement.TRANSFERT_ENTRANT;
               MouvementStock.quantite := q;
               MouvementStock.created_by := user_id |} in
          let* _ := update (set_mouvements (λ l, l ++ [mouvement_entree])) in
          let* _ := commit in
          let* nouveau_source := query (λ d,
            materiels d !! source_id ≫= Materiel.quantite) in
          let* nouveau_dest := query (λ d,
            materiels d !! dest_id ≫= Materiel.quantite) in
          ret (nouveau_source, nouveau_dest)
      end
  end.

(** ** app/api/v1/endpoints/documents.py *)

Module DocumentType.
Definition PLAN := "plan".
Definition DEVIS := "devis".
Definition CONTRAT := "contrat".
Definition RAPPORT := "rapport".
Definition FACTURE := "facture".
Definition BON_LIVRAISON := "bon_livraison".
Definition PHOTO := "photo".
Definition VIDEO := "video".
Definition PERMIS := "permis".
Definition AUTRE := "autre".

Definition all_types : list string :=
  [ PLAN; DEVIS; CONTRAT; RAPPORT;
    FACTURE; BON_LIVRAISON; PHOTO; VIDEO;
    PERMIS; AUTRE ].

Definition types_comptable : list string :=
  [ FACTURE; BON_LIVRAISON; DEVIS; CONTRAT ].
End DocumentType.

(** The uploaded file as the handler sees it: [ext] stands for
    [os.path.splitext(file.filename)[1].lower()] and [size] for
    [len(content)]; storing the bytes under [UPLOAD_DIR] is not modelled. *)
Module UploadFile.
Record t := { filename : string; ext : string; size : Z }.
End UploadFile.

Definition allowed_extensions : list string :=
  [ ".jpg"; ".jpeg"; ".png"; ".gif"; ".pdf"; ".doc"; ".docx";
    ".xls"; ".xlsx"; ".mp4"; ".mov"; ".avi" ].

Definition max_size : Z := 50 * 1024 * 1024.

Definition upload_document (file : UploadFile.t) (chantier_id : Z)
    (type_document : string) (user : user_dict) : M (Z * Document.t) :=
  let* user := require_permission "upload_document" user in
  let role := default RoleEnum.OUVRIER (role user) in
  let user_id := caller_id user in
  let* rows := query (λ d, select_by_id (chantiers d) chantier_id) in
  let* chantier := scalar_one_or_none rows in
  if negb (bool_decide (is_Some chantier)) then
    raise (HTTPException status.HTTP_404_NOT_FOUND)
  else if negb (bool_decide (role = RoleEnum.ADMIN_GENERAL))
          && negb (has_chantier_access user chantier_id) then
    raise (HTTPException status.HTTP_403_FORBIDDEN)
  else if bool_decide (role = RoleEnum.MAGASINIER)
          && negb (py_in type_document
                     [ DocumentType.BON_LIVRAISON; DocumentType.PHOTO ]) then
    raise (HTTPException status.HTTP_403_FORBIDDEN)
  else if negb (py_in type_document DocumentType.all_types) then
    raise (HTTPException status.HTTP_400_BAD_REQUEST)
  else if negb (py_in (UploadFile.ext file) allowed_extensions) then
    raise (HTTPException status.HTTP_400_BAD_REQUEST)
  else if bool_decide (max_size < UploadFile.size file) then
    raise (HTTPException status.HTTP_400_BAD_REQUEST)
  else
    (* Document(nom=..., ..., uploaded_by=user_id, valide_client=False) *)
    let* document :=
      orm_init Document.columns
        [ "nom"; "type_document"; "fichier_path"; "taille"; "description";
          "chantier_id"; "uploaded_by"; "valide_client" ]
        {| Document.nom := UploadFile.filename file;
           Document.type_document := type_document;
           Document.taille := UploadFile.size file;
           Document.chantier_id := chantier_id;
           Document.uploaded_by := user_id |} in
    let* id := query (λ d, new_id (documents d)) in
    let* _ := update (set_documents <[id := document]>) in
    let* _ := commit in
    ret (id, document).

(** [validate_document_for_client] and [unvalidate_document_for_client]
    differ only in the [value] they assign to [document.valide_client],
    [document.validated_client_by] and [document.validated_client_at].
    None of the three is a column of [Document]: the assignments set
    plain attributes of the Python object, the flush finds no change
    and the commit writes nothing. *)
Definition set_document_for_client (value : bool) (document_id : Z)
    (user : user_dict) : M unit :=
  let* user := require_permission "validate_document_client" user in
  let role := default RoleEnum.OUVRIER (role user) in
  let* rows := query (λ d, select_by_id (documents d) document_id) in
  let* found := scalar_one_or_none rows in
  match found with
  | None => raise (HTTPException status.HTTP_404_NOT_FOUND)
  | Some (_, document) =>
      if bool_decide (role = RoleEnum.ADMIN_CHANTIER)
         && negb (has_chantier_access user (Document.chantier_id document)) then
        raise (HTTPException status.HTTP_403_FORBIDDEN)
      else
        let* _ := commit in
        ret tt
  end.

Definition validate_document_for_client := set_document_for_client true.

Definition unvalidate_document_for_client := set_document_for_client false.

Definition delete_document (document_id : Z) (user : user_dict) : M unit :=
  let* user := require_permission "delete_document" user in
  let role := default RoleEnum.OUVRIER (role user) in
  if bool_decide (role = RoleEnum.DIRECTION) then
    raise (HTTPException status.HTTP_403_FORBIDDEN)
  else
  let* rows := query (λ d, select_by_id (documents d) document_id) in
  let* found := scalar_one_or_none rows in
  match found with
  | None => raise (HTTPException status.HTTP_404_NOT_FOUND)
  | Some (_, document) =>
      if bool_decide (role = RoleEnum.ADMIN_CHANTIER)
         && negb (has_chantier_access user (Document.chantier_id document)) then
        raise (HTTPException status.HTTP_403_FORBIDDEN)
      else
        let* _ := update (set_documents (delete document_id)) in
        let* _ := commit in
        ret tt
  end.

(** The [where] clauses that [list_documents] adds for the caller's
    role, before the optional query filters, for a role other than
    client. *)
Definition list_documents_role_filter (user : user_dict) (r : Z * Document.t) : bool :=
  let role := default RoleEnum.OUVRIER (role user) in
  let chantiers_assignes := chantiers_assignes user in
  let user_chantier_id := chantier_id user in
  if bool_decide (role = RoleEnum.COMPTABLE) then
    py_in (Document.type_document r.2) DocumentType.types_comptable
  else if bool_decide (role = RoleEnum.MAGASINIER) then
    bool_decide (Document.type_document r.2 = DocumentType.BON_LIVRAISON)
  else if py_in role [ RoleEnum.ADMIN_CHANTIER; RoleEnum.CHEF_CHANTIER ] then
    match chantiers_assignes, user_chantier_id with
    | _ :: _, _ => py_in (Document.chantier_id r.2) chantiers_assignes
    | [], Some c => if bool_decide (c = 0) then true
                    else bool_decide (Document.chantier_id r.2 = c)
    | [], None => true
    end
  else true.

(** One request to the document endpoints that write. *)
Inductive document_request :=
  | Upload (file : UploadFile.t) (chantier_id : Z) (type_document : string)
  | ValidateClient (document_id : Z)
  | UnvalidateClient (document_id : Z)
  | DeleteDocument (document_id : Z).

Definition serve_document (user : user_dict) (req : document_request) (d : db)
    : (failure + unit) * db :=
  match req with
  | Upload file chantier_id type_document =>
      void (get_db (upload_document file chantier_id type_document user) d)
  | ValidateClient document_id =>
      void (get_db (validate_document_for_client document_id user) d)
  | UnvalidateClient document_id =>
      void (get_db (unvalidate_document_for_client document_id user) d)
  | DeleteDocument document_id =>
      void (get_db (delete_document document_id user) d)
  end.

(** The optional query filters of [list_documents] on declared
    columns: [if chantier_id:] and [if type_document:] test truthiness. *)
Definition list_documents_query_filter (chantier_id : option Z)
    (type_document : option string) (r : Z * Document.t) : bool :=
  match chantier_id with
  | Some c => bool_decide (c = 0) || bool_decide (Document.chantier_id r.2 = c)
  | None => true
  end
  && match type_document with
     | Some t => bool_decide (t = "") || bool_decide (Document.type_document r.2 = t)
     | None => true
     end.

(** The read endpoint.  The clause of the client and the
    [valide_client] filter name [Document.valide_client] while the
    query is built, and the response reads [d.valide_client] of every
    row selected.  The [order_by] is not modelled: rows come in table
    order. *)
Definition list_documents (chantier_id : option Z) (type_document : option string)
    (valide_client : option bool) (user : user_dict) : M (list (Z * Document.t)) :=
  let* user := require_permission "view_documents" user in
  let role := default RoleEnum.OUVRIER (role user) in
  let* role_filter :=
    if bool_decide (role = RoleEnum.CLIENT) then
      getattr_undeclared Document.columns "valide_client" eq_refl
    else ret (list_documents_role_filter user) in
  if negb (bool_decide (or_zero chantier_id = 0))
     && negb (py_in role [ RoleEnum.ADMIN_GENERAL; RoleEnum.DIRECTION ])
     && negb (bool_decide (role = RoleEnum.COMPTABLE))
     && negb (has_chantier_access user (or_zero chantier_id)) then
    raise (HTTPException status.HTTP_403_FORBIDDEN)
  else
    let* query_filter :=
      match valide_client with
      | Some _ => getattr_undeclared Document.columns "valide_client" eq_refl
      | None => ret (list_documents_query_filter chantier_id type_document)
      end in
    let* documents := query (λ d, select_where
      (λ r, role_filter r && query_filter r = true) (documents d)) in
    match documents with
    | [] => ret []
    | _ :: _ => getattr_undeclared Document.columns "valide_client" eq_refl
    end.

(** ** app/api/v1/endpoints/auth.py *)

Definition VALID_ROLES : list string :=
  [ RoleEnum.ADMIN_GENERAL;
    RoleEnum.ADMIN_CHANTIER;
    RoleEnum.COMPTABLE;
    RoleEnum.CHEF_CHANTIER;
    RoleEnum.MAGASINIER;
    RoleEnum.OUVRIER;
    RoleEnum.CLIENT;
    RoleEnum.DIRECTION ].

Module UserCreate.
Record t := {
  email : string;
  phone : option string;
  role : string;
  chantier_id : option Z
}.
End UserCreate.

(** [current_user.get("role")] is [None] when the key is absent, which
    the comparisons with [RoleEnum.ADMIN_GENERAL] treat like any other
    role; the empty string stands for it. *)
Definition get_role (user : user_dict) : string := default "" (role user).

Definition register (data : UserCreate.t) (current_user : user_dict)
    : M (Z * User.t) :=
  let* current_user := require_admin current_user in
  if negb (can_create_user (get_role current_user) (UserCreate.role data)) then
    raise (HTTPException status.HTTP_403_FORBIDDEN)
  else
  let* _ :=
    if bool_decide (UserCreate.role data = RoleEnum.ADMIN_GENERAL) then
      let* rows := query (λ d, select_where
        (λ r, User.role r.2 = RoleEnum.ADMIN_GENERAL) (users d)) in
      let* existing_admin := scalar_one_or_none rows in
      if bool_decide (is_Some existing_admin) then
        raise (HTTPException status.HTTP_403_FORBIDDEN)
      else ret tt
    else ret tt in
  if negb (py_in (UserCreate.role data) VALID_ROLES) then
    raise (HTTPException status.HTTP_400_BAD_REQUEST)
  else
  let* rows := query (λ d, select_where
    (λ r, User.email r.2 = UserCreate.email data) (users d)) in
  let* taken := scalar_one_or_none rows in
  if bool_decide (is_Some taken) then
    raise (HTTPException status.HTTP_400_BAD_REQUEST)
  else
  let* _ :=
    match UserCreate.phone data with
    | Some phone =>
        if bool_decide (phone = "") then ret tt
        else
          let* rows := query (λ d, select_where
            (λ r, User.phone r.2 = Some phone) (users d)) in
          let* taken := scalar_one_or_none rows in
          if bool_decide (is_Some taken) then
            raise (HTTPException status.HTTP_400_BAD_REQUEST)
          else ret tt
    | None => ret tt
    end in
  let user :=
    {| User.email := UserCreate.email data;
       User.phone := UserCreate.phone data;
       User.role := UserCreate.role data;
       User.is_active := true;
       User.chantier_id := UserCreate.chantier_id data |} in
  let* id := query (λ d, new_id (users d)) in
  let* _ := update (set_users <[id := user]>) in
  let* _ := commit in
  ret (id, user).

Definition setup_first_admin (data : UserCreate.t) : M (Z * User.t) :=
  let* rows := query (λ d, select_where
    (λ r, User.role r.2 = RoleEnum.ADMIN_GENERAL) (users d)) in
  let* existing_admin := scalar_one_or_none rows in
  if bool_decide (is_Some existing_admin) then
    raise (HTTPException status.HTTP_403_FORBIDDEN)
  else
  let* rows := query (λ d, select_where
    (λ r, User.email r.2 = UserCreate.email data) (users d)) in
  let* taken := scalar_one_or_none rows in
  if bool_decide (is_Some taken) then
    raise (HTTPException status.HTTP_400_BAD_REQUEST)
  else
  let user :=
    {| User.email := UserCreate.email data;
       User.phone := UserCreate.phone data;
       User.role := RoleEnum.ADMIN_GENERAL;
       User.is_active := true;
       User.chantier_id := None |} in
  let* id := query (λ d, new_id (users d)) in
  let* _ := update (set_users <[id := user]>) in
  let* _ := commit in
  ret (id, user).

Definition with_role (user : User.t) (role : string) (chantier_id : option Z) : User.t :=
  {| User.email := User.email user;
     User.phone := User.phone user;
     User.role := role;
     User.is_active := User.is_active user;
     User.chantier_id :=
       match chantier_id with
       | Some c => Some c
       | None => User.chantier_id user
       end |}.

Definition with_is_active (user : User.t) (b : bool) : User.t :=
  {| User.email := User.email user;
     User.phone := User.phone user;
     User.role := User.role user;
     User.is_active := b;
     User.chantier_id := User.chantier_id user |}.

(** The response of [update_user_role] is its ["new_role"]. *)
Definition update_user_role (user_id : Z) (role : string) (chantier_id : option Z)
    (current_user : user_dict) : M string :=
  let* current_user := require_admin current_user in
  if negb (can_change_role (get_role current_user) role) then
    raise (HTTPException status.HTTP_403_FORBIDDEN)
  else
  let* rows := query (λ d, select_by_id (users d) user_id) in
  let* found := scalar_one_or_none rows in
  match found with
  | None => raise (HTTPException status.HTTP_404_NOT_FOUND)
  | Some (id, user) =>
      let current_user_id := caller_id current_user in
      if bool_decide (id = current_user_id) then
        raise (HTTPException status.HTTP_400_BAD_REQUEST)
      else if bool_decide (User.role user = RoleEnum.ADMIN_GENERAL) then
        raise (HTTPException status.HTTP_403_FORBIDDEN)
      else if negb (py_in role VALID_ROLES) then
        raise (HTTPException status.HTTP_400_BAD_REQUEST)
      else if bool_decide (role = RoleEnum.ADMIN_GENERAL) then
        raise (HTTPException status.HTTP_403_FORBIDDEN)
      else
        let user := with_role user role chantier_id in
        let* _ := update (set_users <[id := user]>) in
        let* _ := commit in
        ret role
  end.

Definition deactivate_user (user_id : Z) (current_user : user_dict) : M unit :=
  let* current_user := require_admin current_user in
  let* rows := query (λ d, select_by_id (users d) user_id) in
  let* found := scalar_one_or_none rows in
  match found with
  | None => raise (HTTPException status.HTTP_404_NOT_FOUND)
  | Some (id, user) =>
      let current_user_id := caller_id current_user in
      if bool_decide (id = current_user_id) then
        raise (HTTPException status.HTTP_400_BAD_REQUEST)
      else if bool_decide (User.role user = RoleEnum.ADMIN_GENERAL) then
        raise (HTTPException status.HTTP_403_FORBIDDEN)
      else
        let* _ := update (set_users <[id := with_is_active user false]>) in
        let* _ := commit in
        ret tt
  end.

Definition activate_user (user_id : Z) (current_user : user_dict) : M unit :=
  let* current_user := require_admin current_user in
  let* rows := query (λ d, select_by_id (users d) user_id) in
  let* found := scalar_one_or_none rows in
  match found with
  | None => raise (HTTPException status.HTTP_404_NOT_FOUND)
  | Some (id, user) =>
      let* _ := update (set_users <[id := with_is_active user true]>) in
      let* _ := commit in
      ret tt
  end.

(** One request to the endpoints that write the users table.  The
    caller of [SetupAdmin] is unauthenticated and ignored.  [login] and
    [change_password] also commit, but write no attribute kept in
    [User.t]. *)
Inductive auth_request :=
  | Register (data : UserCreate.t)
  | SetupAdmin (data : UserCreate.t)
  | UpdateRole (user_id : Z) (role : string) (chantier_id : option Z)
  | Deactivate (user_id : Z)
  | Activate (user_id : Z).

Definition serve_auth (current_user : user_dict) (req : auth_request) (d : db)
    : (failure + unit) * db :=
  match req with
  | Register data => void (get_db (register data current_user) d)
  | SetupAdmin data => void (get_db (setup_first_admin data) d)
  | UpdateRole user_id role chantier_id =>
      void (get_db (update_user_role user_id role chantier_id current_user) d)
  | Deactivate user_id => void (get_db (deactivate_user user_id current_user) d)
  | Activate user_id => void (get_db (activate_user user_id current_user) d)
  end.

(** The rows of the users table holding the top role. *)
Definition admins_general (d : db) : list (Z * User.t) :=
  select_where (λ r, User.role r.2 = RoleEnum.ADMIN_GENERAL) (users d).

(** The number of [Approve id] requests of a served sequence that were
    answered with a success. *)
Fixpoint approvals (id : Z) (reqs : list (user_dict * depense_request))
    (answers : list (failure + unit)) : nat :=
  match reqs, answers with
  | (_, Approve id') :: reqs', inr _ :: answers' =>
      ((if bool_decide (id' = id) then 1 else 0) + approvals id reqs' answers')%nat
  | _ :: reqs', _ :: answers' => approvals id reqs' answers'
  | _, _ => 0%nat
  end.

(** [site.budget_consomme] as stored, [None] when the site or the value
    is missing. *)
Definition budget_consomme_of (d : db) (chantier : Z) : option Z :=
  chantiers d !! chantier ≫= Chantier.budget_consomme.

(** No two rows of the users table hold the top role. *)
Definition at_most_one_admin_general (d : db) : Prop :=
  ∀ i j u v,
    users d !! i = Some u → users d !! j = Some v →
    User.role u = RoleEnum.ADMIN_GENERAL → User.role v = RoleEnum.ADMIN_GENERAL →
    i = j.

(** A sequence of requests to the users endpoints, served in order. *)
Fixpoint serve_auths (reqs : list (user_dict * auth_request)) (d : db)
    : list (failure + unit) * db :=
  match reqs with
  | [] => ([], d)
  | (current_user, req) :: reqs' =>
      let '(r, d') := serve_auth current_user req d in
      let '(rs, d'') := serve_auths reqs' d' in
      (r :: rs, d'')
  end.

(** The two ledger entries that a transfer appends. *)
Definition ledger_sortie (data : TransfertRequest.t) (user : user_dict)
    : MouvementStock.t :=
  {| MouvementStock.materiel_id := TransfertRequest.materiel_id data;
     MouvementStock.type_mouvement := "transfert_sortant";
     MouvementStock.quantite := TransfertRequest.quantite data;
     MouvementStock.created_by := caller_id user |}.

Definition ledger_entree (data : TransfertRequest.t) (user : user_dict)
    (dest_id : Z) : MouvementStock.t :=
  {| MouvementStock.materiel_id := dest_id;
     MouvementStock.type_mouvement := "transfert_entrant";
     MouvementStock.quantite := TransfertRequest.quantite data;
     MouvementStock.created_by := caller_id user |}.

(** ** More of app/core *)

Definition can_modify_user (modifier_role target_role : string) : bool :=
  if bool_decide (modifier_role = RoleEnum.ADMIN_GENERAL) then true
  else
    let modifier_level := get_role_level modifier_role in
    let target_level := get_role_level target_role in
    bool_decide (target_level < modifier_level).

Definition require_chantier_access (chantier_id : Z) (user : user_dict) : M user_dict :=
  let role := default RoleEnum.OUVRIER (role user) in
  if py_in role [ RoleEnum.ADMIN_GENERAL; RoleEnum.DIRECTION;
                  RoleEnum.COMPTABLE; RoleEnum.MAGASINIER ] then ret user
  else
    let chantiers_assignes := chantiers_assignes user in
    if negb (py_in chantier_id chantiers_assignes) then
      raise (HTTPException status.HTTP_403_FORBIDDEN)
    else ret user.

Definition require_any_permission (permissions : list string) (user : user_dict)
    : M user_dict :=
  let role := default RoleEnum.OUVRIER (role user) in
  if negb (has_any_permission role permissions) then
    raise (HTTPException status.HTTP_403_FORBIDDEN)
  else ret user.

Definition require_all_permissions (permissions : list string) (user : user_dict)
    : M user_dict :=
  let role := default RoleEnum.OUVRIER (role user) in
  if negb (has_all_permissions role permissions) then
    raise (HTTPException status.HTTP_403_FORBIDDEN)
  else ret user.


(** ** The read endpoints of app/api/v1/endpoints/depenses.py *)

(** The [where] clause that [list_depenses] adds for the caller's role;
    [None] stands for its early [return []]. *)
Definition list_depenses_role_filter (user : user_dict)
    : option (Z * Depense.t → bool) :=
  let role := default RoleEnum.OUVRIER (role user) in
  let user_chantier_id := chantier_id user in
  let chantiers_assignes := chantiers_assignes user in
  if bool_decide (role = RoleEnum.CHEF_CHANTIER) then
    if negb (bool_decide (or_zero user_chantier_id = 0)) then
      Some (λ r, bool_decide (Some (Depense.chantier_id r.2) = user_chantier_id))
    else
      match chantiers_assignes with
      | _ :: _ => Some (λ r, py_in (Depense.chantier_id r.2) chantiers_assignes)
      | [] => None
      end
  else if bool_decide (role = RoleEnum.ADMIN_CHANTIER) then
    match chantiers_assignes with
    | _ :: _ => Some (λ r, py_in (Depense.chantier_id r.2) chantiers_assignes)
    | [] =>
        if negb (bool_decide (or_zero user_chantier_id = 0)) then
          Some (λ r, bool_decide (Some (Depense.chantier_id r.2) = user_chantier_id))
        else Some (λ _, true)
    end
  else Some (λ _, true).

(** [list_depenses].  Its query parameter [status] hides the [status]
    module of fastapi inside the function, so that the
    [status.HTTP_403_FORBIDDEN] of its access check is an attribute
    error on a string or on [None], not an HTTP 403.  The rows kept here
    carry no date: [dates] stands for the conjunction of the
    [date_debut] and [date_fin] clauses, constantly true when both
    bounds are absent.  The [order_by] is not modelled. *)
Definition list_depenses (site : option Z) (status : option string)
    (dates : Depense.t → bool) (user : user_dict) : M (list (Z * Depense.t)) :=
  let* user := require_permission "view_depenses" user in
  let role := default RoleEnum.OUVRIER (role user) in
  let user_chantier_id := chantier_id user in
  let chantiers_assignes := chantiers_assignes user in
  match list_depenses_role_filter user with
  | None => ret []
  | Some role_filter =>
      if negb (bool_decide (or_zero site = 0))
         && negb (py_in role [ RoleEnum.ADMIN_GENERAL; RoleEnum.COMPTABLE;
                               RoleEnum.DIRECTION ])
         && negb (py_in (or_zero site) chantiers_assignes)
         && negb (bool_decide (Some (or_zero site) = user_chantier_id)) then
        raise Uncaught
      else
        query (λ d, select_where
          (λ r, role_filter r
                && (bool_decide (or_zero site = 0)
                    || bool_decide (Depense.chantier_id r.2 = or_zero site))
                && match status with
                   | Some s => bool_decide (s = "")
                               || bool_decide (Depense.status r.2 = s)
                   | None => true
                   end
                && dates r.2
                = true)
          (depenses d))
  end.

Definition get_depense (id : Z) (user : user_dict) : M Depense.t :=
  let* user := require_permission "view_depenses" user in
  let role := default RoleEnum.OUVRIER (role user) in
  let* rows := query (λ d, select_by_id (depenses d) id) in
  let* found := scalar_one_or_none rows in
  match found with
  | None => raise (HTTPException status.HTTP_404_NOT_FOUND)
  | Some (_, depense) =>
      if negb (py_in role [ RoleEnum.ADMIN_GENERAL; RoleEnum.COMPTABLE;
                            RoleEnum.DIRECTION ])
         && negb (has_chantier_access user (Depense.chantier_id depense)) then
        raise (HTTPException status.HTTP_403_FORBIDDEN)
      else ret depense
  end.

(** The response of [list_pending_depenses] is its ["count"] and its
    ["depenses"]. *)
Definition list_pending_depenses (user : user_dict) : M (nat * list (Z * Depense.t)) :=
  let* user := require_admin user in
  let* depenses := query (λ d, select_where
    (λ r, Depense.status r.2
          ∈ [ DepenseStatus.EN_ATTENTE; DepenseStatus.VALIDEE_CHANTIER ])
    (depenses d)) in
  ret (length depenses, depenses).

(** The amount that a request asks to store, if it carries one. *)
Definition montant_demande (req : depense_request) : option Z :=
  match req with
  | Create data _ => Some (DepenseCreate.montant data)
  | Update _ data => DepenseUpdate.montant data
  | _ => None
  end.

(** No stored expense has a negative amount. *)
Definition montants_non_negatifs (d : db) : Prop :=
  map_Forall (λ _ depense, 0 ≤ Depense.montant depense) (depenses d).

(** No two expenses carry the same reference. *)
Definition references_unique (d : db) : Prop :=
  ∀ i j u v,
    depenses d !! i = Some u → depenses d !! j = Some v →
    Depense.reference u = Depense.reference v → i = j.

(** ** Stock movements (app/api/v1/endpoints/materiels.py) *)

Module MouvementCreate.
Record t := { materiel_id : Z; type_mouvement : string; quantite : Z }.
End MouvementCreate.

Module ReceptionRequest.
Record t := { materiel_id : Z; quantite : Z }.
End ReceptionRequest.

Definition create_mouvement (data : MouvementCreate.t) (user : user_dict)
    : M MouvementStock.t :=
  let* user := require_permission "mouvement_stock" user in
  let role := default RoleEnum.OUVRIER (role user) in
  let user_id := caller_id user in
  let* rows := query (λ d,
    select_by_id (materiels d) (MouvementCreate.materiel_id data)) in
  let* found := scalar_one_or_none rows in
  match found with
  | None => raise (HTTPException status.HTTP_404_NOT_FOUND)
  | Some (id, materiel) =>
      if bool_decide (role = RoleEnum.CHEF_CHANTIER)
         && negb (has_chantier_access user (Materiel.chantier_id materiel)) then
        raise (HTTPException status.HTTP_403_FORBIDDEN)
      else if negb (py_in (MouvementCreate.type_mouvement data)
                      [ TypeMouvement.ENTREE; TypeMouvement.SORTIE ]) then
        raise (HTTPException status.HTTP_400_BAD_REQUEST)
      else
      let* _ :=
        if bool_decide (MouvementCreate.type_mouvement data = TypeMouvement.ENTREE) then
          update (set_materiels
            <[id := with_quantite materiel
                      (Some (or_zero (Materiel.quantite materiel)
                             + MouvementCreate.quantite data))]>)
        else if bool_decide (MouvementCreate.type_mouvement data
                             = TypeMouvement.SORTIE) then
          if bool_decide (or_zero (Materiel.quantite materiel)
                          < MouvementCreate.quantite data) then
            raise (HTTPException status.HTTP_400_BAD_REQUEST)
          else
            (* materiel.quantite -= data.quantite *)
            match Materiel.quantite materiel with
            | None => raise Uncaught
            | Some b =>
                update (set_materiels
                  <[id := with_quantite materiel
                            (Some (b - MouvementCreate.quantite data))]>)
            end
        else ret tt in
      let mouvement :=
        {| MouvementStock.materiel_id := MouvementCreate.materiel_id data;
           MouvementStock.type_mouvement := MouvementCreate.type_mouvement data;
           MouvementStock.quantite := MouvementCreate.quantite data;
           MouvementStock.created_by := user_id |} in
      let* _ := update (set_mouvements (λ l, l ++ [mouvement])) in
      let* _ := commit in
      ret mouvement
  end.

(** The response of [recevoir_materiel] is its ["nouveau_stock"]. *)
Definition recevoir_materiel (data : ReceptionRequest.t) (user : user_dict)
    : M (option Z) :=
  let* user := require_permission "receive_materiel" user in
  let user_id := caller_id user in
  let* rows := query (λ d,
    select_by_id (materiels d) (ReceptionRequest.materiel_id data)) in
  let* found := scalar_one_or_none rows in
  match found with
  | None => raise (HTTPException status.HTTP_404_NOT_FOUND)
  | Some (id, materiel) =>
      let materiel :=
        with_quantite materiel
          (Some (or_zero (Materiel.quantite materiel)
                 + ReceptionRequest.quantite data)) in
      let* _ := update (set_materiels <[id := materiel]>) in
      let mouvement :=
        {| MouvementStock.materiel_id := ReceptionRequest.materiel_id data;
           MouvementStock.type_mouvement := TypeMouvement.RECEPTION;
           MouvementStock.quantite := ReceptionRequest.quantite data;
           MouvementStock.created_by := user_id |} in
      let* _ := update (set_mouvements (λ l, l ++ [mouvement])) in
      let* _ := commit in
      ret (Materiel.quantite materiel)
  end.

(** One request to the endpoints that move stock, and a sequence of
    them served in order. *)
Inductive stock_request :=
  | Mouvement (data : MouvementCreate.t)
  | Reception (data : ReceptionRequest.t)
  | Transfert (data : TransfertRequest.t).

Definition serve_stock (user : user_dict) (req : stock_request) (d : db)
    : (failure + unit) * db :=
  match req with
  | Mouvement data => void (get_db (create_mouvement data user) d)
  | Reception data => void (get_db (recevoir_materiel data user) d)
  | Transfert data => void (get_db (transferer_materiel data user) d)
  end.

Fixpoint serve_stocks (reqs : list (user_dict * stock_request)) (d : db)
    : list (failure + unit) * db :=
  match reqs with
  | [] => ([], d)
  | (user, req) :: reqs' =>
      let '(r, d') := serve_stock user req d in
      let '(rs, d'') := serve_stocks reqs' d' in
      (r :: rs, d'')
  end.




(** ** Reading documents (app/api/v1/endpoints/documents.py) *)

(** [download_document].  [on_disk id] stands for the
    [os.path.exists] test on the file stored for document [id]; the
    response is the file of the document returned here. *)
Definition download_document (on_disk : Z → bool) (document_id : Z)
    (user : user_dict) : M Document.t :=
  let* user := require_permission "download_document" user in
  let role := default RoleEnum.OUVRIER (role user) in
  let* rows := query (λ d, select_by_id (documents d) document_id) in
  let* found := scalar_one_or_none rows in
  match found with
  | None => raise (HTTPException status.HTTP_404_NOT_FOUND)
  | Some (id, document) =>
      let* _ :=
        if bool_decide (role = RoleEnum.CLIENT) then
          (* if not document.valide_client: *)
          let* valide_client :=
            getattr_undeclared Document.columns "valide_client" eq_refl in
          if negb valide_client then
            raise (HTTPException status.HTTP_403_FORBIDDEN)
          else ret tt
        else ret tt in
      if negb (py_in role [ RoleEnum.ADMIN_GENERAL; RoleEnum.DIRECTION;
                                 RoleEnum.CLIENT ])
              && (if bool_decide (role = RoleEnum.COMPTABLE) then
                    negb (py_in (Document.type_document document)
                            DocumentType.types_comptable)
                  else
                    negb (has_chantier_access user (Document.chantier_id document)))
      then
        raise (HTTPException status.HTTP_403_FORBIDDEN)
      else if negb (on_disk id) then
        raise (HTTPException status.HTTP_404_NOT_FOUND)
      else ret document
  end.

(** The view of the client: its [where] names [Document.valide_client]
    while the query is built. *)
Definition list_client_validated_documents (chantier_id : Z) (user : user_dict)
    : M (list (Z * Document.t)) :=
  let* user := require_permission "view_documents_valides" user in
  let* valide_client :=
    getattr_undeclared (A := Z * Document.t → bool) Document.columns
      "valide_client" eq_refl in
  query (λ d, select_where
    (λ r, Document.chantier_id r.2 = chantier_id ∧ valide_client r = true)
    (documents d)).

(** ** Soundness of the users table *)

(** Every stored role is a valid role and no two accounts share an
    email address. *)
Definition users_sound (d : db) : Prop :=
  map_Forall (λ _ user, User.role user ∈ VALID_ROLES) (users d)
  ∧ ∀ i j u v,
      users d !! i = Some u → users d !! j = Some v →
      User.email u = User.email v → i = j.

(** ** app/api/v1/endpoints/chantiers.py *)

(** The request body of [update_chantier], reduced to the one field
    kept in [Chantier.t]. *)
Module ChantierUpdate.
Record t := { budget_prevu : option Z }.
End ChantierUpdate.

Definition with_budget_prevu (chantier : Chantier.t) (b : option Z) : Chantier.t :=
  {| Chantier.budget_prevu := b;
     Chantier.budget_consomme := Chantier.budget_consomme chantier |}.

Definition update_chantier (id : Z) (data : ChantierUpdate.t) (user : user_dict)
    : M Chantier.t :=
  let* user := require_permission "edit_chantier" user in
  let role := default RoleEnum.OUVRIER (role user) in
  if bool_decide (role = RoleEnum.DIRECTION) then
    raise (HTTPException status.HTTP_403_FORBIDDEN)
  else
  let* rows := query (λ d, select_by_id (chantiers d) id) in
  let* found := scalar_one_or_none rows in
  match found with
  | None => raise (HTTPException status.HTTP_404_NOT_FOUND)
  | Some (_, chantier) =>
      if negb (bool_decide (role = RoleEnum.ADMIN_GENERAL))
         && negb (has_chantier_access user id) then
        raise (HTTPException status.HTTP_403_FORBIDDEN)
      else if bool_decide (is_Some (ChantierUpdate.budget_prevu data))
              && negb (bool_decide (role = RoleEnum.ADMIN_GENERAL)) then
        raise (HTTPException status.HTTP_403_FORBIDDEN)
      else
        let chantier :=
          match ChantierUpdate.budget_prevu data with
          | Some value => with_budget_prevu chantier (Some value)
          | None => chantier
          end in
        let* _ := update (set_chantiers <[id := chantier]>) in
        let* _ := commit in
        ret chantier
  end.
(** ** Sample data

    Concrete principals and databases on which the properties below are
    exercised. *)

Definition sample_admin : user_dict :=
  {| user_id := 1; role := Some "admin_general";
     chantiers_assignes := []; chantier_id := None |}.

Definition sample_comptable : user_dict :=
  {| user_id := 3; role := Some "comptable";
     chantiers_assignes := []; chantier_id := None |}.

Definition sample_chef : user_dict :=
  {| user_id := 2; role := Some "chef_chantier";
     chantiers_assignes := [5]; chantier_id := None |}.

Definition sample_client : user_dict :=
  {| user_id := 4; role := Some "client";
     chantiers_assignes := []; chantier_id := None |}.

Definition sample_chantier : Chantier.t :=
  {| Chantier.budget_prevu := Some 1000; Chantier.budget_consomme := Some 100 |}.

Definition sample_depense (s : string) : Depense.t :=
  {| Depense.reference := "DEP-202411-1000";
     Depense.montant := 40;
     Depense.status := s;
     Depense.chantier_id := 5;
     Depense.created_by := 3;
     Depense.approved_by := None |}.

(** Site 5 with one expense, number 1, in the given state. *)
Definition sample_db (s : string) : db :=
  {| chantiers := {[ 5 := sample_chantier ]};
     depenses := {[ 1 := sample_depense s ]};
     materiels := ∅;
     mouvements := [];
     users := ∅;
     documents := ∅ |}.

Definition sample_create : DepenseCreate.t :=
  {| DepenseCreate.montant := 40; DepenseCreate.chantier_id := 5 |}.

Definition sample_user (r : string) : User.t :=
  {| User.email := "awa@nexus.sn"; User.phone := None; User.role := r;
     User.is_active := true; User.chantier_id := None |}.

(** One administrator, number 1, and one site manager, number 2. *)
Definition sample_users_db : db :=
  {| chantiers := {[ 5 := sample_chantier ]};
     depenses := ∅;
     materiels := ∅;
     mouvements := [];
     users := {[ 1 := sample_user "admin_general"; 2 := sample_user "chef_chantier" ]};
     documents := ∅ |}.

Definition sample_user_create (r : string) : UserCreate.t :=
  {| UserCreate.email := "moussa@nexus.sn"; UserCreate.phone := None;
     UserCreate.role := r; UserCreate.chantier_id := None |}.

Definition sample_materiel (q : option Z) (site : Z) : Materiel.t :=
  {| Materiel.nom := "ciment"; Materiel.categorie := "liant"; Materiel.unite := "sac";
     Materiel.quantite := q; Materiel.seuil_alerte := Some 10;
     Materiel.prix_unitaire := Some 4500; Materiel.chantier_id := site |}.

(** Sites 1 and 2; cement in stock at both, 10 bags at site 1 (material
    1) and 4 at site 2 (material 2). *)
Definition sample_stock_db : db :=
  {| chantiers := {[ 1 := sample_chantier; 2 := sample_chantier ]};
     depenses := ∅;
     materiels := {[ 1 := sample_materiel (Some 10) 1;
                     2 := sample_materiel (Some 4) 2 ]};
     mouvements := [];
     users := ∅;
     documents := ∅ |}.

(** Sites 1 and 2; 10 bags of cement at site 1 (material 1) and no
    material at site 2. *)
Definition sample_new_site_db : db :=
  {| chantiers := {[ 1 := sample_chantier; 2 := sample_chantier ]};
     depenses := ∅;
     materiels := {[ 1 := sample_materiel (Some 10) 1 ]};
     mouvements := [];
     users := ∅;
     documents := ∅ |}.

Definition sample_transfert (q source destination : Z) : TransfertRequest.t :=
  {| TransfertRequest.materiel_id := 1;
     TransfertRequest.quantite := q;
     TransfertRequest.chantier_source_id := source;
     TransfertRequest.chantier_destination_id := destination |}.

Definition sample_file : UploadFile.t :=
  {| UploadFile.filename := "plan-fondations.pdf"; UploadFile.ext := ".pdf";
     UploadFile.size := 2048 |}.

(** Two document rows as [DataFilter] receives them, the first validated
    for the client, the second not. *)
Definition sample_document_dicts : list (gmap string pyval) :=
  [ {[ "id" := PInt 1; "type" := PStr "plan"; "valide_client" := PBool true ]};
    {[ "id" := PInt 2; "type" := PStr "facture"; "valide_client" := PBool false ]} ].

(** One employee row as [DataFilter] receives it. *)
Definition sample_employe_dicts : list (gmap string pyval) :=
  [ {[ "id" := PInt 7; "nom" := PStr "Diop"; "salaire_journalier" := PInt 8000;
       "info_bancaire" := PStr "SN08" ]} ].

(** Two site rows as [DataFilter] receives them. *)
Definition sample_chantier_dicts : list (gmap string pyval) :=
  [ {[ "id" := PInt 5; "nom" := PStr "Almadies"; "client_id" := PInt 4 ]};
    {[ "id" := PInt 7; "nom" := PStr "Plateau"; "client_id" := PInt 9 ]} ].

Definition sample_admin_chantier : user_dict :=
  {| user_id := 6; role := Some "admin_chantier";
     chantiers_assignes := [5]; chantier_id := None |}.

Definition sample_magasinier : user_dict :=
  {| user_id := 8; role := Some "magasinier";
     chantiers_assignes := []; chantier_id := None |}.

Definition sample_mouvement (type_mouvement : string) (q : Z) : MouvementCreate.t :=
  {| MouvementCreate.materiel_id := 1;
     MouvementCreate.type_mouvement := type_mouvement;
     MouvementCreate.quantite := q |}.

Definition sample_document : Document.t :=
  {| Document.nom := "plan-fondations.pdf"; Document.type_document := "plan";
     Document.taille := 2048; Document.chantier_id := 5;
     Document.uploaded_by := 2 |}.

(** Site 5 with one document, number 1. *)
Definition sample_documents_db : db :=
  {| chantiers := {[ 5 := sample_chantier ]};
     depenses := ∅;
     materiels := ∅;
     mouvements := [];
     users := ∅;
     documents := {[ 1 := sample_document ]} |}.

Definition sample_account (email r : string) (active : bool) : User.t :=
  {| User.email := email; User.phone := None; User.role := r;
     User.is_active := active; User.chantier_id := None |}.

(** The administrator, account 1, and a site manager, account 2. *)
Definition sample_accounts_db : db :=
  {| chantiers := {[ 5 := sample_chantier ]};
     depenses := ∅;
     materiels := ∅;
     mouvements := [];
     users := {[ 1 := sample_account "awa@nexus.sn" "admin_general" true;
                 2 := sample_account "ibou@nexus.sn" "chef_chantier" true ]};
     documents := ∅ |}.

(** * Properties *)

(** ** The Python helpers *)

Lemma py_in_true `{EqDecision A} (x : A) (l : list A) : py_in x l = true ↔ x ∈ l.
Proof. unfold py_in. apply bool_decide_eq_true. Qed.

Lemma py_in_false `{EqDecision A} (x : A) (l : list A) : py_in x l = false ↔ x ∉ l.
Proof. unfold py_in. apply bool_decide_eq_false. Qed.

Lemma dict_get_None {V} (d : list (string * V)) k :
  dict_get d k = None ↔ k ∉ d.*1.
Proof.
  induction d as [|[k' v'] d IH]; simpl.
  - split; [intros _; apply not_elem_of_nil | done].
  - case_bool_decide; rewrite not_elem_of_cons.
    + split; [done | intros [? _]; congruence].
    + rewrite IH. naive_solver.
Qed.

(** ** Roles and permissions *)

(** Both tables are keyed by exactly the eight roles, each once. *)
Lemma ROLE_PERMISSIONS_keys : ROLE_PERMISSIONS.*1 = RoleEnum.all_roles.
Proof. reflexivity. Qed.

Lemma ROLE_INFO_keys role : role ∈ ROLE_INFO.*1 ↔ role ∈ RoleEnum.all_roles.
Proof. vm_compute. set_solver. Qed.

Lemma role_permissions_get_unknown role :
  role ∉ RoleEnum.all_roles → role_permissions_get role = [].
Proof.
  intros Hr. unfold role_permissions_get.
  rewrite <- ROLE_PERMISSIONS_keys in Hr.
  apply dict_get_None in Hr. by rewrite Hr.
Qed.

Lemma has_permission_admin_general p :
  has_permission RoleEnum.ADMIN_GENERAL p = true.
Proof. reflexivity. Qed.

Lemma has_permission_other role p :
  role ≠ RoleEnum.ADMIN_GENERAL →
  has_permission role p = true ↔
  p ∈ role_permissions_get role ∨ "all" ∈ role_permissions_get role.
Proof.
  intros Hr. unfold has_permission.
  rewrite bool_decide_eq_false_2 by done.
  by rewrite orb_true_iff, !py_in_true.
Qed.

(** The loop of [get_role_permissions] collects exactly the entries of
    the lists it is given. *)
Lemma all_perms_loop_from (acc : gset string) tables p :
  p ∈ foldl (λ all_perms perms, all_perms ∪ list_to_set perms) acc tables
  ↔ p ∈ acc ∨ ∃ perms : list string, perms ∈ tables ∧ p ∈ perms.
Proof.
  revert acc. induction tables as [|perms tables IH]; intros acc; simpl.
  - split; [by left | intros [?|(? & H & _)]; [done | by apply elem_of_nil in H]].
  - rewrite IH, elem_of_union, elem_of_list_to_set. split.
    + intros [[?|?]|(perms' & ? & ?)]; [by left | right; exists perms | right; exists perms'];
        split; try done; [left | by right].
    + intros [?|(perms' & Hin & ?)]; [by left; left|].
      apply elem_of_cons in Hin as [->|?]; [by left; right | right; by exists perms'].
Qed.

Lemma elem_of_all_perms_loop tables p :
  p ∈ all_perms_loop tables ↔ ∃ perms : list string, perms ∈ tables ∧ p ∈ perms.
Proof.
  unfold all_perms_loop. rewrite all_perms_loop_from. set_solver.
Qed.

Lemma elem_of_dict_values {V} (d : list (string * V)) v :
  v ∈ dict_values d ↔ ∃ k, (k, v) ∈ d.
Proof.
  unfold dict_values. rewrite list_elem_of_fmap. split.
  - intros ([k v'] & -> & ?). by exists k.
  - intros (k & ?). by exists (k, v).
Qed.

Lemma elem_of_get_role_permissions_admin p :
  p ∈ get_role_permissions RoleEnum.ADMIN_GENERAL
  ↔ (∃ r perms, (r, perms) ∈ ROLE_PERMISSIONS ∧ p ∈ perms) ∧ p ≠ "all".
Proof.
  unfold get_role_permissions. rewrite bool_decide_eq_true_2 by done.
  rewrite elem_of_elements, elem_of_difference, elem_of_singleton.
  rewrite elem_of_all_perms_loop.
  setoid_rewrite elem_of_dict_values. naive_solver.
Qed.

(** C2, as stated, fails: the union of the permission lists of the table
    contains the wildcard ["all"], granted to [admin_general], while
    [get_role_permissions] discards it before returning. *)
Lemma get_role_permissions_admin_not_union :
  ¬ (∀ p, p ∈ get_role_permissions "admin_general"
          ↔ ∃ r perms, (r, perms) ∈ ROLE_PERMISSIONS ∧ p ∈ perms).
Proof.
  intros Hunion.
  assert (Hall : "all" ∈ get_role_permissions "admin_general").
  { apply Hunion. exists "admin_general", ["all"]. split; [left | left]. }
  apply elem_of_get_role_permissions_admin in Hall as [_ Hne]. by apply Hne.
Qed.

(** C2 (amended): for every role other than [admin_general],
    [has_permission] holds exactly of the permissions in the role's list
    of the static table, or of all of them when the list contains
    ["all"] (a role without a list has none); for [admin_general] it
    holds of every permission, in particular of those in any other
    role's list; and [get_role_permissions] of [admin_general] returns
    the union of the permissions granted to any role, without the
    wildcard ["all"]. *)
Theorem permissions_of_roles :
  (∀ r p, r ≠ "admin_general" →
     has_permission r p = true
     ↔ ∃ perms, dict_get ROLE_PERMISSIONS r = Some perms
                ∧ (p ∈ perms ∨ "all" ∈ perms))
  ∧ (∀ p, has_permission "admin_general" p = true)
  ∧ (∀ r perms p, (r, perms) ∈ ROLE_PERMISSIONS → p ∈ perms →
       has_permission "admin_general" p = true)
  ∧ (∀ p, p ∈ get_role_permissions "admin_general"
          ↔ (∃ r perms, (r, perms) ∈ ROLE_PERMISSIONS ∧ p ∈ perms) ∧ p ≠ "all").
Proof.
  split; [|split; [|split]].
  - intros r p Hr. rewrite has_permission_other by done.
    unfold role_permissions_get.
    destruct (dict_get ROLE_PERMISSIONS r) as [perms|]; simpl.
    + split; [by exists perms | by intros (? & [= <-] & ?)].
    + split; [intros [H|H]; by apply elem_of_nil in H | by intros (? & [=] & _)].
  - apply has_permission_admin_general.
  - intros. apply has_permission_admin_general.
  - apply elem_of_get_role_permissions_admin.
Qed.

Lemma permissions_of_roles_witness :
  "comptable" ≠ "admin_general"
  ∧ (has_permission "comptable" "view_salaires" = true
     ↔ ∃ perms, dict_get ROLE_PERMISSIONS "comptable" = Some perms
                ∧ ("view_salaires" ∈ perms ∨ "all" ∈ perms)).
Proof.
  split; [done|].
  apply (proj1 permissions_of_roles "comptable" "view_salaires"). done.
Defined.

(** C3: [has_chantier_access] is true for the four roles with global
    access, whatever the site; for every other identity it is true
    exactly when the site is one of the identity's assigned sites. *)
Theorem has_chantier_access_decision (user : user_dict) (site_id : Z) :
  (default "" (role user)
     ∈ ["admin_general"; "direction"; "comptable"; "magasinier"] →
   has_chantier_access user site_id = true)
  ∧ (default "" (role user)
       ∉ ["admin_general"; "direction"; "comptable"; "magasinier"] →
     (has_chantier_access user site_id = true
      ↔ site_id ∈ chantiers_assignes user)).
Proof.
  unfold has_chantier_access. cbv zeta.
  change global_access_roles
    with ["admin_general"; "direction"; "comptable"; "magasinier"].
  split; intros Hrole.
  - apply py_in_true in Hrole. by rewrite Hrole.
  - apply py_in_false in Hrole. rewrite Hrole. apply py_in_true.
Qed.

Lemma has_chantier_access_decision_witness :
  ((default "" (role sample_comptable)
      ∈ ["admin_general"; "direction"; "comptable"; "magasinier"])
   ∧ has_chantier_access sample_comptable 7 = true)
  ∧ ((default "" (role sample_chef)
        ∉ ["admin_general"; "direction"; "comptable"; "magasinier"])
     ∧ (has_chantier_access sample_chef 5 = true
        ↔ 5 ∈ chantiers_assignes sample_chef)).
Proof.
  split; (split; [by apply (bool_decide_unpack _); vm_compute|]).
  - apply (proj1 (has_chantier_access_decision sample_comptable 7)).
    by apply (bool_decide_unpack _); vm_compute.
  - apply (proj2 (has_chantier_access_decision sample_chef 5)).
    by apply (bool_decide_unpack _); vm_compute.
Defined.

(** C9: a role outside the eight-role vocabulary has level 0, an empty
    permission list, and is granted no permission at all. *)
Theorem unknown_role_fail_closed (role : string) :
  role ∉ ["admin_general"; "admin_chantier"; "comptable"; "chef_chantier";
          "magasinier"; "ouvrier"; "client"; "direction"] →
  get_role_level role = 0
  ∧ get_role_permissions role = []
  ∧ ∀ p, has_permission role p = false.
Proof.
  intros Hrole.
  assert (Hperms : role_permissions_get role = [])
    by by apply role_permissions_get_unknown.
  assert (Hadmin : role ≠ RoleEnum.ADMIN_GENERAL).
  { intros ->. apply Hrole. set_solver. }
  split; [|split].
  - unfold get_role_level, get_role_info.
    assert (Hinfo : dict_get ROLE_INFO role = None).
    { apply dict_get_None. by rewrite ROLE_INFO_keys. }
    by rewrite Hinfo.
  - unfold get_role_permissions. by rewrite bool_decide_eq_false_2.
  - intros p. apply not_true_iff_false. rewrite has_permission_other by done.
    rewrite Hperms. intros [H|H]; by apply elem_of_nil in H.
Qed.

Lemma unknown_role_fail_closed_witness :
  ("stagiaire" ∉ ["admin_general"; "admin_chantier"; "comptable"; "chef_chantier";
                  "magasinier"; "ouvrier"; "client"; "direction"])
  ∧ get_role_level "stagiaire" = 0
  ∧ get_role_permissions "stagiaire" = []
  ∧ ∀ p, has_permission "stagiaire" p = false.
Proof.
  split; [by apply (bool_decide_unpack _); vm_compute|].
  apply (unknown_role_fail_closed "stagiaire").
  by apply (bool_decide_unpack _); vm_compute.
Defined.

(** ** Running a handler *)

#[local] Arguments has_permission : simpl never.
#[local] Arguments py_in : simpl never.
#[local] Arguments has_chantier_access : simpl never.
#[local] Arguments caller_id : simpl never.
#[local] Arguments new_id : simpl never.
#[local] Arguments select_where : simpl never.
#[local] Arguments or_zero : simpl never.
#[local] Arguments orm_init : simpl never.
#[local] Arguments getattr_undeclared : simpl never.

(** Unfolds the named string constants of the source. *)
Ltac literals :=
  unfold RoleEnum.ADMIN_GENERAL, RoleEnum.ADMIN_CHANTIER, RoleEnum.COMPTABLE,
    RoleEnum.CHEF_CHANTIER, RoleEnum.MAGASINIER, RoleEnum.OUVRIER,
    RoleEnum.CLIENT, RoleEnum.DIRECTION,
    DepenseStatus.EN_ATTENTE, DepenseStatus.VALIDEE_CHANTIER,
    DepenseStatus.APPROUVEE, DepenseStatus.REJETEE, DepenseStatus.ANNULEE,
    TypeMouvement.TRANSFERT_ENTRANT, TypeMouvement.TRANSFERT_SORTANT,
    status.HTTP_400_BAD_REQUEST, status.HTTP_403_FORBIDDEN,
    status.HTTP_404_NOT_FOUND in *.

Ltac exec :=
  unfold get_db, void, bind, ret, raise, query, update, commit,
    scalar_one_or_none, select_by_id;
  simpl.

Lemma require_admin_run user s :
  require_admin user s =
  if bool_decide (default RoleEnum.OUVRIER (role user) = RoleEnum.ADMIN_GENERAL)
  then (inr user, s) else (inl (HTTPException 403), s).
Proof.
  unfold require_admin, require_roles, ret, raise.
  case_bool_decide as Hr; [done|].
  rewrite (proj2 (py_in_false _ _)); [done|].
  rewrite list_elem_of_singleton. done.
Qed.

Lemma require_permission_run permission user s :
  require_permission permission user s =
  if has_permission (default RoleEnum.OUVRIER (role user)) permission
  then (inr user, s) else (inl (HTTPException 403), s).
Proof. unfold require_permission, ret, raise. by destruct (has_permission _ _). Qed.

Lemma approve_depense_run id user d :
  get_db (approve_depense id user) d =
  if bool_decide (default RoleEnum.OUVRIER (role user) = RoleEnum.ADMIN_GENERAL) then
    match depenses d !! id with
    | None => (inl (HTTPException 404), d)
    | Some depense =>
        if bool_decide (Depense.status depense = DepenseStatus.APPROUVEE) then
          (inl (HTTPException 400), d)
        else if bool_decide (Depense.status depense = DepenseStatus.REJETEE) then
          (inl (HTTPException 400), d)
        else
          let depense' :=
            with_approved_by (with_status depense DepenseStatus.APPROUVEE)
              (caller_id user) in
          let d' := set_depenses <[id := depense']> d in
          (inr (Depense.montant depense, DepenseStatus.APPROUVEE),
           match chantiers d !! Depense.chantier_id depense with
           | Some chantier =>
               set_chantiers
                 <[Depense.chantier_id depense :=
                     with_budget_consomme chantier
                       (Some (default 0 (Chantier.budget_consomme chantier)
                              + Depense.montant depense))]> d'
           | None => d'
           end)
    end
  else (inl (HTTPException 403), d).
Proof.
  unfold approve_depense, get_db, bind at 1. rewrite require_admin_run.
  destruct (bool_decide (_ = RoleEnum.ADMIN_GENERAL)); [|done].
  exec.
  destruct (depenses d !! id) as [depense|]; simpl; [|done].
  destruct (bool_decide (_ = DepenseStatus.APPROUVEE)); [done|].
  destruct (bool_decide (_ = DepenseStatus.REJETEE)); [done|].
  simpl.
  destruct (chantiers d !! Depense.chantier_id depense) as [chantier|]; simpl; [|done].
  by destruct chantier as [bp [b|]].
Qed.

Lemma reject_depense_run id user d :
  get_db (reject_depense id user) d =
  if bool_decide (default RoleEnum.OUVRIER (role user) = RoleEnum.ADMIN_GENERAL) then
    match depenses d !! id with
    | None => (inl (HTTPException 404), d)
    | Some depense =>
        if bool_decide (Depense.status depense = DepenseStatus.APPROUVEE) then
          (inl (HTTPException 400), d)
        else
          (inr tt, set_depenses <[id := with_status depense DepenseStatus.REJETEE]> d)
    end
  else (inl (HTTPException 403), d).
Proof.
  unfold reject_depense, get_db, bind at 1. rewrite require_admin_run.
  destruct (bool_decide (_ = RoleEnum.ADMIN_GENERAL)); [|done].
  exec.
  destruct (depenses d !! id) as [depense|]; simpl; [|done].
  by destruct (bool_decide (_ = DepenseStatus.APPROUVEE)).
Qed.

Lemma delete_depense_run id user d :
  get_db (delete_depense id user) d =
  if bool_decide (default RoleEnum.OUVRIER (role user) = RoleEnum.ADMIN_GENERAL) then
    match depenses d !! id with
    | None => (inl (HTTPException 404), d)
    | Some depense =>
        if bool_decide (Depense.status depense = DepenseStatus.APPROUVEE) then
          (inl (HTTPException 400), d)
        else (inr tt, set_depenses (delete id) d)
    end
  else (inl (HTTPException 403), d).
Proof.
  unfold delete_depense, get_db, bind at 1. rewrite require_admin_run.
  destruct (bool_decide (_ = RoleEnum.ADMIN_GENERAL)); [|done].
  exec.
  destruct (depenses d !! id) as [depense|]; simpl; [|done].
  by destruct (bool_decide (_ = DepenseStatus.APPROUVEE)).
Qed.

Lemma update_depense_run id data user d :
  get_db (update_depense id data user) d =
  if has_permission (default RoleEnum.OUVRIER (role user)) "create_depense" then
    match depenses d !! id with
    | None => (inl (HTTPException 404), d)
    | Some depense =>
        if bool_decide (Depense.status depense = DepenseStatus.EN_ATTENTE) then
          if negb (bool_decide (default RoleEnum.OUVRIER (role user)
                                = RoleEnum.ADMIN_GENERAL))
             && negb (bool_decide (Depense.created_by depense = caller_id user)) then
            (inl (HTTPException 403), d)
          else
            let depense' :=
              match DepenseUpdate.montant data with
              | Some value => with_montant depense value
              | None => depense
              end in
            (inr depense', set_depenses <[id := depense']> d)
        else (inl (HTTPException 400), d)
    end
  else (inl (HTTPException 403), d).
Proof.
  unfold update_depense, get_db, bind at 1. rewrite require_permission_run.
  destruct (has_permission _ _); [|done].
  exec.
  destruct (depenses d !! id) as [depense|]; simpl; [|done].
  destruct (bool_decide (_ = DepenseStatus.EN_ATTENTE)); simpl; [|done].
  by destruct (negb _ && negb _).
Qed.

Lemma validate_depense_chantier_run id user d :
  get_db (validate_depense_chantier id user) d =
  if has_permission (default RoleEnum.OUVRIER (role user))
       "validate_commande_chantier" then
    match depenses d !! id with
    | None => (inl (HTTPException 404), d)
    | Some depense =>
        if bool_decide (Depense.status depense = DepenseStatus.EN_ATTENTE) then
          if bool_decide (default RoleEnum.OUVRIER (role user)
                          = RoleEnum.ADMIN_CHANTIER)
             && negb (has_chantier_access user (Depense.chantier_id depense)) then
            (inl (HTTPException 403), d)
          else
            (inr DepenseStatus.VALIDEE_CHANTIER,
             set_depenses
               <[id := with_status depense DepenseStatus.VALIDEE_CHANTIER]> d)
        else (inl (HTTPException 400), d)
    end
  else (inl (HTTPException 403), d).
Proof.
  unfold validate_depense_chantier, get_db, bind at 1.
  rewrite require_permission_run.
  destruct (has_permission _ _); [|done].
  exec.
  destruct (depenses d !! id) as [depense|]; simpl; [|done].
  destruct (bool_decide (_ = DepenseStatus.EN_ATTENTE)); simpl; [|done].
  by destruct (bool_decide _ && negb _).
Qed.

(** The redraw loop only reads the session. *)
Lemma draw_reference_session draws s : (draw_reference draws s).2 = s.
Proof.
  induction draws as [|reference draws IH]; simpl; [done|].
  exec.
  destruct (select_where _ _) as [|row [|row' rows]]; simpl; [done| |done].
  apply IH.
Qed.

Lemma create_depense_run data draws user d :
  get_db (create_depense data draws user) d =
  if has_permission (default RoleEnum.OUVRIER (role user)) "create_depense" then
    match chantiers d !! DepenseCreate.chantier_id data with
    | None => (inl (HTTPException 404), d)
    | Some _ =>
        if bool_decide (default RoleEnum.OUVRIER (role user) = RoleEnum.CHEF_CHANTIER)
           && negb (bool_decide (Some (DepenseCreate.chantier_id data)
                                 = chantier_id user)
                    || py_in (DepenseCreate.chantier_id data)
                         (chantiers_assignes user)) then
          (inl (HTTPException 403), d)
        else
          match (draw_reference draws {| committed := d; working := d |}).1 with
          | inl e => (inl e, d)
          | inr reference =>
              let depense :=
                {| Depense.reference := reference;
                   Depense.montant := DepenseCreate.montant data;
                   Depense.status := DepenseStatus.EN_ATTENTE;
                   Depense.chantier_id := DepenseCreate.chantier_id data;
                   Depense.created_by := caller_id user;
                   Depense.approved_by := None |} in
              (inr (new_id (depenses d), depense),
               set_depenses <[new_id (depenses d) := depense]> d)
          end
    end
  else (inl (HTTPException 403), d).
Proof.
  unfold create_depense, get_db, bind at 1. rewrite require_permission_run.
  destruct (has_permission _ _); [|done].
  exec.
  destruct (chantiers d !! _) as [chantier|]; simpl; [|done].
  destruct (bool_decide (_ = RoleEnum.CHEF_CHANTIER)); simpl.
  - destruct (bool_decide _ || py_in _ _); simpl; [|done].
    pose proof (draw_reference_session draws {| committed := d; working := d |}) as Hs.
    destruct (draw_reference draws _) as [[e|reference] s]; simpl in *; by subst.
  - pose proof (draw_reference_session draws {| committed := d; working := d |}) as Hs.
    destruct (draw_reference draws _) as [[e|reference] s]; simpl in *; by subst.
Qed.

(** ** The expense workflow *)

Lemma new_id_fresh {A} (tbl : gmap Z A) : tbl !! new_id tbl = None.
Proof. apply not_elem_of_dom. unfold new_id. apply is_fresh. Qed.

Ltac run_depense :=
  unfold serve_depense, void;
  first [ rewrite create_depense_run | rewrite update_depense_run
        | rewrite validate_depense_chantier_run | rewrite approve_depense_run
        | rewrite reject_depense_run | rewrite delete_depense_run ].

Ltac bool_hyps :=
  repeat match goal with
  | H : bool_decide _ = true |- _ => apply bool_decide_eq_true in H
  | H : bool_decide _ = false |- _ => apply bool_decide_eq_false in H
  | H : negb _ = true |- _ => apply negb_true_iff in H
  | H : negb _ = false |- _ => apply negb_false_iff in H
  end.

(** A lookup under a write to another key. *)
Ltac other_key :=
  match goal with
  | |- <[?i := _]> _ !! ?j = _ =>
      destruct (decide (i = j)) as [->|]; [|by rewrite lookup_insert_ne]
  | |- delete ?i _ !! ?j = _ =>
      destruct (decide (i = j)) as [->|]; [|by rewrite lookup_delete_ne]
  end.

(** An approved expense is never touched again, whatever the request. *)
Lemma approuvee_sticky user req d id dep :
  depenses d !! id = Some dep →
  Depense.status dep = DepenseStatus.APPROUVEE →
  depenses (serve_depense user req d).2 !! id = Some dep.
Proof.
  intros Hd Hs. destruct req as [data draws|id' data|id'|id'|id'|id'];
    run_depense; repeat case_match; simpl; try done.
  - rewrite lookup_insert_ne; [done|].
    intros Heq. pose proof (new_id_fresh (depenses d)). congruence.
  - other_key. bool_hyps. simplify_eq. by rewrite Hs in *.
  - other_key. bool_hyps. simplify_eq. by rewrite Hs in *.
  - other_key. bool_hyps. simplify_eq. by rewrite Hs in *.
  - other_key. bool_hyps. simplify_eq.
  - other_key. bool_hyps. simplify_eq.
  - other_key. bool_hyps. simplify_eq.
  - other_key. bool_hyps. simplify_eq.
Qed.

Lemma approve_answer user id d :
  (serve_depense user (Approve id) d).1 = inr tt →
  ∃ dep, depenses d !! id = Some dep
         ∧ Depense.status dep ≠ DepenseStatus.APPROUVEE
         ∧ Depense.status dep ≠ DepenseStatus.REJETEE
         ∧ default RoleEnum.OUVRIER (role user) = RoleEnum.ADMIN_GENERAL
         ∧ ∃ dep', depenses (serve_depense user (Approve id) d).2 !! id = Some dep'
                   ∧ Depense.status dep' = DepenseStatus.APPROUVEE.
Proof.
  run_depense. repeat case_match; simpl; try done; intros _; bool_hyps.
  all: eexists; repeat split; try done; eexists; split;
    [apply lookup_insert_eq | done].
Qed.

Lemma approuvee_no_approval reqs d id dep :
  depenses d !! id = Some dep →
  Depense.status dep = DepenseStatus.APPROUVEE →
  approvals id reqs (serve_depenses reqs d).1 = 0%nat.
Proof.
  revert d. induction reqs as [|[user req] reqs IH]; intros d Hd Hs; simpl; [done|].
  pose proof (approuvee_sticky user req d id dep Hd Hs) as Hd'.
  destruct (serve_depense user req d) as [r d'] eqn:Hserve.
  specialize (IH d' Hd' Hs).
  destruct (serve_depenses reqs d') as [rs d'']. simpl in *.
  destruct req as [| | |id'| |], r as [e|[]]; try done.
  case_bool_decide as Hid; [|done]. subst id'.
  pose proof (approve_answer user id d) as Ha. rewrite Hserve in Ha.
  destruct Ha as (dep0 & Hd0 & Hne & _); [done|]. simplify_eq.
Qed.

Lemma approvals_at_most_once reqs d id :
  (approvals id reqs (serve_depenses reqs d).1 ≤ 1)%nat.
Proof.
  revert d. induction reqs as [|[user req] reqs IH]; intros d; simpl; [lia|].
  destruct (serve_depense user req d) as [r d'] eqn:Hserve.
  pose proof (IH d') as IHd'.
  pose proof (approuvee_no_approval reqs d' id) as Hzero.
  destruct (serve_depenses reqs d') as [rs d'']. simpl in *.
  destruct req as [| | |id'| |], r as [e|[]]; try done.
  case_bool_decide as Hid; [|done]. subst id'.
  pose proof (approve_answer user id d) as Ha. rewrite Hserve in Ha.
  destruct Ha as (_ & _ & _ & _ & _ & dep' & Hd' & Hs'); [done|].
  simpl in *. rewrite (Hzero dep' Hd' Hs'). lia.
Qed.

(** A request either leaves the sites alone or is the approval of an
    expense that was not approved yet, which adds its amount to the
    budget consumed by the owning site. *)
Lemma chantiers_change user req d :
  chantiers (serve_depense user req d).2 = chantiers d
  ∨ ∃ id dep ch,
      req = Approve id
      ∧ (serve_depense user req d).1 = inr tt
      ∧ depenses d !! id = Some dep
      ∧ Depense.status dep ≠ DepenseStatus.APPROUVEE
      ∧ chantiers d !! Depense.chantier_id dep = Some ch
      ∧ chantiers (serve_depense user req d).2
        = <[Depense.chantier_id dep :=
              with_budget_consomme ch
                (Some (default 0 (Chantier.budget_consomme ch)
                       + Depense.montant dep))]> (chantiers d).
Proof.
  destruct req as [data draws|id' data|id'|id'|id'|id'];
    run_depense; repeat case_match; simpl in *; auto; try done.
  right. bool_hyps. eauto 10.
Qed.

(** C1: a further approve call on an expense in state [approuvee] is
    rejected (as HTTP 400, the invalid-state answer, once the caller has
    passed the admin gate) and leaves the database, hence the site's
    [budget_consomme], unchanged; so is a reject call; approving an
    expense that is neither approved nor rejected moves it to
    [approuvee] and adds its [montant] to the [budget_consomme] of the
    owning site, and to no other; no other request to the expense
    endpoints changes any [budget_consomme]; and in any sequence of
    requests an expense is approved at most once. *)
Theorem budget_counted_once_at_approval :
  (∀ user id d dep,
     depenses d !! id = Some dep →
     Depense.status dep = "approuvee" →
     (∃ e, get_db (approve_depense id user) d = (inl e, d))
     ∧ (role user = Some "admin_general" →
        get_db (approve_depense id user) d = (inl (HTTPException 400), d))
     ∧ (∃ e, get_db (reject_depense id user) d = (inl e, d))
     ∧ (role user = Some "admin_general" →
        get_db (reject_depense id user) d = (inl (HTTPException 400), d)))
  ∧ (∀ user id d dep ch,
       role user = Some "admin_general" →
       depenses d !! id = Some dep →
       Depense.status dep ≠ "approuvee" →
       Depense.status dep ≠ "rejetee" →
       chantiers d !! Depense.chantier_id dep = Some ch →
       ∃ d' dep',
         get_db (approve_depense id user) d
         = (inr (Depense.montant dep, "approuvee"), d')
         ∧ depenses d' !! id = Some dep'
         ∧ Depense.status dep' = "approuvee"
         ∧ budget_consomme_of d' (Depense.chantier_id dep)
           = Some (default 0 (Chantier.budget_consomme ch) + Depense.montant dep)
         ∧ ∀ c, c ≠ Depense.chantier_id dep → chantiers d' !! c = chantiers d !! c)
  ∧ (∀ user req d c,
       budget_consomme_of (serve_depense user req d).2 c ≠ budget_consomme_of d c →
       ∃ id dep,
         req = Approve id
         ∧ (serve_depense user req d).1 = inr tt
         ∧ depenses d !! id = Some dep
         ∧ Depense.status dep ≠ "approuvee"
         ∧ Depense.chantier_id dep = c
         ∧ budget_consomme_of (serve_depense user req d).2 c
           = Some (default 0 (budget_consomme_of d c) + Depense.montant dep))
  ∧ (∀ reqs d id, (approvals id reqs (serve_depenses reqs d).1 ≤ 1)%nat).
Proof.
  split; [|split; [|split]].
  - intros user id d dep Hd Hs.
    rewrite approve_depense_run, reject_depense_run, Hd.
    change DepenseStatus.APPROUVEE with "approuvee".
    rewrite !(bool_decide_eq_true_2 (Depense.status dep = "approuvee")) by done.
    repeat split; try (by intros ->); case_bool_decide; eauto.
  - intros user id d dep ch Hu Hd Hs Hr Hch.
    rewrite approve_depense_run, Hd, Hu, Hch. simpl.
    rewrite !bool_decide_eq_false_2 by done.
    eexists _, _. split; [done|]. unfold budget_consomme_of. simpl.
    rewrite !lookup_insert_eq. repeat split; try done.
    intros c Hc. by rewrite lookup_insert_ne.
  - intros user req d c Hc.
    destruct (chantiers_change user req d)
      as [Heq|(id & dep & ch & -> & Hr & Hd & Hs & Hch & Heq)].
    { unfold budget_consomme_of in Hc. by rewrite Heq in Hc. }
    unfold budget_consomme_of in *. rewrite Heq in *.
    destruct (decide (Depense.chantier_id dep = c)) as [<-|Hne].
    + exists id, dep. rewrite lookup_insert_eq, Hch. done.
    + by rewrite lookup_insert_ne in Hc.
  - apply approvals_at_most_once.
Qed.

Lemma budget_counted_once_at_approval_witness :
  depenses (sample_db "approuvee") !! 1 = Some (sample_depense "approuvee")
  ∧ Depense.status (sample_depense "approuvee") = "approuvee"
  ∧ role sample_admin = Some "admin_general"
  ∧ get_db (approve_depense 1 sample_admin) (sample_db "approuvee")
    = (inl (HTTPException 400), sample_db "approuvee")
  ∧ get_db (reject_depense 1 sample_admin) (sample_db "approuvee")
    = (inl (HTTPException 400), sample_db "approuvee").
Proof.
  split; [reflexivity|]. split; [reflexivity|]. split; [reflexivity|].
  pose proof (proj1 budget_counted_once_at_approval sample_admin 1
                (sample_db "approuvee") (sample_depense "approuvee")
                eq_refl eq_refl) as (_ & Happrove & _ & Hreject).
  split; [apply Happrove | apply Hreject]; reflexivity.
Defined.

(** What the handler of C7 does once the permission gate is passed. *)
Lemma create_depense_en_attente data draws user d id dep d' :
  get_db (create_depense data draws user) d = (inr (id, dep), d') →
  Depense.status dep = "en_attente"
  ∧ depenses d !! id = None
  ∧ depenses d' = <[id := dep]> (depenses d).
Proof.
  rewrite create_depense_run. repeat case_match; try done.
  intros [= <- <- <-]. simpl. split; [done|]. split; [apply new_id_fresh | done].
Qed.

Lemma create_depense_not_found data draws user d :
  has_permission (default "ouvrier" (role user)) "create_depense" = true →
  chantiers d !! DepenseCreate.chantier_id data = None →
  get_db (create_depense data draws user) d = (inl (HTTPException 404), d).
Proof. intros Hp Hc. rewrite create_depense_run. literals. by rewrite Hp, Hc. Qed.

Lemma select_where_nil {A} (P : Z * A → Prop) `{!∀ r, Decision (P r)}
    (tbl : gmap Z A) :
  (∀ i x, tbl !! i = Some x → ¬ P (i, x)) → select_where P tbl = [].
Proof.
  intros HP. unfold select_where. apply map_to_list_empty_iff, map_empty.
  intros i. apply map_lookup_filter_None. right. intros x Hx. by apply HP.
Qed.

(** With an unused first draw the handler answers, and the new expense
    is pending. *)
Lemma create_depense_succeeds data reference draws user d :
  has_permission (default "ouvrier" (role user)) "create_depense" = true →
  is_Some (chantiers d !! DepenseCreate.chantier_id data) →
  default "ouvrier" (role user) ≠ "chef_chantier" →
  (∀ i dep, depenses d !! i = Some dep → Depense.reference dep ≠ reference) →
  ∃ id dep d',
    get_db (create_depense data (reference :: draws) user) d = (inr (id, dep), d')
    ∧ Depense.status dep = "en_attente"
    ∧ d' = set_depenses <[id := dep]> d.
Proof.
  intros Hp [ch Hch] Hrole Hfree. rewrite create_depense_run. literals.
  rewrite Hp, Hch.
  rewrite (bool_decide_eq_false_2 (_ = "chef_chantier")) by done.
  simpl. exec. rewrite select_where_nil by (intros i x; apply Hfree). simpl.
  by eexists _, _, _.
Qed.

(** C7 at a failing input: a [chef_chantier] assigned to site 5, which
    exists, asks to create an expense for site 5.  The endpoint's
    docstring grants this, and its body has a branch checking the
    caller's sites, but the static table gives the role no
    ["create_depense"] permission, so the dependency guard answers
    HTTP 403 before the body runs and nothing is stored. *)
Theorem create_depense_chef_chantier_own_site :
  role sample_chef = Some "chef_chantier"
  ∧ 5 ∈ chantiers_assignes sample_chef
  ∧ is_Some (chantiers (sample_db "en_attente") !! 5)
  ∧ has_permission "chef_chantier" "create_depense" = false
  ∧ get_db (create_depense sample_create ["DEP-202411-2000"] sample_chef)
      (sample_db "en_attente")
    = (inl (HTTPException 403), sample_db "en_attente").
Proof.
  split; [done|]. split; [set_solver|]. split; [by eexists|].
  split; [done|]. by rewrite create_depense_run.
Qed.

(** The guard rejects every [chef_chantier] request, whatever the site. *)
Lemma create_depense_chef_chantier_forbidden data draws user d :
  role user = Some "chef_chantier" →
  get_db (create_depense data draws user) d = (inl (HTTPException 403), d).
Proof. intros Hr. rewrite create_depense_run, Hr. done. Qed.

(** ** Stepping through a handler

    [wp h s Q]: whatever [h] answers from session [s], the answer and
    the session it leaves satisfy [Q]. *)

Definition wp {A} (h : M A) (s : session) (Q : failure + A → session → Prop) : Prop :=
  Q (h s).1 (h s).2.

Lemma wp_bind {A B} (m : M A) (k : A → M B) s Q :
  wp m s (λ r s', match r with
                  | inl e => Q (inl e) s'
                  | inr a => wp (k a) s' Q
                  end) →
  wp (bind m k) s Q.
Proof. unfold wp, bind. by destruct (m s) as [[e|a] s']. Qed.

Lemma wp_ret {A} (a : A) s Q : Q (inr a) s → wp (ret a) s Q.
Proof. done. Qed.

Lemma wp_raise {A} e s (Q : failure + A → session → Prop) :
  Q (inl e) s → wp (raise e) s Q.
Proof. done. Qed.

Lemma wp_query {A} (f : db → A) s Q : Q (inr (f (working s))) s → wp (query f) s Q.
Proof. done. Qed.

Lemma wp_update f s Q :
  Q (inr tt) {| committed := committed s; working := f (working s) |} →
  wp (update f) s Q.
Proof. done. Qed.

Lemma wp_commit s Q :
  Q (inr tt) {| committed := working s; working := working s |} → wp commit s Q.
Proof. done. Qed.

Lemma wp_scalar_one_or_none {A} (rows : list A) s Q :
  match rows with
  | [] => Q (inr None) s
  | [row] => Q (inr (Some row)) s
  | _ => Q (inl Uncaught) s
  end →
  wp (scalar_one_or_none rows) s Q.
Proof. unfold wp. by destruct rows as [|? [|? ?]]. Qed.

Lemma wp_require_admin user s Q :
  (default RoleEnum.OUVRIER (role user) = RoleEnum.ADMIN_GENERAL → Q (inr user) s) →
  (default RoleEnum.OUVRIER (role user) ≠ RoleEnum.ADMIN_GENERAL →
   Q (inl (HTTPException 403)) s) →
  wp (require_admin user) s Q.
Proof. unfold wp. rewrite require_admin_run. case_bool_decide; auto. Qed.

Lemma wp_require_permission permission user s Q :
  (has_permission (default RoleEnum.OUVRIER (role user)) permission = true →
   Q (inr user) s) →
  (has_permission (default RoleEnum.OUVRIER (role user)) permission = false →
   Q (inl (HTTPException 403)) s) →
  wp (require_permission permission user) s Q.
Proof.
  unfold wp. rewrite require_permission_run. destruct (has_permission _ _); auto.
Qed.

(** [get_db] around a handler: an error leaves the last commit, a
    response the working copy. *)
Lemma wp_get_db {A} (h : M A) d (P : failure + A → db → Prop) :
  wp h {| committed := d; working := d |}
    (λ r s, match r with
            | inl e => P (inl e) (committed s)
            | inr a => P (inr a) (working s)
            end) →
  ∀ r d', get_db h d = (r, d') → P r d'.
Proof.
  unfold wp, get_db. destruct (h _) as [[e|a] s]; by intros ? ? ? [= <- <-].
Qed.

Lemma wp_orm_init {A} columns kwargs (row : A) s Q :
  (forallb (λ k, py_in k columns) kwargs = true → Q (inr row) s) →
  (forallb (λ k, py_in k columns) kwargs = false → Q (inl Uncaught) s) →
  wp (orm_init columns kwargs row) s Q.
Proof. unfold wp, orm_init. destruct (forallb _ _); auto. Qed.

Lemma wp_getattr_undeclared {A} columns name undeclared s
    (Q : failure + A → session → Prop) :
  Q (inl Uncaught) s → wp (getattr_undeclared columns name undeclared) s Q.
Proof. done. Qed.

Ltac wp_start :=
  lazymatch goal with
  | |- ∀ r d', get_db ?h ?d = (r, d') → @?P r d' => apply (wp_get_db h d P)
  end.

Ltac wp_step :=
  lazymatch goal with
  | |- wp (bind _ _) _ _ => apply wp_bind
  | |- wp (ret _) _ _ => apply wp_ret
  | |- wp (raise _) _ _ => apply wp_raise
  | |- wp (query _) _ _ => apply wp_query
  | |- wp (update _) _ _ => apply wp_update
  | |- wp commit _ _ => apply wp_commit
  | |- wp (scalar_one_or_none ?rows) _ _ =>
      apply wp_scalar_one_or_none; destruct rows as [|? [|? ?]] eqn:?
  | |- wp (require_admin _) _ _ => apply wp_require_admin; intros ?
  | |- wp (orm_init _ _ _) _ _ =>
      let H := fresh in
      apply wp_orm_init; intros H; try (vm_compute in H; discriminate H)
  | |- wp (getattr_undeclared _ _ _) _ _ => apply wp_getattr_undeclared
  | |- wp (require_permission _ _) _ _ => apply wp_require_permission; intros ?
  | |- wp (if ?b then _ else _) _ _ => destruct b eqn:?
  | |- wp (match ?x with _ => _ end) _ _ => destruct x eqn:?
  | |- wp (let _ := _ in _) _ _ => cbv zeta
  end; cbn beta iota.

Ltac wp_run := repeat (wp_step; simpl).

(** ** Queries *)

Lemma elem_of_select_where {A} (P : Z * A → Prop) `{!∀ r, Decision (P r)}
    (tbl : gmap Z A) i x :
  (i, x) ∈ select_where P tbl ↔ tbl !! i = Some x ∧ P (i, x).
Proof.
  unfold select_where. by rewrite elem_of_map_to_list, map_lookup_filter_Some.
Qed.

Lemma select_where_nil_inv {A} (P : Z * A → Prop) `{!∀ r, Decision (P r)}
    (tbl : gmap Z A) i x :
  select_where P tbl = [] → tbl !! i = Some x → ¬ P (i, x).
Proof.
  intros Hnil Hx HP.
  assert (Hin : (i, x) ∈ select_where P tbl) by by apply elem_of_select_where.
  rewrite Hnil in Hin. by apply elem_of_nil in Hin.
Qed.

(** ** Users and the top role *)

Lemma register_inv data current_user d :
  ∀ r d', get_db (register data current_user) d = (r, d') →
  (∃ e, r = inl e ∧ d' = d)
  ∨ ∃ id user,
      r = inr (id, user)
      ∧ users d !! id = None
      ∧ d' = set_users <[id := user]> d
      ∧ User.role user = UserCreate.role data
      ∧ (UserCreate.role data = RoleEnum.ADMIN_GENERAL → admins_general d = []).
Proof.
  wp_start. unfold register. wp_run; eauto.
  all: right; eexists _, _; split; [done|]; split; [apply new_id_fresh|];
    split; [done|]; split; [done|]; bool_hyps; try done.
Qed.

Lemma setup_first_admin_inv data d :
  ∀ r d', get_db (setup_first_admin data) d = (r, d') →
  (∃ e, r = inl e ∧ d' = d)
  ∨ ∃ id user,
      r = inr (id, user)
      ∧ users d !! id = None
      ∧ d' = set_users <[id := user]> d
      ∧ admins_general d = [].
Proof.
  wp_start. unfold setup_first_admin. wp_run; eauto.
  right. eexists _, _. split; [done|]. split; [apply new_id_fresh|]. done.
Qed.

Lemma update_user_role_inv user_id role chantier_id current_user d :
  ∀ r d', get_db (update_user_role user_id role chantier_id current_user) d = (r, d') →
  (∃ e, r = inl e ∧ d' = d)
  ∨ ∃ user,
      r = inr role
      ∧ users d !! user_id = Some user
      ∧ d' = set_users <[user_id := with_role user role chantier_id]> d
      ∧ User.role user ≠ RoleEnum.ADMIN_GENERAL
      ∧ role ≠ RoleEnum.ADMIN_GENERAL.
Proof.
  wp_start. unfold update_user_role. wp_run; eauto.
  right. unfold select_by_id in *. repeat case_match; simplify_eq.
  bool_hyps. eauto 10.
Qed.

Lemma deactivate_user_inv user_id current_user d :
  ∀ r d', get_db (deactivate_user user_id current_user) d = (r, d') →
  (∃ e, r = inl e ∧ d' = d)
  ∨ ∃ user,
      users d !! user_id = Some user
      ∧ User.role user ≠ RoleEnum.ADMIN_GENERAL
      ∧ d' = set_users <[user_id := with_is_active user false]> d.
Proof.
  wp_start. unfold deactivate_user. wp_run; eauto.
  right. unfold select_by_id in *. repeat case_match; simplify_eq.
  bool_hyps. eauto.
Qed.

Lemma activate_user_inv user_id current_user d :
  ∀ r d', get_db (activate_user user_id current_user) d = (r, d') →
  (∃ e, r = inl e ∧ d' = d)
  ∨ ∃ user,
      users d !! user_id = Some user
      ∧ d' = set_users <[user_id := with_is_active user true]> d.
Proof.
  wp_start. unfold activate_user. wp_run; eauto.
  right. unfold select_by_id in *. repeat case_match; simplify_eq. eauto.
Qed.

Lemma admins_general_nil d i u :
  admins_general d = [] → users d !! i = Some u →
  User.role u ≠ RoleEnum.ADMIN_GENERAL.
Proof.
  intros Hnil Hi. by apply (select_where_nil_inv _ _ i u Hnil).
Qed.

(** Rewriting a row without giving it the top role keeps the invariant. *)
Lemma at_most_one_insert_other d i user :
  at_most_one_admin_general d →
  User.role user ≠ RoleEnum.ADMIN_GENERAL →
  at_most_one_admin_general (set_users <[i := user]> d).
Proof.
  intros Hinv Hrole j k u v. simpl.
  rewrite !lookup_insert_Some.
  intros [[? ?]|[? Hj]] [[? ?]|[? Hk]] Hu Hv; subst; try done.
  by apply (Hinv j k u v).
Qed.

(** So does rewriting a row without touching its role. *)
Lemma at_most_one_insert_same_role d i old user :
  at_most_one_admin_general d →
  users d !! i = Some old → User.role user = User.role old →
  at_most_one_admin_general (set_users <[i := user]> d).
Proof.
  intros Hinv Hold Hrole j k u v. simpl.
  rewrite !lookup_insert_Some.
  intros [[? ?]|[? Hj]] [[? ?]|[? Hk]] Hu Hv; subst; try done.
  - apply (Hinv j k old v); congruence.
  - apply (Hinv j k u old); congruence.
  - by apply (Hinv j k u v).
Qed.

(** And a first holder of the top role may be added. *)
Lemma at_most_one_insert_first d i user :
  admins_general d = [] →
  at_most_one_admin_general (set_users <[i := user]> d).
Proof.
  intros Hnil j k u v. simpl.
  rewrite !lookup_insert_Some.
  intros [[? ?]|[? Hj]] [[? ?]|[? Hk]] Hu Hv; subst; try done.
  - by apply (admins_general_nil d k v) in Hv.
  - by apply (admins_general_nil d j u) in Hu.
  - by apply (admins_general_nil d k v) in Hv.
Qed.

Lemma serve_auth_invariant current_user req d :
  at_most_one_admin_general d →
  at_most_one_admin_general (serve_auth current_user req d).2.
Proof.
  intros Hinv. destruct req as [data|data|uid role chantier|uid|uid];
    unfold serve_auth, void; simpl.
  - destruct (get_db (register data current_user) d) as [r d'] eqn:Hrun.
    apply register_inv in Hrun
      as [(e & -> & ->)|(id & user & -> & _ & -> & Hrole & Hfirst)]; [done|].
    simpl. destruct (decide (User.role user = RoleEnum.ADMIN_GENERAL)) as [Hadm|Hadm].
    + apply at_most_one_insert_first, Hfirst. congruence.
    + by apply at_most_one_insert_other.
  - destruct (get_db (setup_first_admin data) d) as [r d'] eqn:Hrun.
    apply setup_first_admin_inv in Hrun
      as [(e & -> & ->)|(id & user & -> & _ & -> & Hfirst)]; [done|].
    by apply at_most_one_insert_first.
  - destruct (get_db (update_user_role _ _ _ _) d) as [r d'] eqn:Hrun.
    apply update_user_role_inv in Hrun
      as [(e & -> & ->)|(user & -> & _ & -> & _ & Hrole)]; [done|].
    by apply at_most_one_insert_other.
  - destruct (get_db (deactivate_user _ _) d) as [r d'] eqn:Hrun.
    apply deactivate_user_inv in Hrun as [(e & -> & ->)|(user & Hu & _ & ->)]; [done|].
    by apply (at_most_one_insert_same_role d uid user).
  - destruct (get_db (activate_user _ _) d) as [r d'] eqn:Hrun.
    apply activate_user_inv in Hrun as [(e & -> & ->)|(user & Hu & ->)]; [done|].
    by apply (at_most_one_insert_same_role d uid user).
Qed.

Lemma register_admin_general_rejected data current_user d i u :
  UserCreate.role data = RoleEnum.ADMIN_GENERAL →
  users d !! i = Some u → User.role u = RoleEnum.ADMIN_GENERAL →
  ∃ e, get_db (register data current_user) d = (inl e, d).
Proof.
  intros Hrole Hi Hu.
  destruct (get_db (register data current_user) d) as [r d'] eqn:Hrun.
  apply register_inv in Hrun
    as [(e & -> & ->)|(id & user & _ & _ & _ & _ & Hfirst)]; [by exists e|].
  by pose proof (admins_general_nil d i u (Hfirst Hrole) Hi).
Qed.

Lemma setup_first_admin_rejected data d i u :
  users d !! i = Some u → User.role u = RoleEnum.ADMIN_GENERAL →
  ∃ e, get_db (setup_first_admin data) d = (inl e, d).
Proof.
  intros Hi Hu.
  destruct (get_db (setup_first_admin data) d) as [r d'] eqn:Hrun.
  apply setup_first_admin_inv in Hrun
    as [(e & -> & ->)|(id & user & _ & _ & _ & Hfirst)]; [by exists e|].
  by pose proof (admins_general_nil d i u Hfirst Hi).
Qed.

Lemma update_user_role_rejected user_id role chantier_id current_user d :
  role = RoleEnum.ADMIN_GENERAL
  ∨ (∃ u, users d !! user_id = Some u ∧ User.role u = RoleEnum.ADMIN_GENERAL) →
  ∃ e, get_db (update_user_role user_id role chantier_id current_user) d = (inl e, d).
Proof.
  intros Hcase.
  destruct (get_db (update_user_role _ _ _ _) d) as [r d'] eqn:Hrun.
  apply update_user_role_inv in Hrun
    as [(e & -> & ->)|(user & _ & Hu & _ & Hold & Hnew)]; [by exists e|].
  destruct Hcase as [?|(u & ? & ?)]; [done|]. by simplify_eq.
Qed.

(** With the invariant, the query for the top role returns its one holder. *)
Lemma admins_general_one d i u :
  at_most_one_admin_general d →
  users d !! i = Some u → User.role u = RoleEnum.ADMIN_GENERAL →
  admins_general d = [(i, u)].
Proof.
  intros Hinv Hi Hu. unfold admins_general.
  assert (Hall : ∀ r, r ∈ select_where
                    (λ r : Z * User.t, User.role r.2 = RoleEnum.ADMIN_GENERAL)
                    (users d) ↔ r = (i, u)).
  { intros [j v]. rewrite elem_of_select_where. simpl. split.
    - intros [Hj Hv]. assert (j = i) as -> by by apply (Hinv j i v u).
      by simplify_eq.
    - by intros [= -> ->]. }
  assert (Hnd : NoDup (select_where
                    (λ r : Z * User.t, User.role r.2 = RoleEnum.ADMIN_GENERAL)
                    (users d))) by apply NoDup_map_to_list.
  destruct (select_where _ _) as [|a [|b l]].
  - exfalso. apply (not_elem_of_nil (i, u)). by apply Hall.
  - f_equal. apply Hall. left.
  - exfalso. apply NoDup_cons in Hnd as [Hab _]. apply Hab.
    assert (a = (i, u)) as -> by (apply Hall; left).
    assert (b = (i, u)) as -> by (apply Hall; right; left). left.
Qed.

Lemma register_admin_general_403 data current_user d i u :
  role current_user = Some RoleEnum.ADMIN_GENERAL →
  UserCreate.role data = RoleEnum.ADMIN_GENERAL →
  at_most_one_admin_general d →
  users d !! i = Some u → User.role u = RoleEnum.ADMIN_GENERAL →
  get_db (register data current_user) d = (inl (HTTPException 403), d).
Proof.
  intros Hcaller Hrole Hinv Hi Hu.
  pose proof (admins_general_one d i u Hinv Hi Hu) as Hone.
  unfold admins_general in Hone.
  unfold register, get_db, bind at 1. rewrite require_admin_run, Hcaller. simpl.
  unfold get_role. rewrite Hcaller. simpl. exec.
  rewrite Hrole. simpl. rewrite Hone. simpl. done.
Qed.

Lemma setup_first_admin_403 data d i u :
  at_most_one_admin_general d →
  users d !! i = Some u → User.role u = RoleEnum.ADMIN_GENERAL →
  get_db (setup_first_admin data) d = (inl (HTTPException 403), d).
Proof.
  intros Hinv Hi Hu.
  pose proof (admins_general_one d i u Hinv Hi Hu) as Hone.
  unfold admins_general in Hone.
  unfold setup_first_admin. exec. rewrite Hone. simpl. done.
Qed.

Lemma serve_auths_invariant reqs d :
  at_most_one_admin_general d →
  at_most_one_admin_general (serve_auths reqs d).2.
Proof.
  revert d. induction reqs as [|[current_user req] reqs IH]; intros d Hinv; [done|].
  simpl. pose proof (serve_auth_invariant current_user req d Hinv) as Hstep.
  destruct (serve_auth current_user req d) as [r d'].
  specialize (IH d' Hstep). by destruct (serve_auths reqs d') as [rs d''].
Qed.

(** C8: with one [admin_general] in the users table, registering
    another and the first-admin route are both rejected (with HTTP 403
    when the table holds at most one); the role-change operation never
    promotes to [admin_general] and never alters the role of an
    [admin_general]; each rejection leaves the database unchanged; and
    every request to the users endpoints, hence every sequence of them
    from an empty table, preserves that at most one user is
    [admin_general]. *)
Theorem single_admin_general :
  (∀ data current_user d i u,
     UserCreate.role data = "admin_general" →
     users d !! i = Some u → User.role u = "admin_general" →
     (∃ e, get_db (register data current_user) d = (inl e, d))
     ∧ (role current_user = Some "admin_general" → at_most_one_admin_general d →
        get_db (register data current_user) d = (inl (HTTPException 403), d)))
  ∧ (∀ data d i u,
       users d !! i = Some u → User.role u = "admin_general" →
       (∃ e, get_db (setup_first_admin data) d = (inl e, d))
       ∧ (at_most_one_admin_general d →
          get_db (setup_first_admin data) d = (inl (HTTPException 403), d)))
  ∧ (∀ user_id chantier_id current_user d,
       ∃ e, get_db (update_user_role user_id "admin_general" chantier_id current_user) d
            = (inl e, d))
  ∧ (∀ user_id new_role chantier_id current_user d u,
       users d !! user_id = Some u → User.role u = "admin_general" →
       ∃ e, get_db (update_user_role user_id new_role chantier_id current_user) d
            = (inl e, d))
  ∧ (∀ current_user req d,
       at_most_one_admin_general d →
       at_most_one_admin_general (serve_auth current_user req d).2)
  ∧ (∀ reqs d,
       users d = ∅ → at_most_one_admin_general (serve_auths reqs d).2).
Proof.
  repeat split.
  - by eapply register_admin_general_rejected.
  - intros. by eapply register_admin_general_403.
  - by eapply setup_first_admin_rejected.
  - intros. by eapply setup_first_admin_403.
  - intros. apply update_user_role_rejected. by left.
  - intros. apply update_user_role_rejected. right. eauto.
  - apply serve_auth_invariant.
  - intros reqs d Hempty. apply serve_auths_invariant.
    intros i j u v Hi. by rewrite Hempty, lookup_empty in Hi.
Qed.

Lemma single_admin_general_witness :
  UserCreate.role (sample_user_create "admin_general") = "admin_general"
  ∧ users sample_users_db !! 1 = Some (sample_user "admin_general")
  ∧ User.role (sample_user "admin_general") = "admin_general"
  ∧ ∃ e, get_db (register (sample_user_create "admin_general") sample_admin)
           sample_users_db
         = (inl e, sample_users_db).
Proof.
  split; [reflexivity|]. split; [reflexivity|]. split; [reflexivity|].
  apply (proj1 single_admin_general (sample_user_create "admin_general")
           sample_admin sample_users_db 1 (sample_user "admin_general")
           eq_refl eq_refl eq_refl).
Defined.

(** ** Stock transfers *)

Lemma select_where_unique {A} (P : Z * A → Prop) `{!∀ r, Decision (P r)}
    (tbl : gmap Z A) k x :
  tbl !! k = Some x → P (k, x) →
  (∀ j y, tbl !! j = Some y → P (j, y) → j = k) →
  select_where P tbl = [(k, x)].
Proof.
  intros Hk HP Huniq. unfold select_where.
  rewrite <- map_to_list_singleton. f_equal.
  apply map_eq. intros j. apply option_eq. intros y.
  rewrite map_lookup_filter_Some, lookup_singleton_Some. split.
  - intros [Hj HPj]. assert (j = k) as -> by by eapply Huniq. by simplify_eq.
  - by intros [<- <-].
Qed.

Section transfer.
Context (data : TransfertRequest.t) (user : user_dict) (d : db).
Context (materiel_source : Materiel.t).

#[local] Abbreviation q := (TransfertRequest.quantite data).
#[local] Abbreviation source := (TransfertRequest.chantier_source_id data).
#[local] Abbreviation destination := (TransfertRequest.chantier_destination_id data).
#[local] Abbreviation source_id := (TransfertRequest.materiel_id data).

Hypothesis Hpermission :
  has_permission (default RoleEnum.OUVRIER (role user)) "transfer_stock" = true.
Hypothesis Hsource : is_Some (chantiers d !! source).
Hypothesis Hdestination : is_Some (chantiers d !! destination).
Hypothesis Hmateriel : materiels d !! source_id = Some materiel_source.
Hypothesis Hat_source : Materiel.chantier_id materiel_source = source.

(** Runs the handler up to the stock check. *)
Ltac to_stock_check :=
  let cs := fresh "cs" in let cd := fresh "cd" in
  let Hcs := fresh "Hcs" in let Hcd := fresh "Hcd" in
  destruct Hsource as [cs Hcs], Hdestination as [cd Hcd];
  unfold transferer_materiel, get_db, bind at 1;
  rewrite require_permission_run, Hpermission;
  exec; rewrite Hcs; simpl; rewrite Hcd; simpl;
  rewrite (select_where_unique _ _ source_id materiel_source);
    [|done|done|by intros ? ? ? [? ?]];
  simpl.

Lemma transfer_insufficient :
  or_zero (Materiel.quantite materiel_source) < q →
  get_db (transferer_materiel data user) d = (inl (HTTPException 400), d).
Proof.
  intros Hq. to_stock_check. by rewrite bool_decide_eq_true_2.
Qed.

Context (bA : Z).
Hypothesis Hbalance : Materiel.quantite materiel_source = Some bA.
Hypothesis Hsufficient : q ≤ bA.
Hypothesis Hsites : source ≠ destination.

Lemma or_zero_Some x : or_zero (Some x) = x.
Proof. unfold or_zero. by case_bool_decide. Qed.

Lemma transfer_existing dest_id materiel_dest :
  materiels d !! dest_id = Some materiel_dest →
  Materiel.nom materiel_dest = Materiel.nom materiel_source →
  Materiel.chantier_id materiel_dest = destination →
  (∀ j m, materiels d !! j = Some m →
          Materiel.nom m = Materiel.nom materiel_source →
          Materiel.chantier_id m = destination → j = dest_id) →
  let bB := or_zero (Materiel.quantite materiel_dest) in
  get_db (transferer_materiel data user) d =
  (inr (Some (bA - q), Some (bB + q)),
   set_mouvements (λ l, l ++ [ledger_entree data user dest_id])
     (set_mouvements (λ l, l ++ [ledger_sortie data user])
        (set_materiels <[dest_id := with_quantite materiel_dest (Some (bB + q))]>
           (set_materiels
              <[source_id := with_quantite materiel_source (Some (bA - q))]> d)))).
Proof.
  intros Hdest Hnom Hat_dest Huniq bB.
  assert (Hne : source_id ≠ dest_id).
  { intros Heq. rewrite <- Heq in Hdest. simplify_eq. congruence. }
  to_stock_check. rewrite Hbalance, or_zero_Some.
  rewrite bool_decide_eq_false_2 by lia. simpl.
  rewrite (select_where_unique _ _ dest_id materiel_dest).
  - simpl. rewrite lookup_insert_ne by lia.
    by rewrite !lookup_insert_eq.
  - by rewrite lookup_insert_ne.
  - done.
  - intros j m. rewrite lookup_insert_Some. simpl.
    intros [[<- <-]|[_ Hj]] [Hn Hc]; [simpl in *; congruence|]. by eapply Huniq.
Qed.

(** With no material of that name at the destination the handler raises
    while it builds the new one: [Materiel] declares neither the
    [description] it reads nor the [created_by] it passes.  The
    session is rolled back, the decrease of the source included. *)
Lemma transfer_absent :
  (∀ j m, materiels d !! j = Some m →
          Materiel.nom m = Materiel.nom materiel_source →
          Materiel.chantier_id m ≠ destination) →
  get_db (transferer_materiel data user) d = (inl Uncaught, d).
Proof.
  intros Hnone.
  to_stock_check. rewrite Hbalance, or_zero_Some.
  rewrite bool_decide_eq_false_2 by lia. simpl.
  rewrite select_where_nil; [done|].
  intros j m. rewrite lookup_insert_Some. simpl.
  intros [[<- <-]|[_ Hj]] [Hn Hc]; [simpl in *; congruence|]. by eapply Hnone.
Qed.

End transfer.

(** C4: the transfer of [q] from a material with balance [bA] at one
    site to another site.  When [q > bA] the request is rejected with
    HTTP 400 and the database is left as it was.  When [q <= bA] and the
    destination holds one material of the same name, with balance [bB]
    (0 when unset), the balances become [bA - q] and [bB + q], no other
    material changes and the ledger grows by exactly one
    [transfert_sortant] entry on the source material followed by one
    [transfert_entrant] entry on the destination material.  When
    [q <= bA] and the destination holds no material of that name, none
    is created: the handler ends in an uncaught exception and the
    database is left as it was, the source balance at [bA] and the
    ledger without a new entry. *)
Theorem transfer_stock_outcomes (data : TransfertRequest.t) (user : user_dict)
    (d : db) (materiel_source : Materiel.t) (bA : Z) :
  let q := TransfertRequest.quantite data in
  let source_id := TransfertRequest.materiel_id data in
  let served := get_db (transferer_materiel data user) d in
  has_permission (default "ouvrier" (role user)) "transfer_stock" = true →
  is_Some (chantiers d !! TransfertRequest.chantier_source_id data) →
  is_Some (chantiers d !! TransfertRequest.chantier_destination_id data) →
  materiels d !! source_id = Some materiel_source →
  Materiel.chantier_id materiel_source = TransfertRequest.chantier_source_id data →
  Materiel.quantite materiel_source = Some bA →
  TransfertRequest.chantier_source_id data
  ≠ TransfertRequest.chantier_destination_id data →
  (bA < q → served = (inl (HTTPException 400), d))
  ∧ (q ≤ bA →
     ∀ dest_id materiel_dest,
       materiels d !! dest_id = Some materiel_dest →
       Materiel.nom materiel_dest = Materiel.nom materiel_source →
       Materiel.chantier_id materiel_dest
       = TransfertRequest.chantier_destination_id data →
       (∀ j m, materiels d !! j = Some m →
               Materiel.nom m = Materiel.nom materiel_source →
               Materiel.chantier_id m = TransfertRequest.chantier_destination_id data →
               j = dest_id) →
       let bB := or_zero (Materiel.quantite materiel_dest) in
       served.1 = inr (Some (bA - q), Some (bB + q))
       ∧ materiels served.2 !! source_id ≫= Materiel.quantite = Some (bA - q)
       ∧ materiels served.2 !! dest_id ≫= Materiel.quantite = Some (bB + q)
       ∧ (∀ k, k ≠ source_id → k ≠ dest_id →
               materiels served.2 !! k = materiels d !! k)
       ∧ mouvements served.2
         = mouvements d ++ [ledger_sortie data user; ledger_entree data user dest_id])
  ∧ (q ≤ bA →
     (∀ j m, materiels d !! j = Some m →
             Materiel.nom m = Materiel.nom materiel_source →
             Materiel.chantier_id m ≠ TransfertRequest.chantier_destination_id data) →
     served = (inl Uncaught, d)).
Proof.
  intros q source_id served Hp Hs Hd Hm Hat Hb Hsites. subst served.
  split; [|split].
  - intros Hq. apply (transfer_insufficient _ _ _ materiel_source); try done.
    by rewrite Hb, or_zero_Some.
  - intros Hq dest_id materiel_dest Hj Hn Hc Huniq bB.
    assert (Hne : source_id ≠ dest_id).
    { intros Heq. subst source_id. rewrite <- Heq in Hj. simplify_eq. congruence. }
    rewrite (transfer_existing _ _ _ materiel_source Hp Hs Hd Hm Hat bA Hb Hq Hsites
               dest_id materiel_dest Hj Hn Hc Huniq).
    simpl. split; [done|].
    rewrite (lookup_insert_ne _ dest_id source_id) by lia.
    rewrite !lookup_insert_eq. repeat split; try done.
    + intros k Hk1 Hk2. by rewrite !lookup_insert_ne by lia.
    + by rewrite <- app_assoc.
  - intros Hq Hnone.
    by apply (transfer_absent _ _ _ materiel_source Hp Hs Hd Hm Hat bA Hb Hq).
Qed.

(** Three bags of cement from site 1, which stocks ten, to site 2, which
    stocks no cement. *)
Lemma transfer_stock_outcomes_witness :
  materiels sample_new_site_db !! 1 = Some (sample_materiel (Some 10) 1)
  ∧ 3 ≤ 10
  ∧ get_db (transferer_materiel (sample_transfert 3 1 2) sample_admin)
      sample_new_site_db
    = (inl Uncaught, sample_new_site_db).
Proof.
  split; [reflexivity|]. split; [lia|].
  refine (proj2 (proj2 (transfer_stock_outcomes (sample_transfert 3 1 2)
                          sample_admin sample_new_site_db
                          (sample_materiel (Some 10) 1) 10
                          eq_refl (mk_is_Some _ _ eq_refl) (mk_is_Some _ _ eq_refl)
                          eq_refl eq_refl eq_refl _)) _ _).
  - discriminate.
  - simpl. lia.
  - intros j m. simpl. rewrite lookup_singleton_Some. by intros [<- <-] _.
Defined.

(** ** Documents *)

(** No upload stores a document: the handler has no path to a
    response. *)
Lemma upload_document_inv file chantier_id type_document user d :
  ∀ r d', get_db (upload_document file chantier_id type_document user) d = (r, d') →
  ∃ e, r = inl e ∧ d' = d.
Proof.
  wp_start. unfold upload_document. wp_run; eauto.
Qed.

(** An upload that passes every check reaches the constructor of
    [Document], which refuses the keyword [valide_client]. *)
Lemma upload_document_raises file chantier_id type_document user d :
  has_permission (default "ouvrier" (role user)) "upload_document" = true →
  is_Some (chantiers d !! chantier_id) →
  default "ouvrier" (role user) = "admin_general"
  ∨ (has_chantier_access user chantier_id = true
     ∧ (default "ouvrier" (role user) = "magasinier" →
        type_document ∈ ["bon_livraison"; "photo"])) →
  type_document ∈ DocumentType.all_types →
  UploadFile.ext file ∈ allowed_extensions →
  UploadFile.size file ≤ max_size →
  get_db (upload_document file chantier_id type_document user) d
  = (inl Uncaught, d).
Proof.
  intros Hp [ch Hch] Haccess Htype Hext Hsize.
  unfold upload_document, get_db, bind at 1.
  rewrite require_permission_run. literals. rewrite Hp. exec. rewrite Hch. simpl.
  assert (negb (bool_decide (default "ouvrier" (role user) = "admin_general"))
          && negb (has_chantier_access user chantier_id) = false) as ->.
  { destruct Haccess as [->|[-> _]]; [done|]. by rewrite andb_false_r. }
  assert (bool_decide (default "ouvrier" (role user) = "magasinier")
          && negb (py_in type_document
                     [DocumentType.BON_LIVRAISON; DocumentType.PHOTO]) = false) as ->.
  { destruct Haccess as [->|[_ Hmag]]; [done|].
    case_bool_decide as Hrole; [|done].
    by rewrite (proj2 (py_in_true _ _) (Hmag Hrole)). }
  rewrite (proj2 (py_in_true _ _) Htype), (proj2 (py_in_true _ _) Hext).
  by rewrite bool_decide_eq_false_2 by lia.
Qed.

(** The two validation endpoints write nothing, whatever they answer. *)
Lemma set_document_for_client_inv value document_id user d :
  ∀ r d', get_db (set_document_for_client value document_id user) d = (r, d') →
  d' = d.
Proof.
  wp_start. unfold set_document_for_client. wp_run; eauto.
Qed.

Lemma delete_document_stored document_id user d :
  ∀ r d', get_db (delete_document document_id user) d = (r, d') →
  (∃ e, r = inl e ∧ d' = d)
  ∨ (r = inr tt
     ∧ is_Some (documents d !! document_id)
     ∧ d' = set_documents (delete document_id) d).
Proof.
  wp_start. unfold delete_document. wp_run; eauto.
  right. unfold select_by_id in *. repeat case_match; simplify_eq. eauto.
Qed.

(** C10: no document is created through the upload operation.  The
    handler builds its row with [valide_client=False], a keyword that
    the [Document] class does not declare.  Whoever the caller and
    whatever the file, the request ends in an error and leaves the
    database as it was; a request that passes every check of the
    handler (permission, existing site, access to it, the types left to
    a storekeeper, known type, allowed extension, size) ends in the
    uncaught exception of the constructor.  The validate-client
    transition leaves the database as it was too: no endpoint stores a
    client-visibility flag. *)
Theorem upload_document_stores_nothing (file : UploadFile.t) (chantier_id : Z)
    (type_document : string) (user : user_dict) (d : db) :
  (∃ e, get_db (upload_document file chantier_id type_document user) d = (inl e, d))
  ∧ (has_permission (default "ouvrier" (role user)) "upload_document" = true →
     is_Some (chantiers d !! chantier_id) →
     default "ouvrier" (role user) = "admin_general"
     ∨ (has_chantier_access user chantier_id = true
        ∧ (default "ouvrier" (role user) = "magasinier" →
           type_document ∈ ["bon_livraison"; "photo"])) →
     type_document ∈ DocumentType.all_types →
     UploadFile.ext file ∈ allowed_extensions →
     UploadFile.size file ≤ max_size →
     get_db (upload_document file chantier_id type_document user) d
     = (inl Uncaught, d))
  ∧ (∀ document_id validator,
       (get_db (validate_document_for_client document_id validator) d).2 = d).
Proof.
  split; [|split].
  - destruct (get_db (upload_document _ _ _ _) d) as [r d'] eqn:Hrun.
    apply upload_document_inv in Hrun as (e & -> & ->). by exists e.
  - apply upload_document_raises.
  - intros document_id validator.
    destruct (get_db (validate_document_for_client _ _) d) as [r d'] eqn:Hrun.
    apply (set_document_for_client_inv true) in Hrun. by subst.
Qed.

(** A site manager uploads a plan of 2048 bytes to the site assigned to
    them. *)
Lemma upload_document_stores_nothing_witness :
  get_db (upload_document sample_file 5 "plan" sample_chef) (sample_db "en_attente")
  = (inl Uncaught, sample_db "en_attente").
Proof.
  refine (proj1 (proj2 (upload_document_stores_nothing sample_file 5 "plan"
                          sample_chef (sample_db "en_attente"))) _ _ _ _ _ _).
  - vm_compute. reflexivity.
  - by eexists.
  - right. split; [vm_compute; reflexivity|]. intros [=].
  - apply (bool_decide_unpack _). vm_compute. exact I.
  - apply (bool_decide_unpack _). vm_compute. exact I.
  - vm_compute. discriminate.
Defined.

(** ** Scoping and redaction *)

Lemma list_filter_elem_of {A} (f : A → bool) (l : list A) x :
  x ∈ List.filter f l ↔ x ∈ l ∧ f x = true.
Proof. rewrite !list_elem_of_In. apply filter_In. Qed.

(** C5: for a principal whose role is [client], [filter_documents]
    returns, in their order, exactly the documents whose
    [valide_client] entry is truthy; when every document carries a
    boolean flag these are the documents whose flag is [True], and no
    more of them are returned than there are documents.  The function
    looks at the role only, never at the permission table. *)
Theorem filter_documents_client (user : user_dict)
    (documents : list (gmap string pyval)) :
  role user = Some "client" →
  (∀ d, d ∈ DataFilter.filter_documents user documents
        ↔ d ∈ documents
          ∧ ∃ v, d !! "valide_client" = Some v ∧ truthy v = true)
  ∧ (Forall (λ d, ∃ b, d !! "valide_client" = Some (PBool b)) documents →
     DataFilter.filter_documents user documents
     = List.filter
         (λ d, bool_decide (d !! "valide_client" = Some (PBool true))) documents)
  ∧ DataFilter.filter_documents user documents `sublist_of` documents
  ∧ (length (DataFilter.filter_documents user documents) ≤ length documents)%nat.
Proof.
  intros Hrole. unfold DataFilter.filter_documents. rewrite Hrole. simpl.
  split; [|split; [|split]].
  - intros d. rewrite list_filter_elem_of.
    destruct (d !! "valide_client") as [v|]; simpl; naive_solver.
  - intros Hbool. induction Hbool as [|d l [b Hb] _ IH]; simpl; [done|].
    rewrite Hb, IH. simpl. destruct b; case_bool_decide; by simplify_eq.
  - induction documents as [|d l IH]; simpl; [done|].
    destruct (truthy _); by constructor.
  - apply filter_length_le.
Qed.

Lemma filter_documents_client_witness :
  role sample_client = Some "client"
  ∧ DataFilter.filter_documents sample_client sample_document_dicts
    = [ {[ "id" := PInt 1; "type" := PStr "plan"; "valide_client" := PBool true ]} ].
Proof.
  split; [reflexivity|].
  rewrite (proj1 (proj2 (filter_documents_client sample_client
                           sample_document_dicts eq_refl))).
  - vm_compute. reflexivity.
  - repeat constructor; eexists; vm_compute; reflexivity.
Defined.

(** The read endpoint never reaches its client clause: the gate asks
    for ["view_documents"], which the [client] role does not hold. *)
Lemma list_documents_client_forbidden chantier_id type_document valide_client user d :
  role user = Some "client" →
  get_db (list_documents chantier_id type_document valide_client user) d
  = (inl (HTTPException 403), d).
Proof.
  intros Hrole. unfold list_documents, get_db, bind at 1.
  rewrite require_permission_run, Hrole. done.
Qed.

Lemma filter_employes_loop {V} (acc : list (gmap string V)) employes :
  foldl (λ filtered emp, filtered ++ [DataFilter.mask_salaires emp]) acc employes
  = acc ++ (DataFilter.mask_salaires <$> employes).
Proof.
  revert acc. induction employes as [|emp employes IH]; intros acc; simpl.
  - by rewrite app_nil_r.
  - by rewrite IH, <- app_assoc.
Qed.

(** C6: for a role lacking ["view_salaires"], [filter_employes] returns
    one record per input record, in order; each returned record has no
    ["salaire"], ["salaire_journalier"] or ["info_bancaire"] key and
    agrees with its input record on every other key.  For a role
    holding the permission the input list is returned as it is. *)
Theorem filter_employes_redacts {V} (user : user_dict)
    (employes : list (gmap string V)) :
  let returned := DataFilter.filter_employes user employes in
  (has_permission (default "ouvrier" (role user)) "view_salaires" = false →
   length returned = length employes
   ∧ ∀ i emp, employes !! i = Some emp →
       ∃ emp', returned !! i = Some emp'
               ∧ emp' !! "salaire" = None
               ∧ emp' !! "salaire_journalier" = None
               ∧ emp' !! "info_bancaire" = None
               ∧ ∀ key, key ∉ ["salaire"; "salaire_journalier"; "info_bancaire"] →
                        emp' !! key = emp !! key)
  ∧ (has_permission (default "ouvrier" (role user)) "view_salaires" = true →
     returned = employes).
Proof.
  intros returned. subst returned. unfold DataFilter.filter_employes.
  literals. split; intros ->; [|done].
  rewrite filter_employes_loop. simpl. split; [by rewrite length_fmap|].
  intros i emp Hi. exists (DataFilter.mask_salaires emp).
  split; [by rewrite list_lookup_fmap, Hi|].
  unfold DataFilter.mask_salaires. repeat split.
  - rewrite !lookup_delete_ne by done. apply lookup_delete_eq.
  - rewrite lookup_delete_ne by done. apply lookup_delete_eq.
  - apply lookup_delete_eq.
  - intros key Hkey. rewrite !lookup_delete_ne; [done|..];
      intros <-; apply Hkey; set_solver.
Qed.

Lemma filter_employes_redacts_witness :
  has_permission (default "ouvrier" (role sample_chef)) "view_salaires" = false
  ∧ length (DataFilter.filter_employes sample_chef sample_employe_dicts)
    = length sample_employe_dicts.
Proof.
  split; [reflexivity|].
  apply (proj1 (filter_employes_redacts sample_chef sample_employe_dicts) eq_refl).
Defined.

(** * Further properties *)

(** ** The role hierarchy *)

Lemma get_role_level_range role : 0 ≤ get_role_level role ≤ 10.
Proof.
  unfold get_role_level, get_role_info, ROLE_INFO. simpl.
  repeat case_bool_decide; simpl; lia.
Qed.

Lemma get_role_level_unknown role :
  role ∉ RoleEnum.all_roles → get_role_level role = 0.
Proof.
  intros Hrole. unfold get_role_level, get_role_info.
  assert (Hinfo : dict_get ROLE_INFO role = None).
  { apply dict_get_None. by rewrite ROLE_INFO_keys. }
  by rewrite Hinfo.
Qed.

Lemma get_role_level_known role :
  role ∈ RoleEnum.all_roles → 0 < get_role_level role.
Proof.
  revert role. apply Forall_forall. apply (bool_decide_unpack _). by vm_compute.
Qed.

Lemma get_role_level_top role :
  get_role_level role = 10 → role = RoleEnum.ADMIN_GENERAL.
Proof.
  unfold get_role_level, get_role_info, ROLE_INFO. simpl.
  repeat case_bool_decide; simpl; by try lia.
Qed.

(** X1: [can_manage_role] is a strict order on roles: no role manages
    itself, management is asymmetric and transitive; of two distinct
    roles of the vocabulary one manages the other; a role outside the
    vocabulary manages nobody and is managed by every role of the
    vocabulary. *)
Theorem can_manage_role_strict_order :
  (∀ a, can_manage_role a a = false)
  ∧ (∀ a b, can_manage_role a b = true → can_manage_role b a = false)
  ∧ (∀ a b c, can_manage_role a b = true → can_manage_role b c = true →
              can_manage_role a c = true)
  ∧ (∀ a b, a ∈ RoleEnum.all_roles → b ∈ RoleEnum.all_roles → a ≠ b →
            can_manage_role a b = true ∨ can_manage_role b a = true)
  ∧ (∀ a b, a ∉ RoleEnum.all_roles → can_manage_role a b = false)
  ∧ (∀ a b, a ∈ RoleEnum.all_roles → b ∉ RoleEnum.all_roles →
            can_manage_role a b = true).
Proof.
  unfold can_manage_role. repeat split.
  - intros a. apply bool_decide_eq_false. lia.
  - intros a b Hab. apply bool_decide_eq_true in Hab. apply bool_decide_eq_false. lia.
  - intros a b c Hab Hbc. apply bool_decide_eq_true in Hab, Hbc.
    apply bool_decide_eq_true. lia.
  - intros a b Ha Hb.
    assert (Hall : Forall (λ a, Forall (λ b,
              a = b ∨ get_role_level a ≠ get_role_level b)
              RoleEnum.all_roles) RoleEnum.all_roles).
    { apply (bool_decide_unpack _). by vm_compute. }
    rewrite Forall_forall in Hall. specialize (Hall a Ha).
    rewrite Forall_forall in Hall. destruct (Hall b Hb) as [->|Hne]; [done|].
    intros _. rewrite !bool_decide_eq_true. lia.
  - intros a b Ha. apply bool_decide_eq_false.
    rewrite (get_role_level_unknown a Ha). pose proof (get_role_level_range b). lia.
  - intros a b Ha Hb. apply bool_decide_eq_true.
    rewrite (get_role_level_unknown b Hb). by apply get_role_level_known.
Qed.

Lemma can_manage_role_strict_order_witness :
  can_manage_role "direction" "comptable" = true
  ∧ can_manage_role "comptable" "ouvrier" = true
  ∧ can_manage_role "direction" "ouvrier" = true.
Proof.
  assert (H1 : can_manage_role "direction" "comptable" = true) by reflexivity.
  assert (H2 : can_manage_role "comptable" "ouvrier" = true) by reflexivity.
  split; [exact H1|]. split; [exact H2|].
  exact (proj1 (proj2 (proj2 can_manage_role_strict_order))
           "direction" "comptable" "ouvrier" H1 H2).
Defined.

(** X2: [can_modify_user] is [can_manage_role] plus one exception:
    [admin_general] may modify every role, itself included.  Any other
    role modifies only roles of strictly lower level, hence never
    [admin_general] and never itself. *)
Theorem can_modify_user_spec (modifier_role target_role : string) :
  (can_modify_user modifier_role target_role = true
   ↔ modifier_role = "admin_general"
     ∨ can_manage_role modifier_role target_role = true)
  ∧ (modifier_role ≠ "admin_general" →
     can_modify_user modifier_role "admin_general" = false
     ∧ can_modify_user modifier_role modifier_role = false).
Proof.
  unfold can_modify_user, can_manage_role. split.
  - case_bool_decide as Hm; [by split; [left|]|].
    split; [by right | by intros [?|?]].
  - intros Hm. rewrite bool_decide_eq_false_2 by done. cbv zeta.
    split; apply bool_decide_eq_false; [|lia].
    change (get_role_level "admin_general") with 10.
    pose proof (get_role_level_range modifier_role).
    pose proof (get_role_level_top modifier_role). intros ?.
    apply Hm. assert (get_role_level modifier_role = 10) by lia. auto.
Qed.

Lemma can_modify_user_spec_witness :
  "direction" ≠ "admin_general"
  ∧ can_modify_user "direction" "admin_general" = false
  ∧ can_modify_user "direction" "direction" = false.
Proof.
  split; [done|].
  apply (proj2 (can_modify_user_spec "direction" "ouvrier")). done.
Defined.

(** ** Permission lists *)

Lemma dict_get_elem_of {V} (d : list (string * V)) k v :
  dict_get d k = Some v → (k, v) ∈ d.
Proof.
  induction d as [|[k' v'] d IH]; simpl; [done|].
  case_bool_decide as Hk; intros Hv.
  - simplify_eq. left.
  - right. auto.
Qed.

(** X3: [has_any_permission] holds when some listed permission is
    granted and [has_all_permissions] when every one is.  Hence
    [admin_general] has all of any list but any of a list only when the
    list is not empty, and a role outside the vocabulary has any of no
    list but all of the empty list: [require_all_permissions] without
    permissions lets every principal through, and
    [require_any_permission] without permissions lets nobody through,
    [admin_general] included. *)
Theorem has_any_all_permissions (role' : string) (permissions : list string) :
  (has_any_permission role' permissions = true
   ↔ ∃ p, p ∈ permissions ∧ has_permission role' p = true)
  ∧ (has_all_permissions role' permissions = true
     ↔ ∀ p, p ∈ permissions → has_permission role' p = true)
  ∧ has_all_permissions "admin_general" permissions = true
  ∧ (has_any_permission "admin_general" permissions = true ↔ permissions ≠ [])
  ∧ (role' ∉ RoleEnum.all_roles →
     has_any_permission role' permissions = false
     ∧ (has_all_permissions role' permissions = true ↔ permissions = []))
  ∧ (∀ user s, require_all_permissions [] user s = (inr user, s))
  ∧ (∀ user s, require_any_permission [] user s = (inl (HTTPException 403), s)).
Proof.
  assert (Hany : ∀ r, has_any_permission r permissions = true
                      ↔ ∃ p, p ∈ permissions ∧ has_permission r p = true).
  { intros r. unfold has_any_permission. rewrite existsb_exists.
    split; intros (p & Hin & Hp); exists p; by rewrite ?list_elem_of_In in *. }
  assert (Hall : ∀ r, has_all_permissions r permissions = true
                      ↔ ∀ p, p ∈ permissions → has_permission r p = true).
  { intros r. unfold has_all_permissions. rewrite forallb_forall.
    split; intros H p Hin; apply H; by rewrite ?list_elem_of_In in *. }
  assert (Hunknown : role' ∉ RoleEnum.all_roles →
                     ∀ p, has_permission role' p = false).
  { intros Hrole p. apply not_true_is_false. rewrite has_permission_other.
    - rewrite role_permissions_get_unknown by done.
      intros [H|H]; by apply elem_of_nil in H.
    - intros ->. apply Hrole. by apply (bool_decide_unpack _). }
  split; [apply Hany|]. split; [apply Hall|]. split; [|split; [|split; [|done]]].
  - apply Hall. intros p _. apply has_permission_admin_general.
  - rewrite Hany. split.
    + intros (p & Hin & _) ->. by apply elem_of_nil in Hin.
    + destruct permissions as [|p l]; [done|]. intros _. exists p.
      split; [left|apply has_permission_admin_general].
  - intros Hrole. split.
    + apply not_true_is_false. rewrite Hany. intros (p & _ & Hp).
      by rewrite (Hunknown Hrole) in Hp.
    + rewrite Hall. split; [|by intros -> p Hin; apply elem_of_nil in Hin].
      destruct permissions as [|p l]; [done|]. intros Hp.
      specialize (Hp p (list_elem_of_here _ _)). by rewrite (Hunknown Hrole) in Hp.
Qed.

Lemma has_any_all_permissions_witness :
  ("stagiaire" ∉ RoleEnum.all_roles)
  ∧ has_any_permission "stagiaire" ["view_stock"; "view_depenses"] = false.
Proof.
  assert (Hrole : "stagiaire" ∉ RoleEnum.all_roles)
    by (apply (bool_decide_unpack _); by vm_compute).
  split; [exact Hrole|].
  exact (proj1 (proj1 (proj2 (proj2 (proj2 (proj2
    (has_any_all_permissions "stagiaire" ["view_stock"; "view_depenses"])))))
    Hrole)).
Defined.

(** No list of the static table but that of [admin_general] holds the
    wildcard. *)
Lemma wildcard_only_admin_general role' :
  role' ≠ RoleEnum.ADMIN_GENERAL → "all" ∉ role_permissions_get role'.
Proof.
  intros Hrole. unfold role_permissions_get.
  destruct (dict_get ROLE_PERMISSIONS role') as [perms|] eqn:Hget; simpl;
    [|apply not_elem_of_nil].
  apply dict_get_elem_of in Hget.
  assert (Hall : Forall (λ kv : string * list string,
            kv.1 = RoleEnum.ADMIN_GENERAL ∨ "all" ∉ kv.2) ROLE_PERMISSIONS).
  { apply (bool_decide_unpack _). by vm_compute. }
  rewrite Forall_forall in Hall. by destruct (Hall _ Hget).
Qed.

(** X4: every permission listed by [get_role_permissions] is granted by
    [has_permission]; for a role other than [admin_general] the list is
    complete, while [admin_general] is also granted permissions that
    appear in no list. *)
Theorem get_role_permissions_granted :
  (∀ role' p, p ∈ get_role_permissions role' → has_permission role' p = true)
  ∧ (∀ role' p, role' ≠ "admin_general" →
       has_permission role' p = true → p ∈ get_role_permissions role')
  ∧ has_permission "admin_general" "approve_depense" = true
  ∧ "approve_depense" ∉ get_role_permissions "admin_general".
Proof.
  split; [|split; [|split]].
  - intros role' p. destruct (decide (role' = RoleEnum.ADMIN_GENERAL)) as [->|Hrole].
    { intros _. apply has_permission_admin_general. }
    unfold get_role_permissions. rewrite bool_decide_eq_false_2 by done.
    intros Hin. apply has_permission_other; auto.
  - intros role' p Hrole Hp. apply has_permission_other in Hp; [|done].
    unfold get_role_permissions. rewrite bool_decide_eq_false_2 by done.
    destruct Hp as [Hp|Hall]; [done|].
    by apply wildcard_only_admin_general in Hall.
  - done.
  - apply (bool_decide_unpack _). by vm_compute.
Qed.

Lemma get_role_permissions_granted_witness :
  "comptable" ≠ "admin_general"
  ∧ has_permission "comptable" "view_salaires" = true
  ∧ "view_salaires" ∈ get_role_permissions "comptable".
Proof.
  split; [done|]. split; [reflexivity|].
  apply (proj1 (proj2 get_role_permissions_granted) "comptable" "view_salaires");
    [done | reflexivity].
Defined.

(** ** Site access *)

(** X5: the dependency [require_chantier_access] lets a principal
    through exactly when [has_chantier_access] holds, although the two
    read a missing role differently (as ["ouvrier"] and as the empty
    string); it answers HTTP 403 otherwise and leaves the session alone. *)
Theorem require_chantier_access_agrees (site_id : Z) (user : user_dict) (s : session) :
  require_chantier_access site_id user s
  = if has_chantier_access user site_id then (inr user, s)
    else (inl (HTTPException 403), s).
Proof.
  unfold require_chantier_access, has_chantier_access, global_access_roles,
    ret, raise.
  destruct (role user) as [r|]; simpl.
  - destruct (py_in r _); [done|]. by destruct (py_in site_id _).
  - by destruct (py_in site_id _).
Qed.

(** ** The row filters *)

Lemma py_in_ints_int n l : py_in_ints (Some (PInt n)) l = py_in n l.
Proof.
  unfold py_in_ints, py_in. induction l as [|m l IH]; simpl; [done|].
  rewrite IH. destruct (decide (n = m)) as [->|Hne].
  - rewrite (bool_decide_eq_true_2 (m = m)) by done. simpl. symmetry.
    apply bool_decide_eq_true_2. left.
  - rewrite (bool_decide_eq_false_2 (n = m)) by done. simpl.
    apply bool_decide_ext. rewrite elem_of_cons. naive_solver.
Qed.

Lemma list_filter_idemp {A} (f : A → bool) (l : list A) :
  List.filter f (List.filter f l) = List.filter f l.
Proof.
  induction l as [|x l IH]; simpl; [done|].
  destruct (f x) eqn:Hx; simpl; [|done]. by rewrite Hx, IH.
Qed.

Lemma list_filter_sublist {A} (f : A → bool) (l : list A) :
  List.filter f l `sublist_of` l.
Proof.
  induction l as [|x l IH]; simpl; [done|]. destruct (f x); by constructor.
Qed.

Lemma mask_salaires_idemp {V} (emp : gmap string V) :
  DataFilter.mask_salaires (DataFilter.mask_salaires emp) = DataFilter.mask_salaires emp.
Proof.
  unfold DataFilter.mask_salaires. apply map_eq. intros k.
  destruct (decide (k = "info_bancaire")) as [->|];
    [by rewrite !lookup_delete_eq|].
  destruct (decide (k = "salaire_journalier")) as [->|];
    [by rewrite !(lookup_delete_ne _ "info_bancaire"), !lookup_delete_eq|].
  destruct (decide (k = "salaire")) as [->|].
  - by rewrite !(lookup_delete_ne _ "info_bancaire"),
      !(lookup_delete_ne _ "salaire_journalier"), !lookup_delete_eq.
  - by rewrite !lookup_delete_ne.
Qed.

(** X6: for a principal whose role is not [client], [filter_chantiers]
    keeps a site row with integer id [n] exactly when
    [has_chantier_access] grants site [n]; for a [client] it keeps the
    rows whose [client_id] equals the principal's id, whatever sites are
    assigned. *)
Theorem filter_chantiers_access (user : user_dict)
    (chantiers : list (gmap string pyval)) :
  (role user ≠ Some "client" →
   ∀ c n, c !! "id" = Some (PInt n) →
     c ∈ DataFilter.filter_chantiers user chantiers
     ↔ c ∈ chantiers ∧ has_chantier_access user n = true)
  ∧ (role user = Some "client" →
     ∀ c, c ∈ DataFilter.filter_chantiers user chantiers
          ↔ c ∈ chantiers ∧ py_eq_int (c !! "client_id") (user_id user) = true).
Proof.
  unfold DataFilter.filter_chantiers, has_chantier_access, global_access_roles.
  split.
  - intros Hrole c n Hid. destruct (role user) as [r|]; simpl.
    + destruct (py_in r _); [naive_solver|].
      rewrite bool_decide_eq_false_2 by (intros ->; by apply Hrole).
      by rewrite list_filter_elem_of, Hid, py_in_ints_int.
    + by rewrite list_filter_elem_of, Hid, py_in_ints_int.
  - intros ->. simpl. intros c.
    exact (list_filter_elem_of
             (λ c, py_eq_int (c !! "client_id") (user_id user)) chantiers c).
Qed.

Lemma filter_chantiers_access_witness :
  role sample_chef ≠ Some "client"
  ∧ ({[ "id" := PInt 5; "nom" := PStr "Almadies"; "client_id" := PInt 4 ]}
       ∈ DataFilter.filter_chantiers sample_chef sample_chantier_dicts
     ↔ {[ "id" := PInt 5; "nom" := PStr "Almadies"; "client_id" := PInt 4 ]}
         ∈ sample_chantier_dicts
       ∧ has_chantier_access sample_chef 5 = true).
Proof.
  assert (Hrole : role sample_chef ≠ Some "client") by done.
  split; [exact Hrole|].
  apply (proj1 (filter_chantiers_access sample_chef sample_chantier_dicts) Hrole).
  vm_compute. reflexivity.
Defined.

(** X7: every filter of [DataFilter] is idempotent: filtering a result
    again for the same principal returns it unchanged.  The filters of
    sites, documents, tasks, expenses and attendance moreover return a
    sublist of their input: no row is invented or reordered. *)
Theorem data_filters_idempotent (user : user_dict)
    (rows : list (gmap string pyval)) :
  let idempotent (f : list (gmap string pyval) → list (gmap string pyval)) :=
    f (f rows) = f rows in
  let selects (f : list (gmap string pyval) → list (gmap string pyval)) :=
    f rows `sublist_of` rows in
  (idempotent (DataFilter.filter_chantiers user)
   ∧ idempotent (DataFilter.filter_employes user)
   ∧ idempotent (DataFilter.filter_documents user)
   ∧ idempotent (DataFilter.filter_taches user)
   ∧ idempotent (DataFilter.filter_depenses user)
   ∧ idempotent (DataFilter.filter_presences user))
  ∧ (selects (DataFilter.filter_chantiers user)
     ∧ selects (DataFilter.filter_documents user)
     ∧ selects (DataFilter.filter_taches user)
     ∧ selects (DataFilter.filter_depenses user)
     ∧ selects (DataFilter.filter_presences user)).
Proof.
  cbv zeta. repeat split.
  - unfold DataFilter.filter_chantiers.
    destruct (py_in _ _); [done|]. case_bool_decide; apply list_filter_idemp.
  - unfold DataFilter.filter_employes.
    destruct (has_permission _ _); [done|].
    rewrite !filter_employes_loop. simpl.
    rewrite <- list_fmap_compose. apply list_fmap_ext.
    intros i emp _. apply mask_salaires_idemp.
  - unfold DataFilter.filter_documents.
    repeat case_bool_decide; try done; apply list_filter_idemp.
  - unfold DataFilter.filter_taches. case_bool_decide; [apply list_filter_idemp|done].
  - unfold DataFilter.filter_depenses. by destruct (has_permission _ _).
  - unfold DataFilter.filter_presences. case_bool_decide; [apply list_filter_idemp|done].
  - unfold DataFilter.filter_chantiers.
    destruct (py_in _ _); [done|]. case_bool_decide; apply list_filter_sublist.
  - unfold DataFilter.filter_documents.
    repeat case_bool_decide; try done; apply list_filter_sublist.
  - unfold DataFilter.filter_taches. case_bool_decide; [apply list_filter_sublist|done].
  - unfold DataFilter.filter_depenses.
    destruct (has_permission _ _); simpl; [done|apply sublist_nil_l].
  - unfold DataFilter.filter_presences.
    case_bool_decide; [apply list_filter_sublist|done].
Qed.

(** ** The expense workflow, continued *)

Ltac lookup_hyps :=
  repeat match goal with
  | H : <[_ := _]> _ !! _ = Some _ |- _ =>
      apply lookup_insert_Some in H as [[? ?]|[? ?]]
  | H : <[_ := _]> _ !! _ = None |- _ =>
      apply lookup_insert_None in H as [? ?]
  | H : delete _ _ !! _ = Some _ |- _ =>
      apply lookup_delete_Some in H as [? ?]
  | H : delete _ _ !! _ = None |- _ =>
      apply lookup_delete_None in H as [?|?]
  end.

(** X8: the status of an expense moves only along the workflow.  Under
    any request to the expense endpoints a stored expense keeps its
    status, or goes from [en_attente] to [validee_chantier], or from a
    status other than [approuvee] and [rejetee] to [approuvee], or from
    a status other than [approuvee] to [rejetee]; an expense that
    appears is [en_attente]; an expense that disappears was not
    [approuvee]. *)
Theorem depense_status_workflow (user : user_dict) (req : depense_request)
    (d : db) (id : Z) :
  let d' := (serve_depense user req d).2 in
  (∀ dep dep', depenses d !! id = Some dep → depenses d' !! id = Some dep' →
     Depense.status dep' = Depense.status dep
     ∨ (Depense.status dep = "en_attente"
        ∧ Depense.status dep' = "validee_chantier")
     ∨ (Depense.status dep ≠ "approuvee" ∧ Depense.status dep ≠ "rejetee"
        ∧ Depense.status dep' = "approuvee")
     ∨ (Depense.status dep ≠ "approuvee" ∧ Depense.status dep' = "rejetee"))
  ∧ (∀ dep', depenses d !! id = None → depenses d' !! id = Some dep' →
       Depense.status dep' = "en_attente")
  ∧ (∀ dep, depenses d !! id = Some dep → depenses d' !! id = None →
       Depense.status dep ≠ "approuvee").
Proof.
  destruct req as [data draws|id' data|id'|id'|id'|id'];
    run_depense; repeat case_match; simpl; bool_hyps;
    (split; [|split]); intros; lookup_hyps; simplify_eq; simpl; literals;
    try done; try (by auto); try (by auto 10).
  pose proof (new_id_fresh (depenses d)). congruence.
Qed.

Lemma depense_status_workflow_witness :
  depenses (sample_db "rejetee") !! 1 = Some (sample_depense "rejetee")
  ∧ ∀ dep', depenses (serve_depense sample_admin (Approve 1)
                        (sample_db "rejetee")).2 !! 1 = Some dep' →
            Depense.status dep' = "rejetee".
Proof.
  assert (Hd : depenses (sample_db "rejetee") !! 1 = Some (sample_depense "rejetee"))
    by reflexivity.
  split; [exact Hd|]. intros dep' Hd'.
  destruct (proj1 (depense_status_workflow sample_admin (Approve 1)
                     (sample_db "rejetee") 1) _ _ Hd Hd')
    as [Hs|[[Hs _]|[(_ & Hs & _)|[_ Hs]]]]; simpl in *; done.
Defined.

(** X9: what an expense records is frozen.  Under any request a stored
    expense keeps its reference, its site and its creator; its amount
    changes only while it is [en_attente], at the request of a holder of
    [create_depense] who is its creator or [admin_general]; and
    [approved_by] changes only when [admin_general] approves it, to
    that caller's id. *)
Theorem depense_fields_frozen (user : user_dict) (req : depense_request)
    (d : db) (id : Z) (dep dep' : Depense.t) :
  depenses d !! id = Some dep →
  depenses (serve_depense user req d).2 !! id = Some dep' →
  Depense.reference dep' = Depense.reference dep
  ∧ Depense.chantier_id dep' = Depense.chantier_id dep
  ∧ Depense.created_by dep' = Depense.created_by dep
  ∧ (Depense.montant dep' = Depense.montant dep
     ∨ (Depense.status dep = "en_attente" ∧ Depense.status dep' = "en_attente"
        ∧ has_permission (default "ouvrier" (role user)) "create_depense" = true
        ∧ (default "ouvrier" (role user) = "admin_general"
           ∨ Depense.created_by dep = caller_id user)))
  ∧ (Depense.approved_by dep' = Depense.approved_by dep
     ∨ (Depense.status dep' = "approuvee"
        ∧ Depense.approved_by dep' = Some (caller_id user)
        ∧ default "ouvrier" (role user) = "admin_general")).
Proof.
  destruct req as [data draws|id' data|id'|id'|id'|id'];
    run_depense; repeat case_match; simpl; intros Hd Hd';
    lookup_hyps; simplify_eq; simpl; literals; try (by auto 10).
  - pose proof (new_id_fresh (depenses d)). congruence.
  - repeat split; try done; [|by left]. right.
    match goal with H : _ && _ = false |- _ => apply andb_false_iff in H as [H|H] end;
      bool_hyps; auto 10.
  - bool_hyps. repeat split; auto.
  - bool_hyps. repeat split; auto.
Qed.

Lemma depense_fields_frozen_witness :
  let d' := (serve_depense sample_admin (Approve 1) (sample_db "en_attente")).2 in
  depenses d' !! 1
  = Some (with_approved_by (with_status (sample_depense "en_attente") "approuvee") 1)
  ∧ Depense.montant
      (with_approved_by (with_status (sample_depense "en_attente") "approuvee") 1)
    = 40.
Proof.
  assert (Hd : depenses (sample_db "en_attente") !! 1
               = Some (sample_depense "en_attente")) by reflexivity.
  assert (Hd' : depenses (serve_depense sample_admin (Approve 1)
                            (sample_db "en_attente")).2 !! 1
                = Some (with_approved_by
                          (with_status (sample_depense "en_attente") "approuvee") 1))
    by (vm_compute; reflexivity).
  split; [exact Hd'|].
  destruct (depense_fields_frozen sample_admin (Approve 1) (sample_db "en_attente") 1
              _ _ Hd Hd') as (_ & _ & _ & [Hm|[_ [Hs _]]] & _).
  - exact Hm.
  - discriminate Hs.
Defined.

(** ** The budget consumed on a site *)

Lemma serve_depense_montants user req d :
  montants_non_negatifs d →
  (∀ m, montant_demande req = Some m → 0 ≤ m) →
  montants_non_negatifs (serve_depense user req d).2.
Proof.
  unfold montants_non_negatifs. intros Hd Hreq.
  destruct req as [data draws|id' data|id'|id'|id'|id'];
    run_depense; repeat case_match; simpl in *; try done.
  all: try (apply map_Forall_insert_2; [simpl|done]).
  all: try (by apply Hreq).
  all: try (by eapply Hd).
  intros j depj Hj. apply lookup_delete_Some in Hj as [_ Hj]. by eapply Hd.
Qed.

Lemma serve_depense_budget_monotone user req d c :
  montants_non_negatifs d →
  default 0 (budget_consomme_of d c)
  ≤ default 0 (budget_consomme_of (serve_depense user req d).2 c).
Proof.
  intros Hd. unfold budget_consomme_of.
  destruct (chantiers_change user req d)
    as [Heq|(id & dep & ch & -> & _ & Hdep & _ & Hch & Heq)]; rewrite Heq; [done|].
  destruct (decide (Depense.chantier_id dep = c)) as [<-|Hne].
  - rewrite lookup_insert_eq, Hch. simpl.
    pose proof (Hd _ _ Hdep) as Hm. simpl in Hm. lia.
  - by rewrite lookup_insert_ne.
Qed.

(** X10: the budget consumed on a site never goes down.  While no
    stored expense has a negative amount and no request asks to store
    one, which the expense endpoints then preserve, any sequence of
    requests leaves the [budget_consomme] of every site (read as 0 when
    missing) at least where it was: what an approval has counted is
    given back by no rejection, update or deletion. *)
Theorem budget_never_decreases (reqs : list (user_dict * depense_request))
    (d : db) (chantier : Z) :
  montants_non_negatifs d →
  Forall (λ ur, ∀ m, montant_demande ur.2 = Some m → 0 ≤ m) reqs →
  let d' := (serve_depenses reqs d).2 in
  montants_non_negatifs d'
  ∧ default 0 (budget_consomme_of d chantier)
    ≤ default 0 (budget_consomme_of d' chantier).
Proof.
  revert d. induction reqs as [|[user req] reqs IH]; intros d Hd Hreqs; simpl;
    [done|].
  apply Forall_cons in Hreqs as [Hreq Hreqs]. simpl in Hreq.
  pose proof (serve_depense_montants user req d Hd Hreq) as Hd1.
  pose proof (serve_depense_budget_monotone user req d chantier Hd) as Hle.
  destruct (serve_depense user req d) as [r d1]. simpl in *.
  destruct (IH d1 Hd1 Hreqs) as [Hd2 Hle'].
  destruct (serve_depenses reqs d1) as [rs d2]. simpl in *.
  split; [done|lia].
Qed.

Lemma budget_never_decreases_witness :
  let d := sample_db "en_attente" in
  let d' := (serve_depenses [(sample_admin, Approve 1); (sample_admin, Reject 1);
                             (sample_admin, Delete 1)] d).2 in
  montants_non_negatifs d
  ∧ budget_consomme_of d 5 = Some 100
  ∧ budget_consomme_of d' 5 = Some 140
  ∧ default 0 (budget_consomme_of d 5) ≤ default 0 (budget_consomme_of d' 5).
Proof.
  assert (Hd : montants_non_negatifs (sample_db "en_attente")).
  { intros j dep Hj. simpl in Hj. apply lookup_singleton_Some in Hj as [_ <-].
    simpl. lia. }
  split; [exact Hd|]. split; [reflexivity|]. split; [by vm_compute|].
  refine (proj2 (budget_never_decreases
                   [(sample_admin, Approve 1); (sample_admin, Reject 1);
                    (sample_admin, Delete 1)]
                   (sample_db "en_attente") 5 Hd _)).
  repeat constructor; simpl; intros m [=].
Defined.

(** ** Unique keys *)

Lemma unique_key_insert_fresh {A B} (key : A → B) (tbl : gmap Z A) id x :
  tbl !! id = None →
  (∀ j v, tbl !! j = Some v → key v ≠ key x) →
  (∀ i j u v, tbl !! i = Some u → tbl !! j = Some v → key u = key v → i = j) →
  ∀ i j u v, <[id := x]> tbl !! i = Some u → <[id := x]> tbl !! j = Some v →
             key u = key v → i = j.
Proof.
  intros Hid Hfresh Huniq i j u v Hi Hj Heq.
  apply lookup_insert_Some in Hi as [[<- <-]|[Hne Hi]];
    apply lookup_insert_Some in Hj as [[<- <-]|[Hne' Hj]]; try done.
  - exfalso. by eapply Hfresh.
  - exfalso. by eapply Hfresh.
  - by eapply Huniq.
Qed.

Lemma unique_key_insert_same {A B} (key : A → B) (tbl : gmap Z A) id old x :
  tbl !! id = Some old →
  key x = key old →
  (∀ i j u v, tbl !! i = Some u → tbl !! j = Some v → key u = key v → i = j) →
  ∀ i j u v, <[id := x]> tbl !! i = Some u → <[id := x]> tbl !! j = Some v →
             key u = key v → i = j.
Proof.
  intros Hid Hkey Huniq i j u v Hi Hj Heq.
  apply lookup_insert_Some in Hi as [[<- <-]|[Hne Hi]];
    apply lookup_insert_Some in Hj as [[<- <-]|[Hne' Hj]]; try done.
  - rewrite Hkey in Heq. by eapply Huniq.
  - rewrite Hkey in Heq. by eapply Huniq.
  - by eapply Huniq.
Qed.

(** The reference that the drawing loop settles on is carried by no
    stored expense. *)
Lemma draw_reference_fresh draws s reference :
  (draw_reference draws s).1 = inr reference →
  ∀ j v, depenses (working s) !! j = Some v → Depense.reference v ≠ reference.
Proof.
  induction draws as [|candidate draws IH]; simpl; [done|].
  exec.
  destruct (select_where _ _) as [|row [|row' rows]] eqn:Hsel; simpl; [|done|done].
  intros [= <-] j v Hj Href.
  by apply (select_where_nil_inv _ _ j v Hsel Hj).
Qed.

Lemma serve_depense_references user req d :
  references_unique d → references_unique (serve_depense user req d).2.
Proof.
  unfold references_unique. intros Huniq.
  destruct req as [data draws|id' data|id'|id'|id'|id'];
    run_depense; repeat case_match; simpl; try done.
  - apply (unique_key_insert_fresh Depense.reference); [apply new_id_fresh| |done].
    simpl. by eapply (draw_reference_fresh draws {| committed := d; working := d |}).
  - by eapply (unique_key_insert_same Depense.reference).
  - by eapply (unique_key_insert_same Depense.reference).
  - by eapply (unique_key_insert_same Depense.reference).
  - by eapply (unique_key_insert_same Depense.reference).
  - by eapply (unique_key_insert_same Depense.reference).
  - by eapply (unique_key_insert_same Depense.reference).
  - intros i j x y Hi Hj. apply lookup_delete_Some in Hi as [_ Hi].
    apply lookup_delete_Some in Hj as [_ Hj]. by eapply Huniq.
Qed.

(** X11: references identify expenses.  If no two stored expenses carry
    the same reference, none do after any sequence of requests to the
    expense endpoints: creation redraws its reference until no stored
    expense carries it, and no other request writes a reference. *)
Theorem depense_references_unique (reqs : list (user_dict * depense_request))
    (d : db) :
  references_unique d → references_unique (serve_depenses reqs d).2.
Proof.
  revert d. induction reqs as [|[user req] reqs IH]; intros d Hd; simpl; [done|].
  pose proof (serve_depense_references user req d Hd) as Hstep.
  destruct (serve_depense user req d) as [r d1]. simpl in *.
  specialize (IH d1 Hstep). by destruct (serve_depenses reqs d1) as [rs d2].
Qed.

Lemma depense_references_unique_witness :
  let reqs := [ (sample_comptable, Create sample_create
                                     ["DEP-202411-1000"; "DEP-202411-2000"]) ] in
  references_unique (sample_db "en_attente")
  ∧ references_unique (serve_depenses reqs (sample_db "en_attente")).2
  ∧ (Depense.reference
       <$> depenses (serve_depenses reqs (sample_db "en_attente")).2 !! 2)
    = Some "DEP-202411-2000".
Proof.
  assert (Hd : references_unique (sample_db "en_attente")).
  { intros i j u v Hi Hj _. simpl in Hi, Hj.
    apply lookup_singleton_Some in Hi as [<- _].
    by apply lookup_singleton_Some in Hj as [<- _]. }
  split; [exact Hd|]. split; [|by vm_compute].
  by apply depense_references_unique.
Defined.

(** ** Reading expenses *)

Lemma list_pending_depenses_run user d :
  get_db (list_pending_depenses user) d =
  if bool_decide (default RoleEnum.OUVRIER (role user) = RoleEnum.ADMIN_GENERAL) then
    let rows := select_where
      (λ r, Depense.status r.2
            ∈ [ DepenseStatus.EN_ATTENTE; DepenseStatus.VALIDEE_CHANTIER ])
      (depenses d) in
    (inr (length rows, rows), d)
  else (inl (HTTPException 403), d).
Proof.
  unfold list_pending_depenses, get_db, bind at 1. rewrite require_admin_run.
  by destruct (bool_decide (_ = RoleEnum.ADMIN_GENERAL)).
Qed.

(** X12: [list_pending_depenses] answers [admin_general] with exactly
    the expenses whose status is [en_attente] or [validee_chantier] and
    with their number, and writes nothing; each expense it lists can be
    approved by that caller, after which the list no longer holds it. *)
Theorem pending_depenses_approvable (user : user_dict) (d : db)
    (n : nat) (rows : list (Z * Depense.t)) (d' : db) :
  get_db (list_pending_depenses user) d = (inr (n, rows), d') →
  d' = d
  ∧ n = length rows
  ∧ (∀ i dep, (i, dep) ∈ rows
              ↔ depenses d !! i = Some dep
                ∧ (Depense.status dep = "en_attente"
                   ∨ Depense.status dep = "validee_chantier"))
  ∧ ∀ i dep, (i, dep) ∈ rows →
      ∃ d'', get_db (approve_depense i user) d
             = (inr (Depense.montant dep, "approuvee"), d'')
             ∧ ∃ rows', get_db (list_pending_depenses user) d''
                        = (inr (length rows', rows'), d'')
                        ∧ ∀ dep', (i, dep') ∉ rows'.
Proof.
  rewrite list_pending_depenses_run. case_bool_decide as Hadmin; [|done].
  simpl. intros [= <- <- <-].
  assert (Hrows : ∀ i dep,
    (i, dep) ∈ select_where
      (λ r, Depense.status r.2
            ∈ [ DepenseStatus.EN_ATTENTE; DepenseStatus.VALIDEE_CHANTIER ])
      (depenses d)
    ↔ depenses d !! i = Some dep
      ∧ (Depense.status dep = "en_attente"
         ∨ Depense.status dep = "validee_chantier")).
  { intros i dep. rewrite elem_of_select_where. simpl.
    rewrite !elem_of_cons, elem_of_nil. literals. naive_solver. }
  split; [done|]. split; [done|]. split; [exact Hrows|].
  intros i dep Hin. apply Hrows in Hin as [Hi Hs].
  rewrite approve_depense_run, bool_decide_eq_true_2 by done. rewrite Hi.
  rewrite !bool_decide_eq_false_2
    by (literals; destruct Hs as [Hs|Hs]; rewrite Hs; done).
  cbv zeta. eexists. split; [done|].
  rewrite list_pending_depenses_run, bool_decide_eq_true_2 by done.
  cbv zeta. eexists. split; [done|].
  intros dep'. rewrite elem_of_select_where. simpl. intros [Hi' Hs'].
  assert (Hst : Depense.status dep' = "approuvee").
  { destruct (chantiers d !! Depense.chantier_id dep); simpl in Hi';
      rewrite lookup_insert_eq in Hi'; by simplify_eq. }
  rewrite Hst in Hs'. rewrite !elem_of_cons, elem_of_nil in Hs'. literals.
  naive_solver.
Qed.

Lemma pending_depenses_approvable_witness :
  get_db (list_pending_depenses sample_admin) (sample_db "en_attente")
  = (inr (1%nat, [(1, sample_depense "en_attente")]), sample_db "en_attente")
  ∧ ∃ d'', get_db (approve_depense 1 sample_admin) (sample_db "en_attente")
           = (inr (40, "approuvee"), d'').
Proof.
  assert (H : get_db (list_pending_depenses sample_admin) (sample_db "en_attente")
              = (inr (1%nat, [(1, sample_depense "en_attente")]),
                 sample_db "en_attente")) by (vm_compute; reflexivity).
  split; [exact H|].
  destruct (proj2 (proj2 (proj2 (pending_depenses_approvable _ _ _ _ _ H)))
              1 (sample_depense "en_attente")) as (d'' & Ha & _).
  - left.
  - exists d''. exact Ha.
Defined.

Lemma list_depenses_run site status dates user d :
  get_db (list_depenses site status dates user) d =
  if has_permission (default RoleEnum.OUVRIER (role user)) "view_depenses" then
    match list_depenses_role_filter user with
    | None => (inr [], d)
    | Some role_filter =>
        if negb (bool_decide (or_zero site = 0))
           && negb (py_in (default RoleEnum.OUVRIER (role user))
                      [ RoleEnum.ADMIN_GENERAL; RoleEnum.COMPTABLE;
                        RoleEnum.DIRECTION ])
           && negb (py_in (or_zero site) (chantiers_assignes user))
           && negb (bool_decide (Some (or_zero site) = chantier_id user)) then
          (inl Uncaught, d)
        else
          (inr (select_where
             (λ r, role_filter r
                   && (bool_decide (or_zero site = 0)
                       || bool_decide (Depense.chantier_id r.2 = or_zero site))
                   && match status with
                      | Some s => bool_decide (s = "")
                                  || bool_decide (Depense.status r.2 = s)
                      | None => true
                      end
                   && dates r.2
                   = true)
             (depenses d)), d)
    end
  else (inl (HTTPException 403), d).
Proof.
  unfold list_depenses, get_db, bind at 1. rewrite require_permission_run.
  destruct (has_permission _ _); [|done].
  destruct (list_depenses_role_filter user) as [role_filter|]; [|done].
  by destruct (_ && _ && _ && _).
Qed.

(** X13: [list_depenses] writes nothing and returns stored expenses
    only, all on the requested site and in the requested status when
    these are given; to an [admin_chantier] with assigned sites it
    returns expenses of those sites only.  A caller outside
    [admin_general], [comptable] and [direction] who asks for a site
    that is neither assigned nor their own gets no rows: the request
    ends in an uncaught error, since within this function [status]
    names the query parameter. *)
Theorem list_depenses_scope (site : option Z) (status : option string)
    (dates : Depense.t → bool) (user : user_dict) (d : db) :
  (∀ rows d', get_db (list_depenses site status dates user) d = (inr rows, d') →
     d' = d
     ∧ ∀ i dep, (i, dep) ∈ rows →
         depenses d !! i = Some dep
         ∧ (or_zero site ≠ 0 → Depense.chantier_id dep = or_zero site)
         ∧ (∀ s, status = Some s → s ≠ "" → Depense.status dep = s)
         ∧ (default "ouvrier" (role user) = "admin_chantier" →
            chantiers_assignes user ≠ [] →
            Depense.chantier_id dep ∈ chantiers_assignes user))
  ∧ (has_permission (default "ouvrier" (role user)) "view_depenses" = true →
     default "ouvrier" (role user) ∉ ["admin_general"; "comptable"; "direction"] →
     or_zero site ≠ 0 →
     or_zero site ∉ chantiers_assignes user →
     chantier_id user ≠ Some (or_zero site) →
     get_db (list_depenses site status dates user) d = (inl Uncaught, d)).
Proof.
  rewrite list_depenses_run. literals. split.
  - intros rows d'. destruct (has_permission _ _); [|done].
    destruct (list_depenses_role_filter user) as [role_filter|] eqn:Hfilter.
    2:{ intros [= <- <-]. split; [done|]. intros i dep Hin.
        by apply elem_of_nil in Hin. }
    destruct (_ && _ && _ && _); [done|]. intros [= <- <-]. split; [done|].
    intros i dep. rewrite elem_of_select_where. simpl.
    rewrite !andb_true_iff. intros (Hi & ((Hrole & Hsite) & Hstatus) & _).
    split; [done|]. split; [|split].
    + intros Hne. apply orb_true_iff in Hsite as [Hs|Hs]; bool_hyps; done.
    + intros s -> Hne. apply orb_true_iff in Hstatus as [Hs|Hs]; bool_hyps; done.
    + intros Hr Has. unfold list_depenses_role_filter in Hfilter.
      literals. rewrite Hr in Hfilter. simpl in Hfilter.
      destruct (chantiers_assignes user) as [|c l] eqn:Hl; [done|].
      simplify_eq. simpl in Hrole. by apply py_in_true in Hrole.
  - intros Hperm Hrole Hsite Hassigned Hown. rewrite Hperm.
    destruct (list_depenses_role_filter user) as [role_filter|] eqn:Hfilter.
    2:{ unfold list_depenses_role_filter in Hfilter. literals.
        case_bool_decide as Hchef; [|by case_bool_decide; repeat case_match].
        by rewrite Hchef in Hperm. }
    rewrite (bool_decide_eq_false_2 (or_zero site = 0)) by done.
    rewrite (proj2 (py_in_false _ _) Hrole), (proj2 (py_in_false _ _) Hassigned).
    rewrite bool_decide_eq_false_2 by congruence. done.
Qed.


Lemma list_depenses_scope_witness :
  has_permission (default "ouvrier" (role sample_admin_chantier)) "view_depenses" = true
  ∧ get_db (list_depenses (Some 7) None (λ _, true) sample_admin_chantier)
      (sample_db "en_attente")
    = (inl Uncaught, sample_db "en_attente").
Proof.
  split; [reflexivity|].
  apply (proj2 (list_depenses_scope (Some 7) None (λ _, true) sample_admin_chantier
                  (sample_db "en_attente"))).
  - reflexivity.
  - apply (bool_decide_unpack _). by vm_compute.
  - by vm_compute.
  - apply (bool_decide_unpack _). by vm_compute.
  - done.
Defined.

(** The holders of a permission, read off the table on the roles of
    the vocabulary: no other role holds any. *)
Lemma permission_holders permission (holders : list string) :
  Forall (λ r, has_permission r permission = py_in r holders) RoleEnum.all_roles →
  Forall (λ r, r ∈ RoleEnum.all_roles) holders →
  ∀ r, has_permission r permission = py_in r holders.
Proof.
  intros Hknown Hholders r. destruct (decide (r ∈ RoleEnum.all_roles)) as [Hr|Hr].
  - rewrite Forall_forall in Hknown. by apply Hknown.
  - assert (Hnot : r ∉ holders).
    { intros Hin. rewrite Forall_forall in Hholders. by apply Hr, Hholders. }
    rewrite (proj2 (py_in_false _ _) Hnot).
    apply not_true_is_false. rewrite has_permission_other.
    + rewrite role_permissions_get_unknown by done. intros [H|H]; by apply elem_of_nil in H.
    + intros ->. apply Hr. by apply (bool_decide_unpack _).
Qed.

Lemma view_depenses_holders r :
  has_permission r "view_depenses"
  = py_in r ["admin_general"; "admin_chantier"; "comptable"; "direction"].
Proof.
  apply permission_holders; apply (bool_decide_unpack _); by vm_compute.
Qed.

Lemma get_depense_run id user d :
  get_db (get_depense id user) d =
  if has_permission (default RoleEnum.OUVRIER (role user)) "view_depenses" then
    match depenses d !! id with
    | None => (inl (HTTPException 404), d)
    | Some depense =>
        if negb (py_in (default RoleEnum.OUVRIER (role user))
                   [ RoleEnum.ADMIN_GENERAL; RoleEnum.COMPTABLE; RoleEnum.DIRECTION ])
           && negb (has_chantier_access user (Depense.chantier_id depense)) then
          (inl (HTTPException 403), d)
        else (inr depense, d)
    end
  else (inl (HTTPException 403), d).
Proof.
  unfold get_depense, get_db, bind at 1. rewrite require_permission_run.
  destruct (has_permission _ _); [|done].
  exec. destruct (depenses d !! id) as [depense|]; simpl; [|done].
  by destruct (_ && _).
Qed.

(** X14: who reads an expense.  [get_depense] returns a stored expense,
    unchanged and without writing, to [admin_general], [comptable] and
    [direction], and to an [admin_chantier] to whom the site of the
    expense is assigned; every other caller is answered HTTP 403. *)
Theorem get_depense_readers (id : Z) (user : user_dict) (d : db) (dep : Depense.t) :
  depenses d !! id = Some dep →
  let role' := default "ouvrier" (role user) in
  let reader :=
    role' ∈ ["admin_general"; "comptable"; "direction"]
    ∨ (role' = "admin_chantier"
       ∧ Depense.chantier_id dep ∈ chantiers_assignes user) in
  (reader → get_db (get_depense id user) d = (inr dep, d))
  ∧ (¬ reader → get_db (get_depense id user) d = (inl (HTTPException 403), d)).
Proof.
  intros Hid role' reader. subst reader.
  rewrite get_depense_run, Hid. literals. fold role'.
  rewrite view_depenses_holders.
  assert (Haccess : has_chantier_access user (Depense.chantier_id dep)
            = py_in (default "" (role user))
                ["admin_general"; "direction"; "comptable"; "magasinier"]
              || py_in (Depense.chantier_id dep) (chantiers_assignes user)).
  { unfold has_chantier_access, global_access_roles. literals.
    by destruct (py_in _ _). }
  rewrite Haccess. clear Haccess.
  destruct (decide (role' ∈ ["admin_general"; "comptable"; "direction"])) as [Hr|Hr].
  - split; [intros _|by intros []; left].
    rewrite (proj2 (py_in_true role' ["admin_general"; "comptable"; "direction"]) Hr).
    rewrite (proj2 (py_in_true role'
               ["admin_general"; "admin_chantier"; "comptable"; "direction"]));
      [done|set_solver].
  - rewrite (proj2 (py_in_false role' ["admin_general"; "comptable"; "direction"]) Hr).
    simpl. destruct (decide (role' = "admin_chantier")) as [Hac|Hac].
    + rewrite Hac.
      rewrite (proj2 (py_in_true "admin_chantier" _)) by set_solver.
      assert (role user = Some "admin_chantier") as Hrole.
      { subst role'. destruct (role user); simpl in *; by simplify_eq. }
      rewrite Hrole. simpl.
      destruct (py_in (Depense.chantier_id dep) _) eqn:Hin; simpl.
      * apply py_in_true in Hin. split; [done|]. intros []. by right.
      * apply py_in_false in Hin. split; [|done].
        intros [H|[_ H]]; [exfalso; apply Hr; by rewrite Hac | done].
    + rewrite (proj2 (py_in_false role'
                 ["admin_general"; "admin_chantier"; "comptable"; "direction"])).
      * split; [|done]. by intros [?|[? _]].
      * set_solver.
Qed.

Lemma get_depense_readers_witness :
  depenses (sample_db "en_attente") !! 1 = Some (sample_depense "en_attente")
  ∧ get_db (get_depense 1 sample_admin_chantier) (sample_db "en_attente")
    = (inr (sample_depense "en_attente"), sample_db "en_attente")
  ∧ get_db (get_depense 1 sample_chef) (sample_db "en_attente")
    = (inl (HTTPException 403), sample_db "en_attente").
Proof.
  assert (Hd : depenses (sample_db "en_attente") !! 1
               = Some (sample_depense "en_attente")) by reflexivity.
  split; [exact Hd|]. split.
  - apply (proj1 (get_depense_readers 1 sample_admin_chantier _ _ Hd)).
    right. split; [reflexivity|]. simpl. left.
  - apply (proj2 (get_depense_readers 1 sample_chef _ _ Hd)).
    simpl. rewrite !elem_of_cons, elem_of_nil. intros [[?|[?|[?|[]]]]|[? _]]; done.
Defined.

(** ** The stock and its ledger *)

Lemma create_mouvement_inv data user d :
  ∀ r d', get_db (create_mouvement data user) d = (r, d') →
  (∃ e, r = inl e ∧ d' = d)
  ∨ ∃ materiel q',
      materiels d !! MouvementCreate.materiel_id data = Some materiel
      ∧ d' = set_mouvements
               (λ l, l ++ [ {| MouvementStock.materiel_id :=
                                 MouvementCreate.materiel_id data;
                               MouvementStock.type_mouvement :=
                                 MouvementCreate.type_mouvement data;
                               MouvementStock.quantite := MouvementCreate.quantite data;
                               MouvementStock.created_by := caller_id user |} ])
               (set_materiels
                  <[MouvementCreate.materiel_id data
                    := with_quantite materiel (Some q')]> d)
      ∧ ((MouvementCreate.type_mouvement data = "entree"
          ∧ q' = or_zero (Materiel.quantite materiel) + MouvementCreate.quantite data)
         ∨ (MouvementCreate.type_mouvement data = "sortie"
            ∧ ∃ b, Materiel.quantite materiel = Some b
                   ∧ MouvementCreate.quantite data ≤ b
                   ∧ q' = b - MouvementCreate.quantite data)).
Proof.
  wp_start. unfold create_mouvement. wp_run; eauto.
  all: unfold select_by_id in *; repeat case_match; simplify_eq; bool_hyps;
    literals; right.
  - eexists _, _. split; [done|]. split; [done|]. by left.
  - eexists _, _. split; [done|]. split; [done|]. right. split; [done|].
    eexists. split; [done|].
    match goal with H : ¬ or_zero (Some _) < _ |- _ => rewrite or_zero_Some in H end.
    split; [lia|done].
  - match goal with H : py_in _ _ = true |- _ => apply py_in_true in H end.
    set_solver.
Qed.

Lemma recevoir_materiel_inv data user d :
  ∀ r d', get_db (recevoir_materiel data user) d = (r, d') →
  (∃ e, r = inl e ∧ d' = d)
  ∨ ∃ materiel,
      materiels d !! ReceptionRequest.materiel_id data = Some materiel
      ∧ d' = set_mouvements
               (λ l, l ++ [ {| MouvementStock.materiel_id :=
                                 ReceptionRequest.materiel_id data;
                               MouvementStock.type_mouvement := "reception";
                               MouvementStock.quantite := ReceptionRequest.quantite data;
                               MouvementStock.created_by := caller_id user |} ])
               (set_materiels
                  <[ReceptionRequest.materiel_id data
                    := with_quantite materiel
                         (Some (or_zero (Materiel.quantite materiel)
                                + ReceptionRequest.quantite data))]> d).
Proof.
  wp_start. unfold recevoir_materiel. wp_run; eauto.
  unfold select_by_id in *; repeat case_match; simplify_eq. right. eauto.
Qed.

Lemma transferer_materiel_inv data user d :
  ∀ r d', get_db (transferer_materiel data user) d = (r, d') →
  (∃ e, r = inl e ∧ d' = d)
  ∨ ∃ materiel_source bA dest_id found,
      let q := TransfertRequest.quantite data in
      let source_id := TransfertRequest.materiel_id data in
      let materiels1 :=
        <[source_id := with_quantite materiel_source (Some (bA - q))]> (materiels d) in
      materiels d !! source_id = Some materiel_source
      ∧ Materiel.quantite materiel_source = Some bA
      ∧ q ≤ bA
      ∧ materiels1 !! dest_id = Some found
      ∧ d' = set_mouvements (λ l, l ++ [ledger_entree data user dest_id])
               (set_mouvements (λ l, l ++ [ledger_sortie data user])
                  (set_materiels
                     <[dest_id := with_quantite found
                                    (Some (or_zero (Materiel.quantite found) + q))]>
                     (set_materiels
                        <[source_id := with_quantite materiel_source (Some (bA - q))]>
                        d))).
Proof.
  wp_start. unfold transferer_materiel. wp_run; eauto.
  all: match goal with
       | H : select_where ?P (materiels ?d0) = [(?z, ?t)] |- _ =>
           assert (Hsrc : (z, t) ∈ select_where P (materiels d0))
             by (rewrite H; left);
           apply elem_of_select_where in Hsrc as [Hsrc [Hz _]];
           simpl in Hz; subst z
       end.
  all: match goal with
       | H : bool_decide (or_zero (Some _) < _) = false |- _ =>
           rewrite or_zero_Some in H; apply bool_decide_eq_false in H
       end.
  all: right; eexists _, _, _, _; cbv zeta;
    split; [exact Hsrc|]; split; [eassumption|]; split; [lia|].
  split; [|reflexivity].
  match goal with
  | H : select_where ?P ?tbl = [(?z, ?t)] |- _ =>
      assert (Hdst : (z, t) ∈ select_where P tbl) by (rewrite H; left);
      apply elem_of_select_where in Hdst as [Hdst _]
  end.
  exact Hdst.
Qed.

(** What one request records: the entries it appends to the ledger, the
    materials it leaves in place, and the rows it leaves unchanged. *)
Lemma serve_stock_recorded user req d :
  let d' := (serve_stock user req d).2 in
  ∃ entries,
    mouvements d' = mouvements d ++ entries
    ∧ dom (materiels d') = dom (materiels d)
    ∧ ∀ id, (∀ mouvement, mouvement ∈ entries →
                          MouvementStock.materiel_id mouvement ≠ id) →
            materiels d' !! id = materiels d !! id.
Proof.
  assert (Hnone : ∃ entries : list MouvementStock.t,
            mouvements d = mouvements d ++ entries
            ∧ dom (materiels d) = dom (materiels d)
            ∧ ∀ id, (∀ mouvement, mouvement ∈ entries →
                                  MouvementStock.materiel_id mouvement ≠ id) →
                    materiels d !! id = materiels d !! id).
  { exists []. by rewrite app_nil_r. }
  destruct req as [data|data|data]; unfold serve_stock, void; simpl.
  - destruct (get_db _ d) as [r d'] eqn:Hrun. simpl.
    apply create_mouvement_inv in Hrun
      as [(e & -> & ->)|(materiel & q' & Hm & -> & _)]; [done|].
    eexists [_]. split; [done|]. simpl. split.
    + rewrite dom_insert_L. apply elem_of_dom_2 in Hm. set_solver.
    + intros id Hid. apply lookup_insert_ne.
      apply (Hid _ (list_elem_of_here _ _)).
  - destruct (get_db _ d) as [r d'] eqn:Hrun. simpl.
    apply recevoir_materiel_inv in Hrun
      as [(e & -> & ->)|(materiel & Hm & ->)]; [done|].
    eexists [_]. split; [done|]. simpl. split.
    + rewrite dom_insert_L. apply elem_of_dom_2 in Hm. set_solver.
    + intros id Hid. apply lookup_insert_ne.
      apply (Hid _ (list_elem_of_here _ _)).
  - destruct (get_db _ d) as [r d'] eqn:Hrun. simpl.
    apply transferer_materiel_inv in Hrun
      as [(e & -> & ->)|(ms & bA & dest_id & found & Hrun)]; [done|].
    cbv zeta in Hrun. destruct Hrun as (Hs & HbA & Hle & Hfound & ->).
    exists [ledger_sortie data user; ledger_entree data user dest_id].
    simpl. split; [by rewrite <- app_assoc|]. split.
    + rewrite !dom_insert_L.
      apply elem_of_dom_2 in Hs. apply elem_of_dom_2 in Hfound.
      rewrite dom_insert_L in Hfound. set_solver.
    + intros id Hid.
      pose proof (Hid (ledger_sortie data user)) as Hsortie.
      pose proof (Hid (ledger_entree data user dest_id)) as Hentree.
      simpl in Hsortie, Hentree.
      rewrite !lookup_insert_ne; [done|..].
      * apply Hsortie. set_solver.
      * apply Hentree. set_solver.
Qed.

(** X15: every change of stock is recorded.  Whatever sequence of
    movement, reception and transfer requests is served, the ledger
    only grows, by entries appended at its end; no material is created
    and none is removed; and a material that none of the new entries
    names has the row it had. *)
Theorem stock_changes_recorded (reqs : list (user_dict * stock_request)) (d : db) :
  let d' := (serve_stocks reqs d).2 in
  ∃ entries,
    mouvements d' = mouvements d ++ entries
    ∧ dom (materiels d') = dom (materiels d)
    ∧ ∀ id, (∀ mouvement, mouvement ∈ entries →
                          MouvementStock.materiel_id mouvement ≠ id) →
            materiels d' !! id = materiels d !! id.
Proof.
  revert d. induction reqs as [|[user req] reqs IH]; intros d; simpl.
  { exists []. by rewrite app_nil_r. }
  destruct (serve_stock_recorded user req d) as (entries1 & Hl1 & Hdom1 & Hrows1).
  destruct (serve_stock user req d) as [r d1]. simpl in *.
  destruct (IH d1) as (entries2 & Hl2 & Hdom2 & Hrows2).
  destruct (serve_stocks reqs d1) as [rs d2]. simpl in *.
  exists (entries1 ++ entries2). split; [|split].
  - by rewrite Hl2, Hl1, <- app_assoc.
  - by rewrite Hdom2.
  - intros id Hid. rewrite Hrows2, Hrows1; [done|..];
      intros mouvement Hin; apply Hid; set_solver.
Qed.





(** A movement that passes the checks is applied and recorded. *)
Lemma create_mouvement_succeeds data user d materiel q' :
  has_permission (default "ouvrier" (role user)) "mouvement_stock" = true →
  materiels d !! MouvementCreate.materiel_id data = Some materiel →
  (MouvementCreate.type_mouvement data = "entree"
   ∧ q' = or_zero (Materiel.quantite materiel) + MouvementCreate.quantite data)
  ∨ (MouvementCreate.type_mouvement data = "sortie"
     ∧ ∃ b, Materiel.quantite materiel = Some b
            ∧ MouvementCreate.quantite data ≤ b
            ∧ q' = b - MouvementCreate.quantite data) →
  let mouvement :=
    {| MouvementStock.materiel_id := MouvementCreate.materiel_id data;
       MouvementStock.type_mouvement := MouvementCreate.type_mouvement data;
       MouvementStock.quantite := MouvementCreate.quantite data;
       MouvementStock.created_by := caller_id user |} in
  get_db (create_mouvement data user) d
  = (inr mouvement,
     set_mouvements (λ l, l ++ [mouvement])
       (set_materiels
          <[MouvementCreate.materiel_id data := with_quantite materiel (Some q')]> d)).
Proof.
  intros Hp Hm Hcase mouvement. subst mouvement.
  assert (Hchef : default "ouvrier" (role user) ≠ "chef_chantier").
  { intros Hr. rewrite Hr in Hp. done. }
  unfold create_mouvement, get_db, bind at 1.
  rewrite require_permission_run. literals. rewrite Hp. exec. rewrite Hm. simpl.
  rewrite (bool_decide_eq_false_2 (default "ouvrier" (role user) = "chef_chantier"))
    by done.
  simpl. destruct Hcase as [[Ht ->]|(Ht & b & Hb & Hle & ->)]; rewrite Ht; simpl.
  - done.
  - rewrite Hb, or_zero_Some. rewrite bool_decide_eq_false_2 by lia. done.
Qed.

(** X17: what has come in can go out.  On a material whose balance is
    not negative, an [entree] of a quantity followed by a [sortie] of
    the same quantity are both accepted: the stock check of the
    [sortie] does not refuse it.  Between the two the balance is the
    sum computed by the [entree], no other material changes, and the
    ledger gains the two entries, in that order. *)
Theorem entree_then_sortie_accepted (user : user_dict) (id q : Z) (d : db)
    (materiel : Materiel.t) (b : Z) :
  has_permission (default "ouvrier" (role user)) "mouvement_stock" = true →
  materiels d !! id = Some materiel →
  Materiel.quantite materiel = Some b →
  0 ≤ b →
  let entree := {| MouvementCreate.materiel_id := id;
                   MouvementCreate.type_mouvement := "entree";
                   MouvementCreate.quantite := q |} in
  let sortie := {| MouvementCreate.materiel_id := id;
                   MouvementCreate.type_mouvement := "sortie";
                   MouvementCreate.quantite := q |} in
  ∃ m1 m2 d1 d2,
    get_db (create_mouvement entree user) d = (inr m1, d1)
    ∧ get_db (create_mouvement sortie user) d1 = (inr m2, d2)
    ∧ materiels d1 !! id ≫= Materiel.quantite = Some (b + q)
    ∧ (∀ k, k ≠ id → materiels d2 !! k = materiels d !! k)
    ∧ mouvements d2 = mouvements d ++ [m1; m2]
    ∧ MouvementStock.type_mouvement m1 = "entree"
    ∧ MouvementStock.type_mouvement m2 = "sortie".
Proof.
  intros Hp Hm Hb Hpos entree sortie.
  pose proof (create_mouvement_succeeds entree user d materiel (b + q) Hp Hm) as H1.
  subst entree. cbv zeta in H1. simpl in H1.
  assert (H1' := H1 (or_introl (conj eq_refl
    (eq_ind_r (λ x, b + q = or_zero x + q)
       (eq_ind_r (λ x, b + q = x + q) eq_refl (or_zero_Some b)) Hb)))).
  clear H1. rename H1' into H1.
  match type of H1 with
  | _ = (_, ?d1) =>
      pose proof (create_mouvement_succeeds sortie user d1
        (with_quantite materiel (Some (b + q))) (b + q - q) Hp
        (lookup_insert_eq (materiels d) id (with_quantite materiel (Some (b + q)))))
        as H2
  end.
  subst sortie. cbv zeta in H2. simpl in H2.
  eexists _, _, _, _. split; [exact H1|]. split.
  { apply H2. right. split; [done|]. exists (b + q). split; [done|]. split; [lia|done]. }
  simpl. split; [|split; [|split; [|done]]].
  - by rewrite lookup_insert_eq.
  - intros k Hk. by rewrite !lookup_insert_ne.
  - by rewrite <- app_assoc.
Qed.

Lemma entree_then_sortie_accepted_witness :
  ∃ m1 m2 d1 d2,
    get_db (create_mouvement (sample_mouvement "entree" 5) sample_magasinier)
      sample_stock_db = (inr m1, d1)
    ∧ get_db (create_mouvement (sample_mouvement "sortie" 5) sample_magasinier) d1
      = (inr m2, d2)
    ∧ materiels d1 !! 1 ≫= Materiel.quantite = Some 15
    ∧ mouvements d2 = [m1; m2].
Proof.
  destruct (entree_then_sortie_accepted sample_magasinier 1 5 sample_stock_db
              (sample_materiel (Some 10) 1) 10)
    as (m1 & m2 & d1 & d2 & H1 & H2 & Hq & _ & Hl & _).
  - reflexivity.
  - reflexivity.
  - reflexivity.
  - lia.
  - exists m1, m2, d1, d2. exact (conj H1 (conj H2 (conj Hq Hl))).
Defined.

(** ** Reading documents *)

(** Replaces the tests on closed terms by their values. *)
Ltac decide_closed :=
  repeat match goal with
  | |- context [py_in ?x ?l] =>
      let b := eval vm_compute in (py_in x l) in
      lazymatch b with
      | true => change (py_in x l) with true
      | false => change (py_in x l) with false
      end
  | |- context [has_permission ?r ?p] =>
      let b := eval vm_compute in (has_permission r p) in
      lazymatch b with
      | true => change (has_permission r p) with true
      | false => change (has_permission r p) with false
      end
  | |- context [bool_decide ?P] =>
      let b := eval vm_compute in (bool_decide P) in
      lazymatch b with
      | true => change (bool_decide P) with true
      | false => change (bool_decide P) with false
      end
  end.

Lemma default_role_inv (user : user_dict) r :
  default "ouvrier" (role user) = r → r ≠ "ouvrier" → role user = Some r.
Proof. destruct (role user); simpl; [by intros ->|by intros ->]. Qed.

Lemma download_document_holders r :
  has_permission r "download_document"
  = py_in r ["admin_general"; "admin_chantier"; "comptable"; "chef_chantier";
             "magasinier"; "client"; "direction"].
Proof.
  apply permission_holders; apply (bool_decide_unpack _); by vm_compute.
Qed.

Lemma download_document_run on_disk document_id user d :
  get_db (download_document on_disk document_id user) d =
  let role' := default RoleEnum.OUVRIER (role user) in
  if has_permission role' "download_document" then
    match documents d !! document_id with
    | None => (inl (HTTPException 404), d)
    | Some document =>
        if bool_decide (role' = RoleEnum.CLIENT) then (inl Uncaught, d)
        else if negb (py_in role' [ RoleEnum.ADMIN_GENERAL; RoleEnum.DIRECTION;
                                    RoleEnum.CLIENT ])
                && (if bool_decide (role' = RoleEnum.COMPTABLE) then
                      negb (py_in (Document.type_document document)
                              DocumentType.types_comptable)
                    else
                      negb (has_chantier_access user (Document.chantier_id document)))
        then (inl (HTTPException 403), d)
        else if negb (on_disk document_id) then (inl (HTTPException 404), d)
        else (inr document, d)
    end
  else (inl (HTTPException 403), d).
Proof.
  cbv zeta. unfold download_document, get_db, bind at 1.
  rewrite require_permission_run.
  destruct (has_permission _ _); [|done].
  exec. destruct (documents d !! document_id) as [document|]; simpl; [|done].
  destruct (bool_decide (_ = RoleEnum.CLIENT)); [done|]. simpl.
  destruct (negb (py_in _ _) && _); [done|].
  by destruct (negb (on_disk document_id)).
Qed.

(** X19: who downloads a document.  For a stored document whose file is
    on disk, [download_document] returns it, without writing, to
    [admin_general], [direction] and [magasinier], to a [comptable]
    when it is of one of the four accounting types, and to an
    [admin_chantier] or [chef_chantier] to whom its site is assigned;
    to these three roles it answers HTTP 403 otherwise, as it does to
    every role without the permission.  To a [client] it answers with
    neither: the handler reads [document.valide_client], which is no
    attribute of the row, and ends in an uncaught exception. *)
Theorem download_document_readers (on_disk : Z → bool) (document_id : Z)
    (user : user_dict) (d : db) (document : Document.t) :
  documents d !! document_id = Some document →
  on_disk document_id = true →
  let role' := default "ouvrier" (role user) in
  let served := get_db (download_document on_disk document_id user) d in
  (role' ∈ ["admin_general"; "direction"; "magasinier"] →
   served = (inr document, d))
  ∧ (role' = "comptable" →
     served = if py_in (Document.type_document document)
                   ["facture"; "bon_livraison"; "devis"; "contrat"]
              then (inr document, d) else (inl (HTTPException 403), d))
  ∧ (role' ∈ ["admin_chantier"; "chef_chantier"] →
     served = if py_in (Document.chantier_id document) (chantiers_assignes user)
              then (inr document, d) else (inl (HTTPException 403), d))
  ∧ (role' = "client" → served = (inl Uncaught, d))
  ∧ (role' ∉ ["admin_general"; "admin_chantier"; "comptable"; "chef_chantier";
              "magasinier"; "client"; "direction"] →
     served = (inl (HTTPException 403), d)).
Proof.
  intros Hdoc Hdisk role' served. subst served.
  rewrite download_document_run, Hdoc, Hdisk. cbv zeta. literals. fold role'.
  unfold has_chantier_access, global_access_roles, DocumentType.types_comptable,
    DocumentType.FACTURE, DocumentType.BON_LIVRAISON, DocumentType.DEVIS,
    DocumentType.CONTRAT.
  literals.
  split; [|split; [|split; [|split]]].
  - intros Hr. rewrite !elem_of_cons, elem_of_nil in Hr.
    destruct Hr as [Hr|[Hr|[Hr|[]]]];
      rewrite (default_role_inv user _ Hr) by done; rewrite Hr;
      simpl; by decide_closed.
  - intros Hr. rewrite (default_role_inv user _ Hr) by done. rewrite Hr.
    simpl. decide_closed. simpl. by destruct (py_in _ _).
  - intros Hr. rewrite !elem_of_cons, elem_of_nil in Hr.
    destruct Hr as [Hr|[Hr|[]]];
      rewrite (default_role_inv user _ Hr) by done; rewrite Hr;
      simpl; decide_closed; simpl; by destruct (py_in _ _).
  - intros Hr. rewrite Hr. by decide_closed.
  - intros Hr. rewrite download_document_holders.
    by rewrite (proj2 (py_in_false _ _) Hr).
Qed.

Lemma download_document_readers_witness :
  documents sample_documents_db !! 1 = Some sample_document
  ∧ get_db (download_document (λ _, true) 1 sample_chef) sample_documents_db
    = (inr sample_document, sample_documents_db)
  ∧ get_db (download_document (λ _, true) 1 sample_client) sample_documents_db
    = (inl Uncaught, sample_documents_db).
Proof.
  split; [reflexivity|]. split.
  - exact (proj1 (proj2 (proj2
      (download_document_readers (λ _, true) 1 sample_chef sample_documents_db
         sample_document eq_refl eq_refl)))
      ltac:(apply (bool_decide_unpack _); by vm_compute)).
  - exact (proj1 (proj2 (proj2 (proj2
      (download_document_readers (λ _, true) 1 sample_client sample_documents_db
         sample_document eq_refl eq_refl)))) eq_refl).
Defined.

Lemma list_client_validated_documents_inv chantier_id user d :
  ∀ r d', get_db (list_client_validated_documents chantier_id user) d = (r, d') →
  ∃ e, r = inl e ∧ d' = d.
Proof.
  wp_start. unfold list_client_validated_documents. wp_run; eauto.
Qed.

(** X20: a client reads no document.  For a principal whose role is
    [client], [list_documents] answers HTTP 403 whatever the filters,
    the view made for the client, [list_client_validated_documents],
    ends in an uncaught exception whatever the site, and so does the
    download of any stored document; the download of a document that is
    not stored is answered HTTP 404.  None of the three writes.  No
    caller gets a response from the view of the client, which names
    [Document.valide_client] to build its query. *)
Theorem client_reads_no_document (on_disk : Z → bool) (user : user_dict) (d : db) :
  (role user = Some "client" →
   (∀ site type_document valide_client,
      get_db (list_documents site type_document valide_client user) d
      = (inl (HTTPException 403), d))
   ∧ (∀ site,
        get_db (list_client_validated_documents site user) d = (inl Uncaught, d))
   ∧ (∀ document_id,
        get_db (download_document on_disk document_id user) d
        = match documents d !! document_id with
          | Some _ => (inl Uncaught, d)
          | None => (inl (HTTPException 404), d)
          end))
  ∧ (∀ site caller, ∃ e,
       get_db (list_client_validated_documents site caller) d = (inl e, d)).
Proof.
  split.
  - intros Hrole. split; [|split].
    + intros. by apply list_documents_client_forbidden.
    + intros site. unfold list_client_validated_documents, get_db, bind at 1.
      rewrite require_permission_run, Hrole. simpl. by decide_closed.
    + intros document_id. rewrite download_document_run, Hrole. simpl.
      decide_closed. cbv iota. by destruct (documents d !! document_id).
  - intros site caller.
    destruct (get_db (list_client_validated_documents site caller) d)
      as [r d'] eqn:Hrun.
    apply list_client_validated_documents_inv in Hrun as (e & -> & ->).
    by exists e.
Qed.

Lemma client_reads_no_document_witness :
  role sample_client = Some "client"
  ∧ get_db (list_client_validated_documents 5 sample_client) sample_documents_db
    = (inl Uncaught, sample_documents_db)
  ∧ get_db (download_document (λ _, true) 1 sample_client) sample_documents_db
    = (inl Uncaught, sample_documents_db).
Proof.
  pose proof (proj1 (client_reads_no_document (λ _, true) sample_client
                       sample_documents_db) eq_refl) as (_ & Hview & Hdownload).
  split; [reflexivity|]. split; [apply Hview|apply (Hdownload 1)].
Defined.

(** A validation request that passes the checks is answered, and has
    stored nothing. *)
Lemma set_document_for_client_succeeds value document_id user d document :
  has_permission (default "ouvrier" (role user)) "validate_document_client" = true →
  (default "ouvrier" (role user) = "admin_chantier" →
   has_chantier_access user (Document.chantier_id document) = true) →
  documents d !! document_id = Some document →
  get_db (set_document_for_client value document_id user) d = (inr tt, d).
Proof.
  intros Hp Haccess Hdoc. unfold set_document_for_client, get_db, bind at 1.
  rewrite require_permission_run. literals. rewrite Hp. exec. rewrite Hdoc. simpl.
  case_bool_decide as Hrole; simpl; [|done]. by rewrite (Haccess Hrole).
Qed.

(** X21: a validation for the client is acknowledged and not stored.
    For a stored document, a holder of [validate_document_client] (an
    [admin_chantier] only for a site assigned to them) who validates
    it, or withdraws the validation, is answered with success, and the
    database is as it was: the flag assigned is no column of the row.
    For a client the download of the document ends in the same
    uncaught exception after the validation as before.  Of all the
    requests to the document endpoints that write, only a deletion
    that succeeds changes the database, by removing the row. *)
Theorem validation_not_stored (on_disk : Z → bool) (d : db) :
  (∀ validator client document_id document,
     has_permission (default "ouvrier" (role validator)) "validate_document_client"
     = true →
     (default "ouvrier" (role validator) = "admin_chantier" →
      has_chantier_access validator (Document.chantier_id document) = true) →
     role client = Some "client" →
     documents d !! document_id = Some document →
     get_db (validate_document_for_client document_id validator) d = (inr tt, d)
     ∧ get_db (unvalidate_document_for_client document_id validator) d = (inr tt, d)
     ∧ get_db (download_document on_disk document_id client) d = (inl Uncaught, d))
  ∧ (∀ user req,
       (serve_document user req d).2 ≠ d →
       ∃ document_id,
         req = DeleteDocument document_id
         ∧ (serve_document user req d).1 = inr tt
         ∧ is_Some (documents d !! document_id)
         ∧ (serve_document user req d).2 = set_documents (delete document_id) d).
Proof.
  split.
  - intros validator client document_id document Hp Haccess Hclient Hdoc.
    split; [|split].
    + by apply (set_document_for_client_succeeds true _ _ _ document).
    + by apply (set_document_for_client_succeeds false _ _ _ document).
    + rewrite download_document_run, Hclient, Hdoc. simpl. by decide_closed.
  - intros user req Hchange.
    destruct req as [file chantier_id type_document|j|j|j];
      unfold serve_document, void in *; simpl in *.
    + destruct (get_db (upload_document _ _ _ _) d) as [r d'] eqn:Hrun.
      apply upload_document_inv in Hrun as (e & -> & ->). done.
    + destruct (get_db (validate_document_for_client _ _) d) as [r d'] eqn:Hrun.
      apply (set_document_for_client_inv true) in Hrun. by subst.
    + destruct (get_db (unvalidate_document_for_client _ _) d) as [r d'] eqn:Hrun.
      apply (set_document_for_client_inv false) in Hrun. by subst.
    + destruct (get_db (delete_document _ _) d) as [r d'] eqn:Hrun.
      apply delete_document_stored in Hrun as [(e & -> & ->)|(-> & Hj & ->)];
        [done|].
      by exists j.
Qed.

Lemma validation_not_stored_witness :
  get_db (validate_document_for_client 1 sample_admin) sample_documents_db
  = (inr tt, sample_documents_db)
  ∧ get_db (download_document (λ _, true) 1 sample_client) sample_documents_db
    = (inl Uncaught, sample_documents_db).
Proof.
  destruct (proj1 (validation_not_stored (λ _, true) sample_documents_db)
              sample_admin sample_client 1 sample_document)
    as (Hvalidate & _ & Hdownload).
  - reflexivity.
  - discriminate.
  - reflexivity.
  - reflexivity.
  - exact (conj Hvalidate Hdownload).
Defined.

Lemma list_documents_run site type_document valide_client user d :
  get_db (list_documents site type_document valide_client user) d =
  let role' := default RoleEnum.OUVRIER (role user) in
  if has_permission role' "view_documents" then
    if bool_decide (role' = RoleEnum.CLIENT) then (inl Uncaught, d)
    else if negb (bool_decide (or_zero site = 0))
            && negb (py_in role' [ RoleEnum.ADMIN_GENERAL; RoleEnum.DIRECTION ])
            && negb (bool_decide (role' = RoleEnum.COMPTABLE))
            && negb (has_chantier_access user (or_zero site)) then
      (inl (HTTPException 403), d)
    else
      match valide_client with
      | Some _ => (inl Uncaught, d)
      | None =>
          match select_where
                  (λ r, list_documents_role_filter user r
                        && list_documents_query_filter site type_document r = true)
                  (documents d) with
          | [] => (inr [], d)
          | _ :: _ => (inl Uncaught, d)
          end
      end
  else (inl (HTTPException 403), d).
Proof.
  cbv zeta. unfold list_documents, get_db, bind at 1.
  rewrite require_permission_run.
  destruct (has_permission _ _); [|done].
  unfold bind at 1.
  destruct (bool_decide (_ = RoleEnum.CLIENT)); [done|].
  unfold ret at 1. cbv beta iota.
  destruct (_ && _ && _ && _); [done|].
  destruct valide_client; [done|].
  exec. by destruct (select_where _ _).
Qed.

(** X22: [list_documents] returns no row.  Its response reads
    [d.valide_client] of every row selected, which is no attribute of
    the rows: a response is an empty list, given without writing and
    only when no [valide_client] filter is asked for; with that filter,
    or when a stored document passes the filters of the caller, a
    request that passes the checks ends in an uncaught exception, as
    for [admin_general] or [direction] asking without filter while a
    document is stored.  A caller other than [admin_general],
    [direction] and [comptable] who asks for a site they have no access
    to is answered HTTP 403. *)
Theorem list_documents_returns_no_row (site : option Z)
    (type_document : option string) (valide_client : option bool)
    (user : user_dict) (d : db) :
  let role' := default "ouvrier" (role user) in
  let served := get_db (list_documents site type_document valide_client user) d in
  (∀ rows d', served = (inr rows, d') →
     rows = [] ∧ d' = d ∧ valide_client = None
     ∧ ∀ id document, documents d !! id = Some document →
         list_documents_role_filter user (id, document)
         && list_documents_query_filter site type_document (id, document) = false)
  ∧ (has_permission role' "view_documents" = true →
     role' ∉ ["admin_general"; "direction"; "comptable"] →
     or_zero site ≠ 0 →
     has_chantier_access user (or_zero site) = false →
     served = (inl (HTTPException 403), d))
  ∧ (role' ∈ ["admin_general"; "direction"] →
     is_Some valide_client → served = (inl Uncaught, d))
  ∧ (role' ∈ ["admin_general"; "direction"] →
     site = None → type_document = None →
     documents d ≠ ∅ → served = (inl Uncaught, d)).
Proof.
  intros role' served. subst served.
  rewrite list_documents_run. cbv zeta. literals. fold role'.
  split; [|split; [|split]].
  - intros rows d'. destruct (has_permission _ _); [|done].
    destruct (bool_decide (role' = "client")); [done|].
    destruct (_ && _ && _ && _); [done|].
    destruct valide_client; [done|].
    destruct (select_where _ _) as [|row rows'] eqn:Hrows; [|done].
    intros [= <- <-]. repeat split; try done.
    intros id document Hdoc. apply not_true_is_false. intros Hpass.
    assert (Hin : (id, document) ∈ @nil (Z * Document.t)); [|by apply elem_of_nil in Hin].
    rewrite <- Hrows. by apply elem_of_select_where.
  - intros Hp Hrole Hsite ->.
    assert (Hclient : role' ≠ "client").
    { intros Hr. rewrite Hr in Hp. vm_compute in Hp. discriminate Hp. }
    rewrite Hp.
    rewrite (bool_decide_eq_false_2 (role' = "client")) by done.
    rewrite (bool_decide_eq_false_2 (or_zero site = 0)) by done.
    assert (Hnot : (role' ∉ ["admin_general"; "direction"]) ∧ role' ≠ "comptable")
      by set_solver.
    destruct Hnot as [Hn1 Hn2].
    by rewrite (proj2 (py_in_false _ _) Hn1), (bool_decide_eq_false_2 _ Hn2).
  - intros Hr [b ->]. rewrite !elem_of_cons, elem_of_nil in Hr.
    destruct Hr as [Hr|[Hr|[]]]; rewrite Hr; decide_closed; simpl;
      by rewrite andb_false_r.
  - intros Hr -> -> Hdocs. rewrite !elem_of_cons, elem_of_nil in Hr.
    apply map_choose in Hdocs as (id & document & Hdoc).
    assert (Hin : ∀ P `{!∀ r, Decision (P r)},
              P (id, document) → select_where P (documents d) ≠ []).
    { intros P ? HP Hnil.
      assert (Hin : (id, document) ∈ select_where P (documents d))
        by by apply elem_of_select_where.
      rewrite Hnil in Hin. by apply elem_of_nil in Hin. }
    destruct Hr as [Hr|[Hr|[]]]; rewrite Hr; decide_closed; simpl.
    all: destruct valide_client; [done|].
    all: destruct (select_where _ _) eqn:Hrows; [|done].
    all: exfalso; eapply Hin; [|exact Hrows].
    all: unfold list_documents_role_filter, list_documents_query_filter.
    all: literals; fold role'; rewrite Hr; by decide_closed.
Qed.

Lemma list_documents_returns_no_row_witness :
  get_db (list_documents None None None sample_admin) sample_documents_db
  = (inl Uncaught, sample_documents_db)
  ∧ get_db (list_documents (Some 7) None None sample_chef) sample_documents_db
    = (inl (HTTPException 403), sample_documents_db).
Proof.
  split.
  - apply (proj2 (proj2 (proj2 (list_documents_returns_no_row None None None
                                  sample_admin sample_documents_db)))).
    + apply (bool_decide_unpack _). by vm_compute.
    + reflexivity.
    + reflexivity.
    + intros Hempty. apply (f_equal (λ m, m !! 1)) in Hempty. done.
  - apply (proj1 (proj2 (list_documents_returns_no_row (Some 7) None None
                           sample_chef sample_documents_db))).
    + reflexivity.
    + apply (bool_decide_unpack _). by vm_compute.
    + by vm_compute.
    + reflexivity.
Defined.

(** ** The users table *)

Lemma register_stored data current_user d :
  ∀ r d', get_db (register data current_user) d = (r, d') →
  (∃ e, r = inl e ∧ d' = d)
  ∨ ∃ id user,
      users d !! id = None
      ∧ d' = set_users <[id := user]> d
      ∧ User.role user = UserCreate.role data
      ∧ User.email user = UserCreate.email data
      ∧ User.is_active user = true
      ∧ UserCreate.role data ∈ VALID_ROLES
      ∧ (∀ j v, users d !! j = Some v → User.email v ≠ UserCreate.email data)
      ∧ r = inr (id, user)
      ∧ default "ouvrier" (role current_user) = "admin_general"
      ∧ (UserCreate.role data = "admin_general" →
         ∀ j v, users d !! j = Some v → User.role v ≠ "admin_general")
      ∧ (∀ phone, UserCreate.phone data = Some phone → phone ≠ "" →
         ∀ j v, users d !! j = Some v → User.phone v ≠ Some phone).
Proof.
  wp_start. unfold register. wp_run; eauto.
  all: right; eexists _, _; split; [apply new_id_fresh|];
    repeat (split; [done|]); bool_hyps.
  all: split; [by apply py_in_true|].
  all: split;
    [intros j v Hj Hemail;
     match goal with
     | H : select_where (λ r, User.email r.2 = _) _ = [] |- _ =>
         exact (select_where_nil_inv _ _ j v H Hj Hemail)
     end|].
  all: split; [done|]. all: split; [done|]. all: split.
  all: literals.
  all: try (intros Hr; congruence).
  all: try (intros phone Hphone; congruence).
  all: try (intros Hr j v Hj Hv;
     match goal with
     | H : select_where (λ r, User.role r.2 = _) _ = [] |- _ =>
         exact (select_where_nil_inv _ _ j v H Hj Hv)
     end).
  all: intros phone Hphone Hne j v Hj Hv; simplify_eq;
     match goal with
     | H : select_where (λ r, User.phone r.2 = _) _ = [] |- _ =>
         exact (select_where_nil_inv _ _ j v H Hj Hv)
     end.
Qed.

Lemma setup_first_admin_stored data d :
  ∀ r d', get_db (setup_first_admin data) d = (r, d') →
  (∃ e, r = inl e ∧ d' = d)
  ∨ ∃ id user,
      users d !! id = None
      ∧ d' = set_users <[id := user]> d
      ∧ User.role user = "admin_general"
      ∧ User.email user = UserCreate.email data
      ∧ User.is_active user = true
      ∧ (∀ j v, users d !! j = Some v → User.email v ≠ UserCreate.email data).
Proof.
  wp_start. unfold setup_first_admin. wp_run; eauto.
  right. eexists _, _. split; [apply new_id_fresh|].
  repeat (split; [done|]). intros j v Hj Hemail.
  match goal with
  | H : select_where (λ r, User.email r.2 = _) _ = [] |- _ =>
      exact (select_where_nil_inv _ _ j v H Hj Hemail)
  end.
Qed.

Lemma update_user_role_stored user_id role chantier_id current_user d :
  ∀ r d', get_db (update_user_role user_id role chantier_id current_user) d = (r, d') →
  (∃ e, r = inl e ∧ d' = d)
  ∨ ∃ user,
      users d !! user_id = Some user
      ∧ d' = set_users <[user_id := with_role user role chantier_id]> d
      ∧ User.role user ≠ "admin_general"
      ∧ role ∈ VALID_ROLES
      ∧ user_id ≠ caller_id current_user.
Proof.
  wp_start. unfold update_user_role. wp_run; eauto.
  right. unfold select_by_id in *. repeat case_match; simplify_eq.
  bool_hyps. eexists. repeat (split; [done|]). split; [by apply py_in_true|done].
Qed.

Lemma serve_auth_users_sound current_user req d :
  users_sound d → users_sound (serve_auth current_user req d).2.
Proof.
  unfold users_sound. intros [Hroles Hemails].
  destruct req as [data|data|user_id role' chantier_id|user_id|user_id];
    unfold serve_auth, void; simpl;
    destruct (get_db _ d) as [r d'] eqn:Hrun; simpl.
  - apply register_stored in Hrun
      as [(e & -> & ->)|(id & user & Hid & -> & Hr & He & _ & Hvalid & Hfresh & _)];
      [done|]. simpl. split.
    + apply map_Forall_insert_2; [by rewrite Hr|done].
    + apply (unique_key_insert_fresh User.email); try done. by rewrite He.
  - apply setup_first_admin_stored in Hrun
      as [(e & -> & ->)|(id & user & Hid & -> & Hr & He & _ & Hfresh)];
      [done|]. simpl. split.
    + apply map_Forall_insert_2; [|done]. rewrite Hr.
      apply (bool_decide_unpack _). by vm_compute.
    + apply (unique_key_insert_fresh User.email); try done. by rewrite He.
  - apply update_user_role_stored in Hrun
      as [(e & -> & ->)|(user & Hu & -> & _ & Hvalid & _)];
      [done|]. simpl. split.
    + apply map_Forall_insert_2; done.
    + by eapply (unique_key_insert_same User.email).
  - apply deactivate_user_inv in Hrun
      as [(e & -> & ->)|(user & Hu & _ & ->)];
      [done|]. simpl. split.
    + apply map_Forall_insert_2; [|done]. exact (Hroles _ _ Hu).
    + by eapply (unique_key_insert_same User.email).
  - apply activate_user_inv in Hrun
      as [(e & -> & ->)|(user & Hu & ->)];
      [done|]. simpl. split.
    + apply map_Forall_insert_2; [|done]. exact (Hroles _ _ Hu).
    + by eapply (unique_key_insert_same User.email).
Qed.

(** X23: the users table stays sound.  If every stored role is one of
    the eight valid roles and no two accounts share an email address,
    the same holds after any sequence of register, setup-admin,
    role-change, deactivate and activate requests. *)
Theorem users_table_sound (reqs : list (user_dict * auth_request)) (d : db) :
  users_sound d → users_sound (serve_auths reqs d).2.
Proof.
  revert d. induction reqs as [|[current_user req] reqs IH]; intros d Hd; simpl;
    [done|].
  pose proof (serve_auth_users_sound current_user req d Hd) as Hstep.
  destruct (serve_auth current_user req d) as [r d1]. simpl in *.
  specialize (IH d1 Hstep). by destruct (serve_auths reqs d1) as [rs d2].
Qed.


Lemma sample_accounts_sound : users_sound sample_accounts_db.
Proof.
  split.
  - apply (bool_decide_unpack _). by vm_compute.
  - intros i j u v Hi Hj. simpl in Hi, Hj.
    apply lookup_insert_Some in Hi as [[<- <-]|[_ Hi]];
      apply lookup_insert_Some in Hj as [[<- <-]|[_ Hj]]; try done.
    + by apply lookup_singleton_Some in Hj as [<- <-].
    + by apply lookup_singleton_Some in Hi as [<- <-].
    + apply lookup_singleton_Some in Hi as [<- <-].
      by apply lookup_singleton_Some in Hj as [<- <-].
Qed.

Lemma users_table_sound_witness :
  users_sound sample_accounts_db
  ∧ users_sound
      (serve_auths [ (sample_admin, Register (sample_user_create "comptable"));
                     (sample_admin, UpdateRole 2 "magasinier" None) ]
         sample_accounts_db).2.
Proof.
  split; [exact sample_accounts_sound|].
  apply users_table_sound. exact sample_accounts_sound.
Defined.

(** X24: the administrator account is out of reach.  No request to the
    users endpoints, by any caller, removes the account holding
    [admin_general], changes its role or its email address, or, when it
    is active, changes it at all. *)
Theorem admin_general_account_protected (current_user : user_dict)
    (req : auth_request) (d : db) (id : Z) (user : User.t) :
  users d !! id = Some user →
  User.role user = "admin_general" →
  ∃ user', users (serve_auth current_user req d).2 !! id = Some user'
           ∧ User.role user' = "admin_general"
           ∧ User.email user' = User.email user
           ∧ (User.is_active user = true → user' = user).
Proof.
  intros Hu Hrole.
  destruct req as [data|data|user_id role' chantier_id|user_id|user_id];
    unfold serve_auth, void; simpl;
    destruct (get_db _ d) as [r d'] eqn:Hrun; simpl.
  - apply register_stored in Hrun
      as [(e & -> & ->)|(id' & new & Hid & -> & _)]; [by eauto|].
    simpl. exists user. rewrite lookup_insert_ne by congruence. done.
  - apply setup_first_admin_stored in Hrun
      as [(e & -> & ->)|(id' & new & Hid & -> & _)]; [by eauto|].
    simpl. exists user. rewrite lookup_insert_ne by congruence. done.
  - apply update_user_role_stored in Hrun
      as [(e & -> & ->)|(target & Ht & -> & Hne & _)]; [by eauto|].
    simpl. exists user. rewrite lookup_insert_ne by (intros ->; by simplify_eq). done.
  - apply deactivate_user_inv in Hrun
      as [(e & -> & ->)|(target & Ht & Hne & ->)]; [by eauto|].
    simpl. exists user. rewrite lookup_insert_ne by (intros ->; by simplify_eq). done.
  - apply activate_user_inv in Hrun
      as [(e & -> & ->)|(target & Ht & ->)]; [by eauto|].
    simpl. destruct (decide (user_id = id)) as [->|Hne].
    + rewrite lookup_insert_eq. eexists. split; [done|]. simplify_eq.
      repeat split; try done. intros Hactive. destruct user. simpl in *. by subst.
    + exists user. by rewrite lookup_insert_ne.
Qed.

Lemma admin_general_account_protected_witness :
  users sample_accounts_db !! 1
  = Some (sample_account "awa@nexus.sn" "admin_general" true)
  ∧ users (serve_auth sample_admin (Deactivate 1) sample_accounts_db).2 !! 1
    = Some (sample_account "awa@nexus.sn" "admin_general" true).
Proof.
  assert (Hu : users sample_accounts_db !! 1
               = Some (sample_account "awa@nexus.sn" "admin_general" true))
    by reflexivity.
  split; [exact Hu|].
  destruct (admin_general_account_protected sample_admin (Deactivate 1)
              sample_accounts_db 1 _ Hu eq_refl) as (user' & Hu' & _ & _ & Hsame).
  rewrite Hu'. f_equal. apply Hsame. reflexivity.
Defined.

Lemma deactivate_user_run user_id current_user d :
  get_db (deactivate_user user_id current_user) d =
  if bool_decide (default RoleEnum.OUVRIER (role current_user) = RoleEnum.ADMIN_GENERAL)
  then
    match users d !! user_id with
    | None => (inl (HTTPException 404), d)
    | Some user =>
        if bool_decide (user_id = caller_id current_user) then
          (inl (HTTPException 400), d)
        else if bool_decide (User.role user = RoleEnum.ADMIN_GENERAL) then
          (inl (HTTPException 403), d)
        else (inr tt, set_users <[user_id := with_is_active user false]> d)
    end
  else (inl (HTTPException 403), d).
Proof.
  unfold deactivate_user, get_db, bind at 1. rewrite require_admin_run.
  destruct (bool_decide (_ = RoleEnum.ADMIN_GENERAL)); [|done].
  exec. destruct (users d !! user_id) as [user|]; simpl; [|done].
  destruct (bool_decide (user_id = _)); [done|].
  by destruct (bool_decide (User.role user = _)).
Qed.

Lemma activate_user_run user_id current_user d :
  get_db (activate_user user_id current_user) d =
  if bool_decide (default RoleEnum.OUVRIER (role current_user) = RoleEnum.ADMIN_GENERAL)
  then
    match users d !! user_id with
    | None => (inl (HTTPException 404), d)
    | Some user => (inr tt, set_users <[user_id := with_is_active user true]> d)
    end
  else (inl (HTTPException 403), d).
Proof.
  unfold activate_user, get_db, bind at 1. rewrite require_admin_run.
  destruct (bool_decide (_ = RoleEnum.ADMIN_GENERAL)); [|done].
  exec. by destruct (users d !! user_id) as [user|].
Qed.

(** X25: [admin_general] suspends and restores an account.  For an
    active account of another role than [admin_general] and other than
    the caller's own, [deactivate_user] succeeds and clears [is_active],
    and [activate_user] then restores the database as it was; the
    caller's own account is refused with HTTP 400. *)
Theorem deactivate_activate_round_trip (current_user : user_dict) (user_id : Z)
    (d : db) (user : User.t) :
  default "ouvrier" (role current_user) = "admin_general" →
  users d !! user_id = Some user →
  User.is_active user = true →
  (user_id = caller_id current_user →
   get_db (deactivate_user user_id current_user) d = (inl (HTTPException 400), d))
  ∧ (user_id ≠ caller_id current_user → User.role user ≠ "admin_general" →
     ∃ d1, get_db (deactivate_user user_id current_user) d = (inr tt, d1)
           ∧ users d1 !! user_id = Some (with_is_active user false)
           ∧ get_db (activate_user user_id current_user) d1 = (inr tt, d)).
Proof.
  intros Hadmin Hu Hactive. split.
  - intros Hself. rewrite deactivate_user_run. literals.
    by rewrite Hadmin, Hu, (bool_decide_eq_true_2 _ Hself).
  - intros Hother Hrole. rewrite deactivate_user_run. literals.
    rewrite Hadmin, Hu. simpl.
    rewrite (bool_decide_eq_false_2 _ Hother), (bool_decide_eq_false_2 _ Hrole).
    eexists. split; [done|]. simpl. rewrite lookup_insert_eq. split; [done|].
    rewrite activate_user_run. literals. rewrite Hadmin. simpl.
    rewrite lookup_insert_eq.
    f_equal. destruct d as [cs ds ms mv us docs]. unfold set_users. simpl in *.
    f_equal. rewrite insert_insert_eq. apply insert_id. rewrite Hu. f_equal.
    destruct user. simpl in *. by subst.
Qed.

Lemma deactivate_activate_round_trip_witness :
  ∃ d1, get_db (deactivate_user 2 sample_admin) sample_accounts_db = (inr tt, d1)
        ∧ users d1 !! 2
          = Some (sample_account "ibou@nexus.sn" "chef_chantier" false)
        ∧ get_db (activate_user 2 sample_admin) d1 = (inr tt, sample_accounts_db).
Proof.
  apply (proj2 (deactivate_activate_round_trip sample_admin 2 sample_accounts_db
                  (sample_account "ibou@nexus.sn" "chef_chantier" true)
                  eq_refl eq_refl eq_refl)).
  - vm_compute. discriminate.
  - discriminate.
Defined.

(** X26: what a registration took.  When [register] answers with an
    account, the caller is [admin_general], the requested role is one
    of the eight valid roles, it is not [admin_general] while an
    account holds that role, no account had the email address, and no
    account had the phone number if one is given; the account is stored
    under a new id, active, with the requested role and email address,
    and nothing else is written. *)
Theorem register_accepts_only (data : UserCreate.t) (current_user : user_dict)
    (d d' : db) (id : Z) (user : User.t) :
  get_db (register data current_user) d = (inr (id, user), d') →
  default "ouvrier" (role current_user) = "admin_general"
  ∧ UserCreate.role data ∈ VALID_ROLES
  ∧ (UserCreate.role data = "admin_general" →
     ∀ j v, users d !! j = Some v → User.role v ≠ "admin_general")
  ∧ (∀ j v, users d !! j = Some v → User.email v ≠ UserCreate.email data)
  ∧ (∀ phone, UserCreate.phone data = Some phone → phone ≠ "" →
     ∀ j v, users d !! j = Some v → User.phone v ≠ Some phone)
  ∧ users d !! id = None
  ∧ d' = set_users <[id := user]> d
  ∧ User.role user = UserCreate.role data
  ∧ User.email user = UserCreate.email data
  ∧ User.is_active user = true.
Proof.
  intros Hrun.
  apply register_stored in Hrun
    as [(e & He & _)|(id' & user' & Hfresh & -> & Hrole & Hmail & Hactive & Hvalid
                      & Hemail & [= <- <-] & Hadmin & Hone & Hphone)]; [done|].
  repeat split; done.
Qed.

Lemma register_accepts_only_witness :
  ∃ id user d',
    get_db (register (sample_user_create "comptable") sample_admin) sample_accounts_db
    = (inr (id, user), d')
    ∧ users sample_accounts_db !! id = None
    ∧ User.role user = "comptable"
    ∧ User.is_active user = true.
Proof.
  eexists _, _, _. split; [vm_compute; reflexivity|].
  pose proof (register_accepts_only (sample_user_create "comptable") sample_admin
                sample_accounts_db _ _ _ ltac:(vm_compute; reflexivity))
    as (_ & _ & _ & _ & _ & Hfresh & _ & Hrole & _ & Hactive).
  exact (conj Hfresh (conj Hrole Hactive)).
Defined.

(** ** The budget of a site *)

Lemma update_chantier_inv id data user d :
  ∀ r d', get_db (update_chantier id data user) d = (r, d') →
  (∃ e, r = inl e ∧ d' = d)
  ∨ ∃ chantier,
      chantiers d !! id = Some chantier
      ∧ ((ChantierUpdate.budget_prevu data = None
          ∧ r = inr chantier
          ∧ d' = set_chantiers <[id := chantier]> d)
         ∨ (∃ value, ChantierUpdate.budget_prevu data = Some value
                     ∧ default "ouvrier" (role user) = "admin_general"
                     ∧ r = inr (with_budget_prevu chantier (Some value))
                     ∧ d' = set_chantiers
                              <[id := with_budget_prevu chantier (Some value)]> d)).
Proof.
  wp_start. unfold update_chantier. wp_run; eauto.
  all: unfold select_by_id in *; repeat case_match; simplify_eq; bool_hyps.
  all: right; eexists; (split; [done|]).
  - right. eexists. split; [done|].
    match goal with H : _ && _ = false |- _ => apply andb_false_iff in H as [H|H] end;
      bool_hyps; [by exfalso; eauto|]. literals. done.
  - by left.
Qed.

(** X27: only the administrator changes a budget.  [update_chantier]
    never changes the [budget_consomme] of any site, changes no other
    site than the one addressed, and changes the [budget_prevu] of that
    site only at the request of [admin_general], to the value given;
    the expenses are left alone. *)
Theorem update_chantier_budget (id : Z) (data : ChantierUpdate.t) (user : user_dict)
    (d : db) :
  let d' := (get_db (update_chantier id data user) d).2 in
  depenses d' = depenses d
  ∧ (∀ site, budget_consomme_of d' site = budget_consomme_of d site)
  ∧ (∀ site, site ≠ id → chantiers d' !! site = chantiers d !! site)
  ∧ (∀ before after,
       chantiers d !! id = Some before → chantiers d' !! id = Some after →
       Chantier.budget_prevu after = Chantier.budget_prevu before
       ∨ (default "ouvrier" (role user) = "admin_general"
          ∧ is_Some (ChantierUpdate.budget_prevu data)
          ∧ Chantier.budget_prevu after = ChantierUpdate.budget_prevu data)).
Proof.
  destruct (get_db _ d) as [r d'] eqn:Hrun. simpl.
  apply update_chantier_inv in Hrun
    as [(e & -> & ->)|(chantier & Hc & [(Hnone & -> & ->)|
                                        (value & Hsome & Hadmin & -> & ->)])].
  - repeat split; try done. intros before after Hb Ha. left. congruence.
  - simpl. rewrite (insert_id _ _ _ Hc). repeat split; try done.
    + intros site. unfold budget_consomme_of. simpl. by rewrite (insert_id _ _ _ Hc).
    + intros before after Hb Ha. left. congruence.
  - simpl. repeat split; try done.
    + intros site. unfold budget_consomme_of. simpl.
      destruct (decide (id = site)) as [<-|Hne].
      * by rewrite lookup_insert_eq, Hc.
      * by rewrite lookup_insert_ne.
    + intros site Hne. by rewrite lookup_insert_ne.
    + intros before after Hb Ha. rewrite lookup_insert_eq in Ha.
      simplify_eq. right. rewrite Hsome. simpl. eauto.
Qed.

Lemma update_chantier_budget_witness :
  let data := {| ChantierUpdate.budget_prevu := Some 2000 |} in
  let d' := (get_db (update_chantier 5 data sample_admin) (sample_db "en_attente")).2 in
  chantiers (sample_db "en_attente") !! 5 = Some sample_chantier
  ∧ chantiers d' !! 5 = Some (with_budget_prevu sample_chantier (Some 2000))
  ∧ budget_consomme_of d' 5 = Some 100.
Proof.
  assert (Hb : chantiers (sample_db "en_attente") !! 5 = Some sample_chantier)
    by reflexivity.
  split; [exact Hb|]. split; [by vm_compute|].
  rewrite (proj1 (proj2 (update_chantier_budget 5
                           {| ChantierUpdate.budget_prevu := Some 2000 |}
                           sample_admin (sample_db "en_attente"))) 5).
  reflexivity.
Defined.
